(** * mcp-sql: connection and query-execution core

    A shallow embedding of the TypeScript sources of the gateway's core:
    the alert entity ([PerformanceAlert]), the database adapters
    ([MSSQLAdapter], [MySQLAdapter], [PostgreSQLAdapter]), the connection
    manager ([DatabaseConnectionManager]), the query service
    ([QueryService]), the schema service ([SchemaService]) and the
    describe-table handler ([SchemaHandler]).

    After these come the rest of what is built on them: the life cycle of
    the adapters and of the alert, the other methods of the manager, the
    batches, statistics and history of the query service, the schema
    cache, [MetricsCollector], [Logger], [QueryExecutorImpl] and
    [InMemoryPerformanceAlertRepository].

    Conventions used throughout:
    - a JavaScript [Date] is its millisecond count, a [Z]; a method that
      reads the clock ([new Date()], [Date.now()]) takes the instant read as
      an argument or finds it in the state it runs in;
    - a method that changes its object and may throw is a function from
      the state before to an [Outcome] ([Returned v] or [Thrown e]) and the
      state after; an [await] is the call it waits for;
    - JavaScript numbers that hold millisecond counts or row counts are
      integers here; where the code divides, the numbers are the IEEE 754
      doubles of JavaScript ([JsNumber]); the two rounded divisions of the
      query statistics are left to a parameter;
    - a JavaScript string is the bytes of its UTF-8 form, and its length
      and [substring] count UTF-16 code units ([JsString]);
    - calls of the logger are kept where a property speaks of them (the
      query service) and dropped elsewhere. *)

From Stdlib Require Import ZArith List String Ascii Bool Lia.
From Stdlib Require PrimFloat SpecFloat FloatOps.
From stdpp Require Import base option list strings pretty gmap.

Import ListNotations.

(** ** Thrown values and outcomes *)

(** What the modelled code throws: a plain [Error] with its message, or the
    domain's [SchemaValidationError] (domain/database/entities/Database.ts). *)
Inductive Exn : Type :=
| JsError (message : string)
| SchemaValidationError (objectType objectName validationIssue message : string).

(** [error instanceof Error ? error.message : String(error)]; the message of
    a [SchemaValidationError] is the one its constructor builds. *)
Definition errorMessage (e : Exn) : string :=
  match e with
  | JsError m => m
  | SchemaValidationError ot on vi m =>
      (m ++ ": " ++ vi ++ " for " ++ ot ++ " '" ++ on ++ "'")%string
  end.

Definition isSchemaValidationError (e : Exn) : bool :=
  match e with
  | SchemaValidationError _ _ _ _ => true
  | JsError _ => false
  end.

Inductive Outcome (A : Type) : Type :=
| Returned (value : A)
| Thrown (error : Exn).

Arguments Returned {A} value.
Arguments Thrown {A} error.

Definition isThrown {A : Type} (o : Outcome A) : bool :=
  match o with
  | Thrown _ => true
  | Returned _ => false
  end.

(** ** Code that changes an object and may throw

    A method of an object of state [S] that returns an [A] or throws is a
    function from the state before to the outcome and the state after; a
    [throw] keeps the changes made before it, as in JavaScript. *)

Definition Eff (S A : Type) : Type := S -> Outcome A * S.

Definition ret {S A : Type} (a : A) : Eff S A := fun s => (Returned a, s).

Definition throw {S A : Type} (e : Exn) : Eff S A := fun s => (Thrown e, s).

Definition bind {S A B : Type} (m : Eff S A) (k : A -> Eff S B) : Eff S B :=
  fun s =>
    match m s with
    | (Returned a, s') => k a s'
    | (Thrown e, s') => (Thrown e, s')
    end.

(** [try { m } catch (error) { h error }] *)
Definition tryCatch {S A : Type} (m : Eff S A) (h : Exn -> Eff S A) : Eff S A :=
  fun s =>
    match m s with
    | (Returned a, s') => (Returned a, s')
    | (Thrown e, s') => h e s'
    end.

Definition gets {S A : Type} (f : S -> A) : Eff S A := fun s => (Returned (f s), s).

Definition modify {S : Type} (f : S -> S) : Eff S unit := fun s => (Returned tt, f s).



Declare Scope eff_scope.
Delimit Scope eff_scope with eff.
Notation "x <- m ;; k" := (bind m (fun x => k))
  (at level 100, m at next level, right associativity) : eff_scope.
Notation "m ;;; k" := (bind m (fun _ => k))
  (at level 100, right associativity) : eff_scope.

(** ** JavaScript numbers *)

Module JsNumber.

(** A number is an IEEE 754 double; [+], [-], [*], [/] and the comparisons
    of JavaScript on numbers are those of [PrimFloat]. *)
Definition number : Type := PrimFloat.float.

(** The number that an integer stands for: the double nearest to it (the
    integer itself up to [2^53]). *)
Definition ofZ (z : Z) : number :=
  FloatOps.SF2Prim (SpecFloat.binary_normalize FloatOps.prec FloatOps.emax z 0 false).

(** [Math.round(x)] of a finite [x]: the nearest integer, a tie going up. *)
Definition round (x : number) : Z :=
  match FloatOps.Prim2SF x with
  | SpecFloat.S754_finite sign m e =>
      let n := if sign then Z.neg m else Z.pos m in
      if (0 <=? e)%Z then (n * 2 ^ e)%Z
      else ((2 * n + 2 ^ (- e)) / (2 * 2 ^ (- e)))%Z
  | _ => 0%Z
  end.

(** [1000 * 60] *)
Lemma minute_in_milliseconds :
  PrimFloat.mul (ofZ 1000) (ofZ 60) = ofZ 60000.
Proof. vm_compute. reflexivity. Qed.

(** [Math.round(2.5)] is 3, [Math.round(-2.5)] is -2, and
    [Math.round((29 / 200) * 100)] is 14: the product is just under 14.5. *)
Example round_examples :
  round (PrimFloat.div (ofZ 5) (ofZ 2)) = 3%Z
  /\ round (PrimFloat.div (ofZ (-5)) (ofZ 2)) = (-2)%Z
  /\ round (PrimFloat.mul (PrimFloat.div (ofZ 29) (ofZ 200)) (ofZ 100)) = 14%Z.
Proof. vm_compute. repeat split. Qed.

End JsNumber.

(** ** JavaScript strings *)

Module JsString.

(** A JavaScript string is a sequence of UTF-16 code units.  A [string]
    holds the bytes of its UTF-8 form (a surrogate that stands alone as the
    three bytes of its code).  The code units a byte accounts for: a byte
    that continues a character none, the first byte of a four-byte
    character (a surrogate pair in UTF-16) two, any other byte one. *)
Definition codeUnits (c : ascii) : nat :=
  let b := N_of_ascii c in
  if (b <? 128)%N then 1
  else if (b <? 192)%N then 0
  else if (b <? 240)%N then 1
  else 2.

(** [s.length] *)
Fixpoint length (s : string) : nat :=
  match s with
  | EmptyString => 0
  | String c rest => codeUnits c + length rest
  end.

(** The first code unit of the four-byte character that starts with the
    byte [c] and goes on in [rest]: its high surrogate, as three bytes. *)
Definition highSurrogate (c : ascii) (rest : string) : string :=
  let byteAt n :=
    match String.get n rest with Some x => N_of_ascii x | None => 128%N end in
  let top :=
    (N.shiftl (N.land (N_of_ascii c) 7) 8 + N.shiftl (N.land (byteAt 0%nat) 63) 2
     + N.shiftr (N.land (byteAt 1%nat) 63) 4 - 64)%N in
  let unit := (55296 + top)%N in
  String (ascii_of_N 237)
    (String (ascii_of_N (128 + N.land (N.shiftr unit 6) 63))
       (String (ascii_of_N (128 + N.land unit 63)) EmptyString)).

(** [s.substring(0, k)]: the first [k] code units; when the cut falls
    inside a surrogate pair the high surrogate is kept alone. *)
Fixpoint substringTo (k : nat) (s : string) : string :=
  match s with
  | EmptyString => EmptyString
  | String c rest =>
      let u := codeUnits c in
      if (u <=? k)%nat then String c (substringTo (k - u) rest)
      else if (k =? 1)%nat && (u =? 2)%nat then highSurrogate c rest
      else EmptyString
  end.

(** The strings of ASCII characters only: one byte and one code unit each. *)
Fixpoint isAscii (s : string) : bool :=
  match s with
  | EmptyString => true
  | String c rest => (N_of_ascii c <? 128)%N && isAscii rest
  end.

Lemma codeUnits_ascii (c : ascii) : (N_of_ascii c <? 128)%N = true -> codeUnits c = 1.
Proof. intros H. unfold codeUnits. cbv zeta. rewrite H. reflexivity. Qed.

Lemma length_ascii (s : string) : isAscii s = true -> length s = String.length s.
Proof.
  induction s as [|c rest IH]; [reflexivity|].
  cbn [isAscii length String.length]. intros H. apply andb_true_iff in H as [Hc Hr].
  rewrite (codeUnits_ascii c Hc), (IH Hr). reflexivity.
Qed.

Lemma substringTo_ascii (k : nat) (s : string) :
  isAscii s = true -> substringTo k s = String.substring 0 k s.
Proof.
  revert k. induction s as [|c rest IH]; intros k H.
  - destruct k; reflexivity.
  - cbn [isAscii] in H. apply andb_true_iff in H as [Hc Hr].
    cbn [substringTo]. cbv zeta. rewrite (codeUnits_ascii c Hc).
    destruct k as [|k]; [reflexivity|].
    cbn [Nat.leb String.substring]. rewrite Nat.sub_succ, Nat.sub_0_r, (IH k Hr).
    reflexivity.
Qed.

Lemma substring_whole (k : nat) (s : string) :
  (String.length s <= k)%nat -> String.substring 0 k s = s.
Proof.
  revert k. induction s as [|c rest IH]; intros k H.
  - destruct k; reflexivity.
  - destruct k as [|k]; cbn [String.length] in H; [lia|].
    cbn [String.substring]. rewrite IH by lia. reflexivity.
Qed.

Lemma substringTo_whole (k : nat) (s : string) :
  (length s <= k)%nat -> substringTo k s = s.
Proof.
  revert k. induction s as [|c rest IH]; intros k H; [reflexivity|].
  cbn [length] in H. cbn [substringTo]. cbv zeta.
  destruct (Nat.leb_spec (codeUnits c) k) as [L|L]; [|lia].
  rewrite IH by lia. reflexivity.
Qed.

Lemma append_empty (s : string) : (s ++ "")%string = s.
Proof.
  induction s as [|c rest IH]; [reflexivity|].
  change (String c (rest ++ "")%string = String c rest). rewrite IH. reflexivity.
Qed.

(** Sixty characters of three bytes each are sixty code units; the first
    character outside the basic plane is two, and cut after one code unit
    it leaves its high surrogate, U+D83D for U+1F600. *)
Definition cjk : string :=
  String (ascii_of_N 228) (String (ascii_of_N 184) (String (ascii_of_N 173) EmptyString)).

Definition grinningFace : string :=
  String (ascii_of_N 240) (String (ascii_of_N 159)
    (String (ascii_of_N 152) (String (ascii_of_N 128) EmptyString))).

Fixpoint repeated (n : nat) (s : string) : string :=
  match n with
  | O => EmptyString
  | S n' => (s ++ repeated n' s)%string
  end.

Example code_unit_examples :
  String.length (repeated 60 cjk) = 180
  /\ length (repeated 60 cjk) = 60
  /\ substringTo 100 (repeated 60 cjk) = repeated 60 cjk
  /\ length grinningFace = 2
  /\ substringTo 2 grinningFace = grinningFace
  /\ substringTo 1 grinningFace
     = String (ascii_of_N 237) (String (ascii_of_N 160) (String (ascii_of_N 189) EmptyString)).
Proof. vm_compute. repeat split. Qed.

End JsString.

(** ** PerformanceAlert (domain/performance/entities) *)

Module Alert.

Inductive AlertType : Type :=
| connection_pool_high_utilization
| slow_query_detected
| high_cpu_usage
| high_memory_usage
| high_disk_usage
| connection_timeout
| query_timeout.

Inductive AlertSeverity : Type := low | medium | high | critical.

Inductive AlertStatus : Type := active | acknowledged | resolved.

Definition AlertStatus_eqb (x y : AlertStatus) : bool :=
  match x, y with
  | active, active | acknowledged, acknowledged | resolved, resolved => true
  | _, _ => false
  end.

Record PerformanceAlert : Type := mkAlert {
  _id : string;
  _type : AlertType;
  _severity : AlertSeverity;
  _message : string;
  _details : list (string * string);
  _createdAt : Z;
  _status : AlertStatus;
  _acknowledgedAt : option Z;
  _resolvedAt : option Z
}.

(** [new PerformanceAlert(id, type, severity, message, details, createdAt)]:
    the field initialisers give [active] and no timestamps. *)
Definition newAlert (id : string) (ty : AlertType) (sev : AlertSeverity)
    (msg : string) (details : list (string * string)) (createdAt : Z)
    : PerformanceAlert :=
  mkAlert id ty sev msg details createdAt active None None.

Definition acknowledge (now : Z) (a : PerformanceAlert) : Outcome PerformanceAlert :=
  if AlertStatus_eqb (_status a) resolved
  then Thrown (JsError "Cannot acknowledge a resolved alert")
  else Returned (mkAlert (_id a) (_type a) (_severity a) (_message a) (_details a)
                   (_createdAt a) acknowledged (Some now) (_resolvedAt a)).

Definition resolve (now : Z) (a : PerformanceAlert) : PerformanceAlert :=
  mkAlert (_id a) (_type a) (_severity a) (_message a) (_details a)
    (_createdAt a) resolved (_acknowledgedAt a) (Some now).

Definition isActive (a : PerformanceAlert) : bool := AlertStatus_eqb (_status a) active.
Definition isAcknowledged (a : PerformanceAlert) : bool := AlertStatus_eqb (_status a) acknowledged.
Definition isResolved (a : PerformanceAlert) : bool := AlertStatus_eqb (_status a) resolved.

Definition getDuration (now : Z) (a : PerformanceAlert) : Z :=
  (match _resolvedAt a with Some t => t | None => now end - _createdAt a)%Z.

(** [(now.getTime() - this._createdAt.getTime()) / (1000 * 60)], computed
    on doubles as the code does. *)
Definition minutesSinceCreated (now : Z) (a : PerformanceAlert) : JsNumber.number :=
  PrimFloat.div
    (PrimFloat.sub (JsNumber.ofZ now) (JsNumber.ofZ (_createdAt a)))
    (PrimFloat.mul (JsNumber.ofZ 1000) (JsNumber.ofZ 60)).

(** [return minutesSinceCreated > thresholdMinutes] *)
Definition shouldEscalate (now : Z) (thresholdMinutes : JsNumber.number)
    (a : PerformanceAlert) : bool :=
  if negb (AlertStatus_eqb (_status a) active) then false
  else PrimFloat.ltb thresholdMinutes (minutesSinceCreated now a).

(** [shouldEscalate()]: the default of the parameter is 30. *)
Definition defaultThresholdMinutes : JsNumber.number := JsNumber.ofZ 30.

(** The alerts a program can hold: built by the constructor and changed
    only through [acknowledge] and [resolve]. *)
Inductive reachable : PerformanceAlert -> Prop :=
| reach_new id ty sev msg details createdAt :
    reachable (newAlert id ty sev msg details createdAt)
| reach_acknowledge now a a' :
    reachable a -> acknowledge now a = Returned a' -> reachable a'
| reach_resolve now a :
    reachable a -> reachable (resolve now a).

Lemma AlertStatus_eqb_eq x y : AlertStatus_eqb x y = true <-> x = y.
Proof. destruct x, y; simpl; split; congruence. Qed.

Lemma AlertStatus_eqb_neq x y : AlertStatus_eqb x y = false <-> x <> y.
Proof. destruct x, y; simpl; split; congruence. Qed.

(** Each of the three statuses is held by some reachable alert. *)
Lemma every_status_reachable (st : AlertStatus) :
  exists a, reachable a /\ _status a = st.
Proof.
  pose (a0 := newAlert "a1" high_cpu_usage high "cpu" [] 0).
  assert (R0 : reachable a0) by constructor.
  destruct st.
  - exists a0. split; [exact R0 | reflexivity].
  - eexists. split; [eapply (reach_acknowledge 5 a0); [exact R0 | reflexivity] | reflexivity].
  - exists (resolve 7 a0). split; [constructor; exact R0 | reflexivity].
Qed.

Lemma acknowledge_throws_iff now a :
  (exists e, acknowledge now a = Thrown e) <-> _status a = resolved.
Proof.
  unfold acknowledge. destruct (AlertStatus_eqb (_status a) resolved) eqn:E.
  - apply AlertStatus_eqb_eq in E. split; [intros _; exact E | intros _; eauto].
  - apply AlertStatus_eqb_neq in E. split; [intros [e He]; discriminate | intros H; contradiction].
Qed.

(** The age the comparison uses is the quotient, as a double, of the
    difference of the two instants by 60000. *)
Lemma minutesSinceCreated_quotient now a :
  minutesSinceCreated now a
  = PrimFloat.div (PrimFloat.sub (JsNumber.ofZ now) (JsNumber.ofZ (_createdAt a)))
      (JsNumber.ofZ 60000).
Proof. unfold minutesSinceCreated. rewrite JsNumber.minute_in_milliseconds. reflexivity. Qed.

Lemma shouldEscalate_true_iff now t a :
  shouldEscalate now t a = true <->
  _status a = active
  /\ PrimFloat.ltb t
       (PrimFloat.div (PrimFloat.sub (JsNumber.ofZ now) (JsNumber.ofZ (_createdAt a)))
          (JsNumber.ofZ 60000)) = true.
Proof.
  rewrite <- minutesSinceCreated_quotient. unfold shouldEscalate.
  destruct (AlertStatus_eqb (_status a) active) eqn:E; cbn [negb].
  - apply AlertStatus_eqb_eq in E. split; [intros H; split; [exact E | exact H] | intros [_ H]; exact H].
  - apply AlertStatus_eqb_neq in E. split; [discriminate | intros [H _]; contradiction].
Qed.

(** An active alert created at instant 0, asked with the default threshold
    of 30 minutes: not escalated at 1800000 ms, escalated one millisecond
    later.  The comparison is between doubles: at 7 ms of age the alert is
    not older than the double [7 / 60000]. *)
Example shouldEscalate_examples :
  let a := newAlert "a1" high_cpu_usage high "cpu" [] 0 in
  shouldEscalate 1800000 defaultThresholdMinutes a = false
  /\ shouldEscalate 1800001 defaultThresholdMinutes a = true
  /\ shouldEscalate 7 (PrimFloat.div (JsNumber.ofZ 7) (JsNumber.ofZ 60000)) a = false
  /\ shouldEscalate 8 (PrimFloat.div (JsNumber.ofZ 7) (JsNumber.ofZ 60000)) a = true
  /\ shouldEscalate 1800001 defaultThresholdMinutes (resolve 5 a) = false.
Proof. vm_compute. repeat split. Qed.

(** C3. For every alert, whatever its status: [resolve] cannot fail and
    leaves the alert resolved with the resolution time set; [acknowledge]
    throws exactly when the alert is resolved and otherwise leaves it
    acknowledged with the acknowledgement time set; [shouldEscalate] is
    false for every alert that is not active, and is true exactly for an
    active alert whose age in minutes, the time since its creation divided
    by 60000 as JavaScript divides numbers, is greater than the threshold. *)
Theorem alert_lifecycle (a : PerformanceAlert) (now : Z)
    (thresholdMinutes : JsNumber.number) :
  (_status (resolve now a) = resolved /\ _resolvedAt (resolve now a) = Some now)
  /\ ((exists e, acknowledge now a = Thrown e) <-> _status a = resolved)
  /\ (_status a <> resolved ->
      exists a', acknowledge now a = Returned a'
                 /\ _status a' = acknowledged /\ _acknowledgedAt a' = Some now)
  /\ (_status a <> active -> shouldEscalate now thresholdMinutes a = false)
  /\ (shouldEscalate now thresholdMinutes a = true <->
      _status a = active
      /\ PrimFloat.ltb thresholdMinutes
           (PrimFloat.div
              (PrimFloat.sub (JsNumber.ofZ now) (JsNumber.ofZ (_createdAt a)))
              (JsNumber.ofZ 60000)) = true).
Proof.
  split; [split; reflexivity|].
  split; [apply acknowledge_throws_iff|].
  split.
  { intros Hns. apply AlertStatus_eqb_neq in Hns.
    unfold acknowledge. rewrite Hns. eexists. split; [reflexivity|]. split; reflexivity. }
  split.
  { intros Hna. apply AlertStatus_eqb_neq in Hna.
    unfold shouldEscalate. rewrite Hna. reflexivity. }
  apply shouldEscalate_true_iff.
Qed.

End Alert.

(** ** Shared data types (types/database.types.ts) *)

Module Types.

Inductive DatabaseType : Type := mssql | mysql | postgresql.

(** The string that stands for each type at run time. *)
Definition typeName (t : DatabaseType) : string :=
  match t with
  | mssql => "mssql"
  | mysql => "mysql"
  | postgresql => "postgresql"
  end.

(** [SqlParameter = string | number | boolean | Date | null | undefined];
    the same values are what a driver puts in the cells of a row. *)
Inductive SqlValue : Type :=
| SqlUndefined
| SqlNull
| SqlNumber (n : Z)
| SqlString (s : string)
| SqlBoolean (b : bool)
| SqlDate (ms : Z).

#[global] Instance SqlValue_eq_dec : EqDecision SqlValue.
Proof. solve_decision. Defined.

(** JavaScript truthiness of a value. *)
Definition truthy (v : SqlValue) : bool :=
  match v with
  | SqlUndefined | SqlNull => false
  | SqlNumber n => negb (n =? 0)%Z
  | SqlString s => negb (String.eqb s "")
  | SqlBoolean b => b
  | SqlDate _ => true
  end.

(** A row of a record set: column name to cell, in column order. *)
Definition Row : Type := list (string * SqlValue).

(** [row.col]: the cell, [undefined] when the row has no such column. *)
Fixpoint field (col : string) (row : Row) : SqlValue :=
  match row with
  | [] => SqlUndefined
  | (c, v) :: rest => if String.eqb c col then v else field col rest
  end.

Record DatabaseConfig : Type := mkConfig {
  host : string;
  port : option Z;
  database : string;
  user : string;
  password : string;
  ssl : option bool
}.

Record QueryOptions : Type := mkOptions {
  timeout : option Z;
  parameters : option (list SqlValue)
}.

Record QueryResult : Type := mkResult {
  success : bool;
  recordset : option (list Row);
  data : option (list Row);
  rowsAffected : Z;
  returnValue : option SqlValue;
  error : option string;
  executionTime : Z
}.

Record ColumnInfo : Type := mkColumn {
  col_name : SqlValue;
  dataType : SqlValue;
  maxLength : SqlValue;
  precision : SqlValue;
  scale : SqlValue;
  isNullable : bool;
  isIdentity : bool;
  isPrimaryKey : bool;
  defaultValue : SqlValue;
  ordinalPosition : SqlValue;
  comment : SqlValue
}.

Inductive TableKind : Type := table | view | system_table.

Record TableInfo : Type := mkTable {
  name : string;
  schema : string;
  type : TableKind;
  columns : list ColumnInfo;
  primaryKeys : list SqlValue;
  foreignKeys : list Row;
  indexes : list Row;
  checkConstraints : option (list Row);
  rowCount : option SqlValue;
  sizeKB : option SqlValue
}.

End Types.

(** ** Database adapters (database/adapters) *)

Module Adapter.
Import Types.

(** *** The drivers

    What the code asks of the driver libraries ([mssql], [mysql2], [pg]).
    A [Pool] is the driver's handle (a connection pool or a connection)
    together with whatever lies behind it; a call that reaches the server
    answers with an error text or a result, the handle afterwards, and the
    time the call took. *)

Record DriverReply (Pool R : Type) : Type := mkReply {
  reply : string + R;
  poolAfter : Pool;
  elapsed : Z
}.

Arguments mkReply {Pool R} reply poolAfter elapsed.
Arguments reply {Pool R} d.
Arguments poolAfter {Pool R} d.
Arguments elapsed {Pool R} d.

(** [result.rowsAffected] of the [mssql] driver: an array of counts, one
    per statement; the code also allows for a single number or nothing. *)
Inductive RowsAffected : Type :=
| AffectedArray (counts : list Z)
| AffectedNumber (n : Z)
| AffectedMissing.

Record MssqlResult : Type := mkMssqlResult {
  ms_recordset : option (list Row);
  ms_rowsAffected : RowsAffected;
  ms_returnValue : option SqlValue
}.

(** The first component of what [mysql2] resolves to: the rows of a
    [SELECT], or a header object that may carry [affectedRows] and
    [insertId], or something else. *)
Inductive MysqlResult : Type :=
| MysqlRows (rows : list Row)
| MysqlHeader (affectedRows : option Z) (insertId : option SqlValue)
| MysqlOther.

Record PgResult : Type := mkPgResult {
  pg_rows : list Row;
  pg_rowCount : option Z
}.

Class Driver (Pool : Type) : Type := {
  (** [new sql.ConnectionPool(cfg)], then [pool.connect()] *)
  mssqlNewPool : DatabaseConfig -> Pool;
  mssqlPoolConnect : Pool -> string + Pool;
  (** [mysql.createConnection(cfg)] *)
  mysqlCreateConnection : DatabaseConfig -> string + Pool;
  (** [new pg.Pool(cfg)] *)
  pgNewPool : DatabaseConfig -> string + Pool;
  (** [pool.close()], [connection.end()], [pool.end()]: the error text when
      it throws *)
  poolClose : Pool -> option string;
  (** [request.query(q)] on a request with the given timeout and inputs *)
  mssqlRequestQuery :
    Pool -> option Z -> list (string * SqlValue) -> string -> DriverReply Pool MssqlResult;
  mysqlExecute : Pool -> string -> list SqlValue -> DriverReply Pool MysqlResult;
  mysqlQuery : Pool -> string -> DriverReply Pool MysqlResult;
  (** [pool.query(text, values)] and [pool.query(text)] *)
  pgQuery : Pool -> string -> option (list SqlValue) -> DriverReply Pool PgResult
}.

Section Adapters.
Context {Pool : Type} `{Driver Pool}.

(** One record for the three subclasses of [BaseDatabaseAdapter]:
    [adapterType] says which class the object is; [pool] is the [pool]
    (MSSQL, PostgreSQL) or [connection] (MySQL) field. *)
Record BaseDatabaseAdapter : Type := mkAdapter {
  adapterType : DatabaseType;
  config : DatabaseConfig;
  connected : bool;
  pool : option Pool
}.

(** [new MSSQLAdapter(cfg)] and its siblings *)
Definition newAdapter (t : DatabaseType) (cfg : DatabaseConfig) : BaseDatabaseAdapter :=
  mkAdapter t cfg false None.

Definition getType (a : BaseDatabaseAdapter) : DatabaseType := adapterType a.
Definition isConnected (a : BaseDatabaseAdapter) : bool := connected a.

Definition productName (t : DatabaseType) : string :=
  match t with
  | mssql => "MSSQL"
  | mysql => "MySQL"
  | postgresql => "PostgreSQL"
  end.

Definition connect : Eff BaseDatabaseAdapter unit := fun a =>
  match adapterType a with
  | mssql =>
      let p := mssqlNewPool (config a) in
      match mssqlPoolConnect p with
      | inr p' => (Returned tt, mkAdapter (adapterType a) (config a) true (Some p'))
      | inl msg =>
          (Thrown (JsError ("MSSQL connection failed: " ++ msg)),
           mkAdapter (adapterType a) (config a) false (Some p))
      end
  | mysql =>
      match mysqlCreateConnection (config a) with
      | inr c => (Returned tt, mkAdapter (adapterType a) (config a) true (Some c))
      | inl msg =>
          (Thrown (JsError ("MySQL connection failed: " ++ msg)),
           mkAdapter (adapterType a) (config a) false (pool a))
      end
  | postgresql =>
      match pgNewPool (config a) with
      | inr p => (Returned tt, mkAdapter (adapterType a) (config a) true (Some p))
      | inl msg =>
          (Thrown (JsError ("PostgreSQL connection failed: " ++ msg)),
           mkAdapter (adapterType a) (config a) false (pool a))
      end
  end.

Definition disconnect : Eff BaseDatabaseAdapter unit := fun a =>
  match pool a with
  | Some p =>
      match poolClose p with
      | Some msg =>
          (Thrown (JsError (productName (adapterType a) ++ " disconnection failed: " ++ msg)), a)
      | None => (Returned tt, mkAdapter (adapterType a) (config a) false None)
      end
  | None => (Returned tt, mkAdapter (adapterType a) (config a) false (pool a))
  end.

(** [if (options?.timeout)]: a timeout that is present and not zero *)
Definition requestTimeout (options : option QueryOptions) : option Z :=
  match options with
  | Some o => match timeout o with
              | Some t => if (t =? 0)%Z then None else Some t
              | None => None
              end
  | None => None
  end.

(** [options.parameters.forEach((param, index) => request.input(`param${index}`, param))] *)
Definition requestInputs (options : option QueryOptions) : list (string * SqlValue) :=
  match options with
  | Some o => match parameters o with
              | Some ps => imap (fun index param => (("param" ++ pretty index)%string, param)) ps
              | None => []
              end
  | None => []
  end.

(** [options?.parameters && options.parameters.length > 0] *)
Definition nonEmptyParameters (options : option QueryOptions) : option (list SqlValue) :=
  match options with
  | Some o => match parameters o with
              | Some [] => None
              | Some ps => Some ps
              | None => None
              end
  | None => None
  end.

Definition sumRowsAffected (r : RowsAffected) : Z :=
  match r with
  | AffectedArray counts => fold_left (fun sum val => (sum + val)%Z) counts 0%Z
  | AffectedNumber n => n
  | AffectedMissing => 0%Z
  end.

(** The [catch] branch of [executeQuery], the same in the three classes. *)
Definition failedResult (msg : string) (time : Z) : QueryResult :=
  mkResult false None None 0 None (Some msg) time.

Definition mssqlResult (r : MssqlResult) (time : Z) : QueryResult :=
  mkResult true (ms_recordset r) (ms_recordset r)
    (sumRowsAffected (ms_rowsAffected r)) (ms_returnValue r) None time.

Definition mysqlResult (r : MysqlResult) (time : Z) : QueryResult :=
  match r with
  | MysqlRows rows => mkResult true (Some rows) (Some rows) (Z.of_nat (length rows)) None None time
  | MysqlHeader affected insertId =>
      let recordset :=
        match insertId with
        | Some v => Some [[("insertId"%string, v)]]
        | None => None
        end in
      mkResult true recordset recordset (default 0%Z affected) None None time
  | MysqlOther => mkResult true None None 0 None None time
  end.

Definition pgResult (r : PgResult) (time : Z) : QueryResult :=
  mkResult true (Some (pg_rows r)) (Some (pg_rows r)) (default 0%Z (pg_rowCount r)) None None time.

(** An adapter together with the clock it runs under: [Date.now()] reads
    the first component, and a call to the driver moves it on by the time
    the call took. *)
Definition Running : Type := (Z * BaseDatabaseAdapter)%type.

Definition finish {R : Type} (startTime : Z) (a : BaseDatabaseAdapter)
    (d : DriverReply Pool R) (convert : R -> Z -> QueryResult)
    : Outcome QueryResult * Running :=
  let endTime := (startTime + elapsed d)%Z in
  let executionTime := (endTime - startTime)%Z in
  (Returned match reply d with
            | inr r => convert r executionTime
            | inl msg => failedResult msg executionTime
            end,
   (endTime, mkAdapter (adapterType a) (config a) (connected a) (Some (poolAfter d)))).

(** [executeQuery(query, options)] of the three classes. *)
Definition executeQuery (query : string) (options : option QueryOptions)
    : Eff Running QueryResult := fun '(startTime, a) =>
  match pool a with
  | None => (Thrown (JsError "Not connected to database."), (startTime, a))
  | Some p =>
      match adapterType a with
      | mssql =>
          finish startTime a
            (mssqlRequestQuery p (requestTimeout options) (requestInputs options) query)
            mssqlResult
      | mysql =>
          finish startTime a
            match nonEmptyParameters options with
            | Some ps => mysqlExecute p query ps
            | None => mysqlQuery p query
            end
            mysqlResult
      | postgresql =>
          finish startTime a (pgQuery p query (nonEmptyParameters options)) pgResult
      end
  end.

(** *** [MSSQLAdapter.getTableInfo]

    The texts of the six metadata queries; the table name is spliced into
    each one as it is (the indentation and the blank first and last
    lines of the template literals are not kept). *)

Definition columnsQuery (tableName : string) : string :=
  ("SELECT
c.COLUMN_NAME as name,
c.DATA_TYPE as type,
c.CHARACTER_MAXIMUM_LENGTH as maxLength,
c.NUMERIC_PRECISION as precision,
c.NUMERIC_SCALE as scale,
c.IS_NULLABLE as isNullable,
c.COLUMN_DEFAULT as defaultValue,
c.ORDINAL_POSITION as ordinalPosition,
COLUMNPROPERTY(OBJECT_ID(c.TABLE_SCHEMA + '.' + c.TABLE_NAME), c.COLUMN_NAME, 'IsIdentity') as isIdentity,
ep.value as columnComment
FROM INFORMATION_SCHEMA.COLUMNS c
LEFT JOIN sys.extended_properties ep ON
ep.major_id = OBJECT_ID(c.TABLE_SCHEMA + '.' + c.TABLE_NAME) AND
ep.minor_id = c.ORDINAL_POSITION AND
ep.name = 'MS_Description'
WHERE c.TABLE_NAME = '" ++ tableName ++ "'
ORDER BY c.ORDINAL_POSITION")%string.

Definition primaryKeysQuery (tableName : string) : string :=
  ("SELECT
COLUMN_NAME as name
FROM INFORMATION_SCHEMA.KEY_COLUMN_USAGE
WHERE TABLE_NAME = '" ++ tableName ++ "'
AND CONSTRAINT_NAME LIKE 'PK_%'")%string.

Definition foreignKeysQuery (tableName : string) : string :=
  ("SELECT
COLUMN_NAME as name,
CONSTRAINT_NAME as constraintName
FROM INFORMATION_SCHEMA.KEY_COLUMN_USAGE
WHERE TABLE_NAME = '" ++ tableName ++ "'
AND CONSTRAINT_NAME LIKE 'FK_%'")%string.

Definition checkConstraintsQuery (tableName : string) : string :=
  ("SELECT
cc.CONSTRAINT_NAME as name,
cc.CHECK_CLAUSE as definition
FROM INFORMATION_SCHEMA.CHECK_CONSTRAINTS cc
INNER JOIN INFORMATION_SCHEMA.CONSTRAINT_COLUMN_USAGE ccu ON cc.CONSTRAINT_NAME = ccu.CONSTRAINT_NAME
WHERE ccu.TABLE_NAME = '" ++ tableName ++ "'")%string.

Definition indexesQuery (tableName : string) : string :=
  ("SELECT
i.name as indexName,
i.type_desc as indexType,
i.is_unique as isUnique
FROM sys.indexes i
INNER JOIN sys.tables t ON i.object_id = t.object_id
WHERE t.name = '" ++ tableName ++ "'
AND i.type > 0")%string.

Definition tableStatsQuery (tableName : string) : string :=
  ("SELECT
p.rows as rowCount,
(SUM(a.total_pages) * 8) as sizeKB
FROM sys.tables t
INNER JOIN sys.partitions p ON t.object_id = p.object_id
INNER JOIN sys.allocation_units a ON p.partition_id = a.container_id
WHERE t.name = '" ++ tableName ++ "' AND p.index_id IN (0,1)
GROUP BY p.rows")%string.

Definition tableQueries (tableName : string) : list string :=
  [columnsQuery tableName; primaryKeysQuery tableName; foreignKeysQuery tableName;
   checkConstraintsQuery tableName; indexesQuery tableName; tableStatsQuery tableName].

(** [result.recordset || []] *)
Definition rowsOrEmpty (r : QueryResult) : list Row := default [] (recordset r).

(** [result.recordset?.map(row => row.name) || []] *)
Definition namesOf (r : QueryResult) : list SqlValue :=
  match recordset r with
  | Some rows => map (field "name") rows
  | None => []
  end.

(** [result.recordset?.[0]?.col || 0] *)
Definition firstOrZero (col : string) (r : QueryResult) : SqlValue :=
  let v := match recordset r with
           | Some (row :: _) => field col row
           | _ => SqlUndefined
           end in
  if truthy v then v else SqlNumber 0.

Definition toColumn (primaryKeyNames : list SqlValue) (row : Row) : ColumnInfo :=
  {| col_name := field "name" row;
     dataType := field "type" row;
     maxLength := field "maxLength" row;
     precision := field "precision" row;
     scale := field "scale" row;
     isNullable := bool_decide (field "isNullable" row = SqlString "YES");
     isIdentity := truthy (field "isIdentity" row);
     isPrimaryKey := bool_decide (field "name" row ∈ primaryKeyNames);
     defaultValue := field "defaultValue" row;
     ordinalPosition := field "ordinalPosition" row;
     comment := field "columnComment" row |}.

(** The object of the [catch] branch: "Return basic table info on error". *)
Definition basicTableInfo (tableName : string) : TableInfo :=
  {| name := tableName; schema := "dbo"; type := table;
     columns := []; primaryKeys := []; foreignKeys := []; indexes := [];
     checkConstraints := None; rowCount := None; sizeKB := None |}.

Definition getTableInfo (tableName : string) : Eff Running TableInfo :=
  tryCatch
    (columnsResult <- executeQuery (columnsQuery tableName) None ;;
     primaryKeysResult <- executeQuery (primaryKeysQuery tableName) None ;;
     foreignKeysResult <- executeQuery (foreignKeysQuery tableName) None ;;
     checkConstraintsResult <- executeQuery (checkConstraintsQuery tableName) None ;;
     indexesResult <- executeQuery (indexesQuery tableName) None ;;
     tableStatsResult <- executeQuery (tableStatsQuery tableName) None ;;
     let primaryKeyNames := namesOf primaryKeysResult in
     let columns :=
       match recordset columnsResult with
       | Some rows => map (toColumn primaryKeyNames) rows
       | None => []
       end in
     ret {| name := tableName;
            schema := "dbo";
            type := table;
            columns := columns;
            primaryKeys := namesOf primaryKeysResult;
            foreignKeys := rowsOrEmpty foreignKeysResult;
            indexes := rowsOrEmpty indexesResult;
            checkConstraints := Some (rowsOrEmpty checkConstraintsResult);
            rowCount := Some (firstOrZero "rowCount" tableStatsResult);
            sizeKB := Some (firstOrZero "sizeKB" tableStatsResult) |})%eff
    (fun error => ret (basicTableInfo tableName)).

(** *** Failures of [executeQuery] *)

(** The driver rejects, with text [msg], the call that an adapter of the
    given class makes for [query] and [options] on the handle [p]. *)
Inductive driverFails
    : DatabaseType -> Pool -> string -> option QueryOptions -> string -> Prop :=
| mssql_query_fails p q o msg :
    reply (mssqlRequestQuery p (requestTimeout o) (requestInputs o) q) = inl msg ->
    driverFails mssql p q o msg
| mysql_execute_fails p q o ps msg :
    nonEmptyParameters o = Some ps ->
    reply (mysqlExecute p q ps) = inl msg ->
    driverFails mysql p q o msg
| mysql_query_fails p q o msg :
    nonEmptyParameters o = None ->
    reply (mysqlQuery p q) = inl msg ->
    driverFails mysql p q o msg
| pg_query_fails p q o msg :
    reply (pgQuery p q (nonEmptyParameters o)) = inl msg ->
    driverFails postgresql p q o msg.

Lemma finish_returns {R : Type} (t : Z) (a : BaseDatabaseAdapter)
    (d : DriverReply Pool R) (convert : R -> Z -> QueryResult) :
  exists r, fst (finish t a d convert) = Returned r
    /\ (forall msg, reply d = inl msg ->
        success r = false /\ rowsAffected r = 0%Z /\ error r = Some msg)
    /\ (forall x, reply d = inr x -> r = convert x (t + elapsed d - t)%Z).
Proof.
  unfold finish. simpl. eexists. split; [reflexivity|].
  destruct (reply d) as [msg|x]; split; intros ? [= <-]; auto.
Qed.

Lemma executeQuery_throws_iff (q : string) (o : option QueryOptions) (t : Z)
    (a : BaseDatabaseAdapter) :
  (exists e, fst (executeQuery q o (t, a)) = Thrown e) <-> pool a = None.
Proof.
  unfold executeQuery. destruct (pool a) as [p|]; simpl.
  - split; [|discriminate]. intros [e He]. exfalso.
    destruct (adapterType a); discriminate.
  - split; [reflexivity | eauto].
Qed.

Lemma mssqlResult_success r time : success (mssqlResult r time) = true.
Proof. reflexivity. Qed.

Lemma mysqlResult_success r time : success (mysqlResult r time) = true.
Proof. destruct r; reflexivity. Qed.

Lemma pgResult_success r time : success (pgResult r time) = true.
Proof. reflexivity. Qed.

(** What [executeQuery] does, by the [pool] field, for each of the three
    adapter classes: it throws exactly when the field is empty, and then
    with "Not connected to database."; when the driver rejects the call,
    it returns a result with [success = false], [rowsAffected = 0] and the
    driver's error text; and a result with [success = false] is returned
    in that case only. *)
Theorem executeQuery_failure_contract (q : string) (o : option QueryOptions) (t : Z)
    (a : BaseDatabaseAdapter) :
  ((exists e, fst (executeQuery q o (t, a)) = Thrown e) <-> pool a = None)
  /\ (pool a = None ->
      fst (executeQuery q o (t, a)) = Thrown (JsError "Not connected to database."))
  /\ (forall p msg,
        pool a = Some p -> driverFails (adapterType a) p q o msg ->
        exists r, fst (executeQuery q o (t, a)) = Returned r
          /\ success r = false /\ rowsAffected r = 0%Z /\ error r = Some msg)
  /\ (forall r,
        fst (executeQuery q o (t, a)) = Returned r -> success r = false ->
        exists p msg,
          pool a = Some p /\ driverFails (adapterType a) p q o msg /\ error r = Some msg).
Proof.
  split; [apply executeQuery_throws_iff|].
  split; [intros Hp; unfold executeQuery; rewrite Hp; reflexivity|].
  split.
  - intros p msg Hp Hfail. unfold executeQuery. rewrite Hp.
    destruct Hfail as [p q o msg Hr|p q o ps msg Hps Hr|p q o msg Hps Hr|p q o msg Hr];
      try rewrite Hps;
      match goal with
      | |- context [finish ?t ?a ?d ?c] =>
          destruct (finish_returns t a d c) as (r & -> & Hbad & _)
      end;
      exists r; (split; [reflexivity | apply Hbad, Hr]).
  - intros r Hret Hfalse. unfold executeQuery in Hret.
    destruct (pool a) as [p|]; [|discriminate]. exists p.
    destruct (adapterType a) eqn:Ety.
    + destruct (finish_returns t a
                  (mssqlRequestQuery p (requestTimeout o) (requestInputs o) q) mssqlResult)
        as (r' & Hr' & Hbad & Hgood).
      rewrite Hr' in Hret. injection Hret as <-.
      destruct (reply (mssqlRequestQuery p (requestTimeout o) (requestInputs o) q))
        as [msg|x] eqn:Erep.
      * exists msg. split; [reflexivity|]. split; [constructor; exact Erep | apply (Hbad msg eq_refl)].
      * rewrite (Hgood x eq_refl), mssqlResult_success in Hfalse. discriminate.
    + destruct (nonEmptyParameters o) as [ps|] eqn:Eps.
      * destruct (finish_returns t a (mysqlExecute p q ps) mysqlResult)
          as (r' & Hr' & Hbad & Hgood).
        rewrite Hr' in Hret. injection Hret as <-.
        destruct (reply (mysqlExecute p q ps)) as [msg|x] eqn:Erep.
        -- exists msg. split; [reflexivity|]. split; [eapply mysql_execute_fails; eassumption
                              | apply (Hbad msg eq_refl)].
        -- rewrite (Hgood x eq_refl), mysqlResult_success in Hfalse. discriminate.
      * destruct (finish_returns t a (mysqlQuery p q) mysqlResult)
          as (r' & Hr' & Hbad & Hgood).
        rewrite Hr' in Hret. injection Hret as <-.
        destruct (reply (mysqlQuery p q)) as [msg|x] eqn:Erep.
        -- exists msg. split; [reflexivity|]. split; [eapply mysql_query_fails; eassumption
                              | apply (Hbad msg eq_refl)].
        -- rewrite (Hgood x eq_refl), mysqlResult_success in Hfalse. discriminate.
    + destruct (finish_returns t a (pgQuery p q (nonEmptyParameters o)) pgResult)
        as (r' & Hr' & Hbad & Hgood).
      rewrite Hr' in Hret. injection Hret as <-.
      destruct (reply (pgQuery p q (nonEmptyParameters o))) as [msg|x] eqn:Erep.
      * exists msg. split; [reflexivity|]. split; [constructor; exact Erep | apply (Hbad msg eq_refl)].
      * rewrite (Hgood x eq_refl), pgResult_success in Hfalse. discriminate.
Qed.

(** C4 (where the code departs from it).  [connect] of an [MSSQLAdapter]
    puts the pool object in the [pool] field before it waits for the
    pool to connect.  When that fails, [connect] throws and the adapter
    is not connected, yet [executeQuery] finds the field set: it asks the
    driver and returns a result where "Not connected to database." was to
    be thrown.  The two sibling classes set the field only once the
    driver has answered: after a [connect] of theirs that throws,
    [executeQuery] throws "Not connected to database.". *)
Theorem executeQuery_after_failed_connect (cfg : DatabaseConfig) (msg : string) (t : Z)
    (q : string) (o : option QueryOptions) :
  mssqlPoolConnect (mssqlNewPool cfg) = inl msg ->
  (fst (connect (newAdapter mssql cfg)) = Thrown (JsError ("MSSQL connection failed: " ++ msg))
   /\ isConnected (snd (connect (newAdapter mssql cfg))) = false
   /\ pool (snd (connect (newAdapter mssql cfg))) = Some (mssqlNewPool cfg)
   /\ exists r,
        fst (executeQuery q o (t, snd (connect (newAdapter mssql cfg)))) = Returned r
        /\ (success r = false ->
            reply (mssqlRequestQuery (mssqlNewPool cfg) (requestTimeout o) (requestInputs o) q)
            = inl (default ""%string (error r))))
  /\ (forall ty,
        ty <> mssql ->
        isThrown (fst (connect (newAdapter ty cfg))) = true ->
        isConnected (snd (connect (newAdapter ty cfg))) = false
        /\ fst (executeQuery q o (t, snd (connect (newAdapter ty cfg))))
           = Thrown (JsError "Not connected to database.")).
Proof.
  intros Hfail. split.
  - unfold connect. cbn [newAdapter adapterType config]. rewrite Hfail.
    cbn [fst snd isConnected connected pool].
    split; [reflexivity|]. split; [reflexivity|]. split; [reflexivity|].
    unfold executeQuery. cbn [pool adapterType snd fst].
    match goal with
    | |- context [finish ?t ?a ?d ?c] =>
        destruct (finish_returns t a d c) as (r & -> & Hbad & Hgood)
    end.
    exists r. split; [reflexivity|]. intros Hr.
    destruct (reply (mssqlRequestQuery (mssqlNewPool cfg) (requestTimeout o)
                       (requestInputs o) q)) as [m|x] eqn:Erep.
    + destruct (Hbad m eq_refl) as (_ & _ & ->). reflexivity.
    + rewrite (Hgood x eq_refl), mssqlResult_success in Hr. discriminate.
  - intros ty Hty Hthrown. unfold connect in *.
    cbn [newAdapter adapterType config pool] in *.
    destruct ty; [contradiction| |].
    + destruct (mysqlCreateConnection cfg) as [m|c]; [|discriminate].
      split; reflexivity.
    + destruct (pgNewPool cfg) as [m|c]; [|discriminate].
      split; reflexivity.
Qed.

(** *** [getTableInfo] on a table the server does not have *)

(** The server has no table of this name: it answers each of the six
    metadata queries for it with an empty record set. *)
Definition unknownTable (tableName : string) : Prop :=
  forall p timeout inputs q,
    In q (tableQueries tableName) ->
    exists x, reply (mssqlRequestQuery p timeout inputs q) = inr x
              /\ ms_recordset x = Some [].

Definition emptyTable (info : TableInfo) : Prop :=
  columns info = [] /\ primaryKeys info = [] /\ foreignKeys info = []
  /\ indexes info = [].

Lemma getTableInfo_returns (tableName : string) (ta : Running) :
  exists info,
    fst (getTableInfo tableName ta) = Returned info
    /\ name info = tableName /\ schema info = "dbo"%string /\ type info = table.
Proof.
  unfold getTableInfo, tryCatch, bind, ret.
  repeat match goal with
         | |- context [executeQuery ?q ?o ?x] =>
             destruct (executeQuery q o x) as [[?r|?e] ?ta]
         end;
    eexists; (split; [reflexivity|]); simpl; auto.
Qed.

Lemma executeQuery_unknownTable (tableName q : string) (ta ta' : Running)
    (r : QueryResult) :
  unknownTable tableName ->
  In q (tableQueries tableName) ->
  adapterType (snd ta) = mssql ->
  executeQuery q None ta = (Returned r, ta') ->
  recordset r = Some [] /\ adapterType (snd ta') = mssql.
Proof.
  intros Hun Hq Hty. destruct ta as [t a]. simpl in Hty.
  unfold executeQuery. destruct (pool a) as [p|]; [|discriminate].
  rewrite Hty. unfold finish.
  destruct (Hun p (requestTimeout None) (requestInputs None) q Hq) as (x & -> & Hx).
  intros [= <- <-]. simpl. auto.
Qed.

Lemma getTableInfo_unknownTable (tableName : string) (ta : Running) :
  unknownTable tableName ->
  adapterType (snd ta) = mssql ->
  exists info, fst (getTableInfo tableName ta) = Returned info /\ emptyTable info.
Proof.
  intros Hun Hty.
  assert (Hin : forall q, In q (tableQueries tableName) -> In q (tableQueries tableName))
    by auto.
  unfold tableQueries in Hin at 1.
  unfold getTableInfo, tryCatch, bind, ret.
  repeat match goal with
         | |- context [executeQuery ?q ?o ?x] =>
             let E := fresh "E" in
             destruct (executeQuery q o x) as [[?r|?e] ?ta] eqn:E;
             [apply (executeQuery_unknownTable tableName) in E;
              [destruct E as [? ?] | exact Hun | apply Hin; simpl; tauto | assumption]|]
         end;
    eexists; (split; [reflexivity|]); unfold emptyTable, namesOf, rowsOrEmpty; simpl;
    repeat match goal with Hr : recordset _ = Some [] |- _ => rewrite Hr; clear Hr end;
    auto.
Qed.

End Adapters.

Arguments BaseDatabaseAdapter : clear implicits.

End Adapter.

(** ** DatabaseConnectionManager (database/connection) *)

Module ConnectionManager.
Import Types Adapter.

Section Manager.
Context {Pool : Type} `{Driver Pool}.

(** *** A JavaScript [Map] with string keys

    Entries are kept in insertion order, which [Array.from(map.keys())]
    exposes; [set] on a key that is present keeps its place. *)

Definition JsMap (V : Type) : Type := list (string * V).

Fixpoint mapGet {V : Type} (k : string) (m : JsMap V) : option V :=
  match m with
  | [] => None
  | (k', v) :: rest => if String.eqb k' k then Some v else mapGet k rest
  end.

Definition mapHas {V : Type} (k : string) (m : JsMap V) : bool :=
  match mapGet k m with Some _ => true | None => false end.

Fixpoint mapSet {V : Type} (k : string) (v : V) (m : JsMap V) : JsMap V :=
  match m with
  | [] => [(k, v)]
  | (k', v') :: rest =>
      if String.eqb k' k then (k', v) :: rest else (k', v') :: mapSet k v rest
  end.

Definition mapDelete {V : Type} (k : string) (m : JsMap V) : JsMap V :=
  List.filter (fun kv => negb (String.eqb (fst kv) k)) m.

Definition mapKeys {V : Type} (m : JsMap V) : list string := map fst m.

Record DatabaseConnectionManager : Type := mkManager {
  connections : JsMap (BaseDatabaseAdapter Pool);
  currentConnection : option string
}.

(** [new DatabaseConnectionManager(config, logger)] *)
Definition newManager : DatabaseConnectionManager := mkManager [] None.

(** Truthiness of a [string | null | undefined]: set and not empty. *)
Definition truthyId (c : option string) : bool :=
  match c with
  | Some s => negb (String.eqb s "")
  | None => false
  end.

(** The [switch (dbType)] of [createConnection]; [dbType] is whatever
    string arrives at run time. *)
Definition adapterFor (dbType : string) (dbConfig : DatabaseConfig)
    : Eff DatabaseConnectionManager (BaseDatabaseAdapter Pool) :=
  if String.eqb dbType "mssql" then ret (newAdapter mssql dbConfig)
  else if String.eqb dbType "mysql" then ret (newAdapter mysql dbConfig)
  else if String.eqb dbType "postgresql" then ret (newAdapter postgresql dbConfig)
  else throw (JsError ("Unsupported database type: " ++ dbType)).

(** Run a method of an adapter that is not (yet) in the registry. *)
Definition onAdapter {A : Type} (a : BaseDatabaseAdapter Pool) (f : Eff (BaseDatabaseAdapter Pool) A)
    : Eff DatabaseConnectionManager (A * (BaseDatabaseAdapter Pool)) := fun m =>
  match f a with
  | (Returned x, a') => (Returned (x, a'), m)
  | (Thrown e, _) => (Thrown e, m)
  end.

(** Run a method of the adapter registered under [id]: the registry holds
    the object itself, so it sees what the method did to it, also when the
    method throws. *)
Definition onRegistered {A : Type} (id : string) (a : BaseDatabaseAdapter Pool)
    (f : Eff (BaseDatabaseAdapter Pool) A) : Eff DatabaseConnectionManager A := fun m =>
  let '(out, a') := f a in
  (out, mkManager (mapSet id a' (connections m)) (currentConnection m)).

Definition createConnection (connectionId : string) (dbConfig : DatabaseConfig)
    (dbType : string) : Eff DatabaseConnectionManager (BaseDatabaseAdapter Pool) :=
  tryCatch
    (adapter <- adapterFor dbType dbConfig ;;
     r <- onAdapter adapter connect ;;
     let adapter := snd r in
     modify (fun m => mkManager (mapSet connectionId adapter (connections m))
                        (currentConnection m)) ;;;
     modify (fun m => if negb (truthyId (currentConnection m))
                      then mkManager (connections m) (Some connectionId)
                      else m) ;;;
     ret adapter)%eff
    (fun error => throw error).

Definition createDefaultConnection (dbConfig : DatabaseConfig)
    : Eff DatabaseConnectionManager (BaseDatabaseAdapter Pool) :=
  createConnection "default" dbConfig "mssql".

Definition getCurrentConnection : Eff DatabaseConnectionManager (BaseDatabaseAdapter Pool) :=
  fun m =>
    if negb (truthyId (currentConnection m))
    then (Thrown (JsError "No active database connection."), m)
    else match mapGet (default ""%string (currentConnection m)) (connections m) with
         | None => (Thrown (JsError "Current connection not found."), m)
         | Some connection => (Returned connection, m)
         end.

Definition getConnection (connectionId : string)
    : Eff DatabaseConnectionManager (BaseDatabaseAdapter Pool) := fun m =>
  match mapGet connectionId (connections m) with
  | None => (Thrown (JsError ("Connection not found: " ++ connectionId)), m)
  | Some connection => (Returned connection, m)
  end.

Definition switchConnection (connectionId : string) : Eff DatabaseConnectionManager unit :=
  fun m =>
    if negb (mapHas connectionId (connections m))
    then (Thrown (JsError ("Connection not found: " ++ connectionId)), m)
    else (Returned tt, mkManager (connections m) (Some connectionId)).

(** [remainingConnections.length > 0 ? remainingConnections[0] : null] *)
Definition firstKey {V : Type} (m : JsMap V) : option string := head (mapKeys m).

Definition removeConnection (connectionId : string) : Eff DatabaseConnectionManager unit :=
  fun m =>
    match mapGet connectionId (connections m) with
    | None => (Thrown (JsError ("Connection not found: " ++ connectionId)), m)
    | Some connection =>
        tryCatch
          (onRegistered connectionId connection disconnect ;;;
           modify (fun m => mkManager (mapDelete connectionId (connections m))
                              (currentConnection m)) ;;;
           modify (fun m =>
                     if bool_decide (currentConnection m = Some connectionId)
                     then mkManager (connections m) (firstKey (connections m))
                     else m))%eff
          (fun error => throw error) m
    end.

(** [disconnectAll]: every [removeConnection] has its own [try]/[catch];
    [current] is cleared at the end.  The removals are started together
    and each one waits for its own adapter only, so the registry they
    leave is the one that removing them one after the other leaves. *)
Definition disconnectAll : Eff DatabaseConnectionManager unit := fun m =>
  let connectionIds := mapKeys (connections m) in
  let m' :=
    fold_left
      (fun m connectionId =>
         snd (tryCatch (removeConnection connectionId) (fun error => ret tt) m))
      connectionIds m in
  (Returned tt, mkManager (connections m') None).

(** [connectionId || this.currentConnection] *)
Definition orCurrent (connectionId : option string) (m : DatabaseConnectionManager)
    : option string :=
  if truthyId connectionId then connectionId else currentConnection m.

Definition autoReconnect (connectionId : option string) : Eff DatabaseConnectionManager bool :=
  tryCatch
    (targetConnectionId <- gets (orCurrent connectionId) ;;
     (if negb (truthyId targetConnectionId)
      then throw (JsError "No connection to reconnect.")
      else
        let target := default ""%string targetConnectionId in
        found <- gets (fun m => mapGet target (connections m)) ;;
        match found with
        | None => throw (JsError ("Connection not found: " ++ target))
        | Some connection =>
            onRegistered target connection disconnect ;;;
            afterDisconnect <- gets (fun m => default connection (mapGet target (connections m))) ;;
            onRegistered target afterDisconnect connect ;;;
            ret true
        end))%eff
    (fun error => ret false).

(** The operations of the manager that a caller can issue. *)
Inductive ManagerCall : Type :=
| CreateConnection (connectionId : string) (dbConfig : DatabaseConfig) (dbType : string)
| GetCurrentConnection
| SwitchConnection (connectionId : string)
| RemoveConnection (connectionId : string)
| DisconnectAll
| AutoReconnect (connectionId : option string).

(** The manager after a call, and whether the call threw. *)
Definition perform (c : ManagerCall) (m : DatabaseConnectionManager)
    : option Exn * DatabaseConnectionManager :=
  let forget {A : Type} (r : Outcome A * DatabaseConnectionManager) :=
    (match fst r with Thrown e => Some e | Returned _ => None end, snd r) in
  match c with
  | CreateConnection id cfg ty => forget (createConnection id cfg ty m)
  | GetCurrentConnection => forget (getCurrentConnection m)
  | SwitchConnection id => forget (switchConnection id m)
  | RemoveConnection id => forget (removeConnection id m)
  | DisconnectAll => forget (disconnectAll m)
  | AutoReconnect id => forget (autoReconnect id m)
  end.

(** The invariant of the spec: [current] is unset or a registered key. *)
Definition currentIsRegistered (m : DatabaseConnectionManager) : Prop :=
  match currentConnection m with
  | None => True
  | Some id => mapHas id (connections m) = true
  end.


(** *** Facts about the registry *)

Lemma mapHas_mapSet {V : Type} (k k' : string) (v : V) (m : JsMap V) :
  mapHas k (mapSet k' v m) = String.eqb k' k || mapHas k m.
Proof.
  unfold mapHas. induction m as [|[k0 v0] rest IH]; simpl.
  - destruct (String.eqb k' k); reflexivity.
  - destruct (String.eqb k0 k') eqn:E0; simpl.
    + apply String.eqb_eq in E0. subst k0.
      destruct (String.eqb k' k); reflexivity.
    + destruct (String.eqb k0 k) eqn:E1; simpl.
      * destruct (String.eqb k' k); reflexivity.
      * exact IH.
Qed.

Lemma mapHas_mapSet_mono {V : Type} (k k' : string) (v : V) (m : JsMap V) :
  mapHas k m = true -> mapHas k (mapSet k' v m) = true.
Proof. intros Hk. rewrite mapHas_mapSet, Hk. apply orb_true_r. Qed.

Lemma mapHas_mapDelete {V : Type} (k k' : string) (m : JsMap V) :
  mapHas k (mapDelete k' m) = negb (String.eqb k' k) && mapHas k m.
Proof.
  unfold mapHas, mapDelete. induction m as [|[k0 v0] rest IH]; simpl.
  - destruct (String.eqb k' k); reflexivity.
  - destruct (String.eqb k0 k') eqn:E0; simpl.
    + apply String.eqb_eq in E0. subst k0. rewrite IH.
      destruct (String.eqb k' k); reflexivity.
    + destruct (String.eqb k0 k) eqn:E1; simpl.
      * apply String.eqb_eq in E1. subst k0. rewrite String.eqb_sym, E0. reflexivity.
      * exact IH.
Qed.

Lemma mapSet_same {V : Type} (k : string) (v : V) (m : JsMap V) :
  mapGet k m = Some v -> mapSet k v m = m.
Proof.
  induction m as [|[k0 v0] rest IH]; simpl; [discriminate|].
  destruct (String.eqb k0 k) eqn:E.
  - intros [= ->]. reflexivity.
  - intros Hg. rewrite (IH Hg). reflexivity.
Qed.

Lemma firstKey_registered {V : Type} (k : string) (m : JsMap V) :
  firstKey m = Some k -> mapHas k m = true.
Proof.
  destruct m as [|[k0 v0] rest]; [discriminate|].
  unfold firstKey, mapHas. simpl. intros [= ->]. rewrite String.eqb_refl. reflexivity.
Qed.


(** *** The adapter after a failed [disconnect] *)

Lemma disconnect_thrown_unchanged (a : BaseDatabaseAdapter Pool) (e : Exn) :
  fst (disconnect a) = Thrown e -> snd (disconnect a) = a.
Proof.
  unfold disconnect. destruct (pool a) as [p|]; [|discriminate].
  destruct (poolClose p); [reflexivity | discriminate].
Qed.

(** *** What each call does to the manager *)

Lemma createConnection_cases (id : string) (cfg : DatabaseConfig) (ty : string)
    (m : DatabaseConnectionManager) :
  (exists e, createConnection id cfg ty m = (Thrown e, m))
  \/ (exists a,
        createConnection id cfg ty m =
        (Returned a,
         mkManager (mapSet id a (connections m))
           (if truthyId (currentConnection m) then currentConnection m else Some id))).
Proof.
  unfold createConnection, adapterFor.
  destruct (String.eqb ty "mssql");
    [|destruct (String.eqb ty "mysql"); [|destruct (String.eqb ty "postgresql")]].
  4: { left. eexists. reflexivity. }
  all: unfold tryCatch, bind, ret, onAdapter, modify, throw; simpl.
  all: match goal with |- context [connect ?a] => destruct (connect a) as [[[]|e] a'] end; simpl.
  all: try (left; exists e; reflexivity).
  all: right; exists a'; destruct m as [conns cur]; simpl; destruct (truthyId cur); reflexivity.
Qed.

Lemma removeConnection_cases (id : string) (m : DatabaseConnectionManager) :
  match mapGet id (connections m) with
  | None => removeConnection id m = (Thrown (JsError ("Connection not found: " ++ id)), m)
  | Some a =>
      match disconnect a with
      | (Thrown e, a') =>
          removeConnection id m =
          (Thrown e, mkManager (mapSet id a' (connections m)) (currentConnection m))
      | (Returned _, a') =>
          removeConnection id m =
          (Returned tt,
           mkManager (mapDelete id (mapSet id a' (connections m)))
             (if bool_decide (currentConnection m = Some id)
              then firstKey (mapDelete id (mapSet id a' (connections m)))
              else currentConnection m))
      end
  end.
Proof.
  unfold removeConnection.
  destruct (mapGet id (connections m)) as [a|]; [|reflexivity].
  unfold tryCatch, bind, onRegistered, modify, throw.
  destruct (disconnect a) as [[[]|e] a']; simpl; [|reflexivity].
  destruct (bool_decide (currentConnection m = Some id)); reflexivity.
Qed.

Lemma autoReconnect_registry (id : option string) (m : DatabaseConnectionManager) :
  exists conns' b,
    autoReconnect id m = (Returned b, mkManager conns' (currentConnection m))
    /\ forall k, mapHas k (connections m) = true -> mapHas k conns' = true.
Proof.
  unfold autoReconnect, tryCatch, bind, gets, throw, ret, onRegistered.
  destruct m as [conns cur]; simpl.
  destruct (truthyId (orCurrent id (mkManager conns cur))); simpl.
  2: { exists conns, false. split; [reflexivity | auto]. }
  destruct (mapGet _ conns) as [a|] eqn:G; simpl.
  2: { exists conns, false. split; [reflexivity | auto]. }
  destruct (disconnect a) as [[[]|e] a1]; simpl.
  2: { eexists _, false. split; [reflexivity|]. intros k. apply mapHas_mapSet_mono. }
  match goal with |- context [connect ?x] => destruct (connect x) as [[[]|e] a2] end; simpl.
  all: eexists _, _; split; [reflexivity|].
  all: intros k Hk; do 2 apply mapHas_mapSet_mono; exact Hk.
Qed.

Lemma disconnectAll_clears (m : DatabaseConnectionManager) :
  fst (disconnectAll m) = Returned tt /\ currentConnection (snd (disconnectAll m)) = None.
Proof. split; reflexivity. Qed.

Lemma perform_keeps_current_registered (m : DatabaseConnectionManager) (c : ManagerCall) :
  currentIsRegistered m -> currentIsRegistered (snd (perform c m)).
Proof.
  intros WF. destruct c as [id cfg ty| |id|id| |id]; simpl.
  - destruct (createConnection_cases id cfg ty m) as [[e ->]|[a ->]]; simpl; [exact WF|].
    unfold currentIsRegistered in *; simpl.
    destruct (currentConnection m) as [cur|]; simpl.
    + destruct (String.eqb cur ""); simpl.
      * rewrite mapHas_mapSet, String.eqb_refl. reflexivity.
      * apply mapHas_mapSet_mono, WF.
    + rewrite mapHas_mapSet, String.eqb_refl. reflexivity.
  - unfold getCurrentConnection.
    destruct (negb _); simpl; [exact WF|].
    destruct (mapGet _ _); exact WF.
  - unfold switchConnection.
    destruct (mapHas id (connections m)) eqn:Hh; simpl; [|exact WF].
    unfold currentIsRegistered; simpl. exact Hh.
  - pose proof (removeConnection_cases id m) as R.
    destruct (mapGet id (connections m)) as [a|]; [|rewrite R; exact WF].
    destruct (disconnect a) as [[[]|e] a']; rewrite R; simpl.
    + unfold currentIsRegistered in *; simpl.
      destruct (bool_decide (currentConnection m = Some id)) eqn:B.
      * destruct (firstKey _) as [k|] eqn:F; [|exact I].
        apply firstKey_registered, F.
      * destruct (currentConnection m) as [cur|]; [|exact I].
        rewrite mapHas_mapDelete, mapHas_mapSet, WF, orb_true_r, andb_true_r.
        apply negb_true_iff, String.eqb_neq. intros ->.
        rewrite bool_decide_eq_false in B. contradiction.
    + unfold currentIsRegistered in *; simpl.
      destruct (currentConnection m) as [cur|]; [|exact I].
      apply mapHas_mapSet_mono, WF.
  - exact I.
  - destruct (autoReconnect_registry id m) as (conns' & b & -> & Hk); simpl.
    unfold currentIsRegistered in *; simpl.
    destruct (currentConnection m) as [cur|]; [|exact I].
    apply Hk, WF.
Qed.

(** Whatever calls were made on a manager since it was created, its
    current pointer is unset or registered. *)
Lemma performed_current_registered (cs : list ManagerCall) :
  currentIsRegistered (fold_left (fun m c => snd (perform c m)) cs newManager).
Proof.
  assert (K : forall m, currentIsRegistered m ->
            currentIsRegistered (fold_left (fun m c => snd (perform c m)) cs m)).
  { induction cs as [|c rest IH]; intros m WF; simpl; [exact WF|].
    apply IH, perform_keeps_current_registered, WF. }
  apply K. exact I.
Qed.


(** C9. When the adapter's [disconnect] throws inside
    [removeConnection], the call throws that error and the manager is
    what it was: the connection is still registered under its identifier
    and the current pointer is untouched. *)
Theorem removeConnection_disconnect_throws (m : DatabaseConnectionManager)
    (id : string) (a : BaseDatabaseAdapter Pool) (e : Exn) :
  mapGet id (connections m) = Some a ->
  fst (disconnect a) = Thrown e ->
  removeConnection id m = (Thrown e, m)
  /\ mapGet id (connections (snd (removeConnection id m))) = Some a
  /\ currentConnection (snd (removeConnection id m)) = currentConnection m.
Proof.
  intros Hreg Hthrow.
  assert (E : removeConnection id m = (Thrown e, m)).
  { pose proof (removeConnection_cases id m) as R. rewrite Hreg in R.
    pose proof (disconnect_thrown_unchanged a e Hthrow) as Hsame.
    destruct (disconnect a) as [[[]|e'] a']; simpl in *; [discriminate|].
    injection Hthrow as ->. subst a'.
    rewrite R, (mapSet_same _ _ _ Hreg). destruct m; reflexivity. }
  rewrite E. simpl. auto.
Qed.
End Manager.

Arguments DatabaseConnectionManager : clear implicits.

End ConnectionManager.

(** ** QueryService (services/query.service.ts) *)

Module QueryService.

(** One element of [queryHistory]. *)
Record HistoryEntry : Type := mkEntry {
  query : string;
  timestamp : Z;
  executionTime : Z;
  success : bool;
  error : option string
}.

Inductive LogLevel : Type := LogInfo | LogError | LogQuery.

(** A call of the logger: the method and the message (the metadata object
    is not kept). *)
Record LogLine : Type := mkLog {
  level : LogLevel;
  text : string
}.

(** What the service needs of [dbManager] and of the clock.  [Env] is
    everything behind the manager: registry, adapters, drivers, servers.
    [currentExecuteQuery q o] is
    [this.dbManager.getCurrentConnection().executeQuery(q, o)]: it throws
    what [getCurrentConnection] or the adapter throws. *)
Class Backend (Env : Type) : Type := {
  currentExecuteQuery : string -> option Types.QueryOptions -> Eff Env Types.QueryResult;
  dateNow : Env -> Z
}.

(** [Math.round(a / b)] and [Math.round((a / b) * 100)] on doubles, for
    [b > 0]; the service only calls them so. *)
Class JsMath : Type := {
  roundDiv : Z -> Z -> Z;
  roundPercent : Z -> Z -> Z
}.

Section Service.
Context {Env : Type} `{Backend Env} `{JsMath}.

Record QueryService : Type := mkService {
  dbManager : Env;
  queryHistory : list HistoryEntry;
  logger : list LogLine
}.

(** [new QueryService(dbManager, logger)] *)
Definition newService (env : Env) : QueryService := mkService env [] [].

Definition log (l : LogLevel) (msg : string) : Eff QueryService unit :=
  modify (fun s => mkService (dbManager s) (queryHistory s) (logger s ++ [mkLog l msg])).

(** [this.queryHistory.push(entry)] *)
Definition pushHistory (entry : HistoryEntry) : Eff QueryService unit :=
  modify (fun s => mkService (dbManager s) (queryHistory s ++ [entry]) (logger s)).

Definition now : Eff QueryService Z := gets (fun s => dateNow (dbManager s)).

(** A call that goes through [this.dbManager]. *)
Definition onManager {A : Type} (f : Eff Env A) : Eff QueryService A := fun s =>
  let '(out, env') := f (dbManager s) in
  (out, mkService env' (queryHistory s) (logger s)).

Definition executeQuery (query : string) (options : option Types.QueryOptions)
    : Eff QueryService Types.QueryResult :=
  (startTime <- now ;;
   tryCatch
     (log LogInfo "Starting query execution" ;;;
      result <- onManager (currentExecuteQuery query options) ;;
      endTime <- now ;;
      let executionTime := (endTime - startTime)%Z in
      pushHistory (mkEntry query endTime executionTime true None) ;;;
      log LogQuery query ;;;
      ret result)
     (fun error =>
        endTime <- now ;;
        let executionTime := (endTime - startTime)%Z in
        log LogError "Query execution failed" ;;;
        pushHistory (mkEntry query endTime executionTime false (Some (errorMessage error))) ;;;
        throw error))%eff.

(** The [for] loop of [executeBatch]. *)
Fixpoint batchLoop (queries : list string) (results : list Types.QueryResult)
    : Eff QueryService (list Types.QueryResult) :=
  match queries with
  | [] => ret results
  | query :: rest =>
      (result <- executeQuery query None ;;
       batchLoop rest (results ++ [result]))%eff
  end.

Definition executeBatch (queries : list string) : Eff QueryService (list Types.QueryResult) :=
  (log LogInfo "Starting batch query execution" ;;;
   tryCatch
     (results <- batchLoop queries [] ;;
      log LogInfo "Batch query execution completed" ;;;
      ret results)
     (fun error =>
        log LogError "Batch query execution failed" ;;;
        throw error))%eff.

(** An element of the argument of [executeInTransaction]. *)
Definition Statement : Type := (string * option (list Types.SqlValue))%type.

(** [{ parameters }] *)
Definition statementOptions (st : Statement) : option Types.QueryOptions :=
  Some (Types.mkOptions None (snd st)).

(** [`Transaction query failed: ${result.error}`] *)
Definition transactionError (result : Types.QueryResult) : Exn :=
  JsError ("Transaction query failed: " ++ default "undefined"%string (Types.error result)).

(** The [for] loop of [executeInTransaction]. *)
Fixpoint transactionLoop (queries : list Statement) (results : list Types.QueryResult)
    : Eff QueryService (list Types.QueryResult) :=
  match queries with
  | [] => ret results
  | st :: rest =>
      (result <- executeQuery (fst st) (statementOptions st) ;;
       if negb (Types.success result)
       then throw (transactionError result)
       else transactionLoop rest (results ++ [result]))%eff
  end.

(** The [try] block of [executeInTransaction]. *)
Definition transactionBody (queries : list Statement)
    : Eff QueryService (list Types.QueryResult) :=
  (executeQuery "BEGIN TRANSACTION" None ;;;
   results <- transactionLoop queries [] ;;
   executeQuery "COMMIT TRANSACTION" None ;;;
   log LogInfo "Transaction completed successfully" ;;;
   ret results)%eff.

(** Its [catch] block. *)
Definition transactionRollback (error : Exn) : Eff QueryService (list Types.QueryResult) :=
  (tryCatch
     (executeQuery "ROLLBACK TRANSACTION" None ;;;
      log LogInfo "Transaction rollback completed")
     (fun rollbackError => log LogError "Transaction rollback failed") ;;;
   log LogError "Transaction failed" ;;;
   throw error)%eff.

Definition executeInTransaction (queries : list Statement)
    : Eff QueryService (list Types.QueryResult) :=
  (log LogInfo "Transaction started" ;;;
   tryCatch (transactionBody queries) transactionRollback)%eff.

(** [array.slice(0, limit)] for an integral [limit]: a negative one counts
    from the end. *)
Definition slice0 {A : Type} (limit : Z) (l : list A) : list A :=
  if (limit <? 0)%Z
  then take (Z.to_nat (Z.of_nat (length l) + limit)) l
  else take (Z.to_nat limit) l.

(** [limit ? history.slice(0, limit) : history] on the reversed copy *)
Definition getQueryHistory (limit : option Z) (s : QueryService) : list HistoryEntry :=
  let history := rev (queryHistory s) in
  match limit with
  | Some n => if (n =? 0)%Z then history else slice0 n history
  | None => history
  end.

Definition clearHistory : Eff QueryService unit :=
  (modify (fun s => mkService (dbManager s) [] (logger s)) ;;;
   log LogInfo "Query history cleared")%eff.

(** The three fields that [getQueryStats] reads of the slowest and fastest
    entries; the placeholder used on an empty history has only these. *)
Record QuerySummary : Type := mkSummary {
  sum_query : string;
  sum_executionTime : Z;
  sum_timestamp : Z
}.

Definition summaryOf (e : HistoryEntry) : QuerySummary :=
  mkSummary (query e) (executionTime e) (timestamp e).

(** [q.substring(0, 100) + (q.length > 100 ? "..." : "")] *)
Definition abbreviate (q : string) : string :=
  (JsString.substringTo 100 q
   ++ if (100 <? JsString.length q)%nat then "..." else "")%string.

Record QueryStats : Type := mkStats {
  totalQueries : Z;
  successfulQueries : Z;
  failedQueries : Z;
  successRate : Z;
  averageExecutionTime : Z;
  slowestQuery : QuerySummary;
  fastestQuery : QuerySummary
}.

Definition getQueryStats (today : Z) (s : QueryService) : QueryStats :=
  let history := queryHistory s in
  let totalQueries := Z.of_nat (length history) in
  let successfulQueries := Z.of_nat (length (List.filter success history)) in
  let failedQueries := (totalQueries - successfulQueries)%Z in
  let executionTimes := map executionTime history in
  let averageExecutionTime :=
    if (0 <? Z.of_nat (length executionTimes))%Z
    then roundDiv (fold_left (fun sum time => (sum + time)%Z) executionTimes 0%Z)
           (Z.of_nat (length executionTimes))
    else 0%Z in
  let initial :=
    match history with
    | first :: _ => summaryOf first
    | [] => mkSummary "" 0 today
    end in
  let slowestQuery :=
    fold_left
      (fun slowest current =>
         if (sum_executionTime slowest <? executionTime current)%Z
         then summaryOf current else slowest)
      history initial in
  let fastestQuery :=
    fold_left
      (fun fastest current =>
         if (executionTime current <? sum_executionTime fastest)%Z
         then summaryOf current else fastest)
      history initial in
  {| totalQueries := totalQueries;
     successfulQueries := successfulQueries;
     failedQueries := failedQueries;
     successRate :=
       if (0 <? totalQueries)%Z then roundPercent successfulQueries totalQueries else 0%Z;
     averageExecutionTime := averageExecutionTime;
     slowestQuery :=
       mkSummary (abbreviate (sum_query slowestQuery)) (sum_executionTime slowestQuery)
         (sum_timestamp slowestQuery);
     fastestQuery :=
       mkSummary (abbreviate (sum_query fastestQuery)) (sum_executionTime fastestQuery)
         (sum_timestamp fastestQuery) |}.

(** The calls that write to the history. *)
Inductive ServiceCall : Type :=
| ExecuteQuery (query : string) (options : option Types.QueryOptions)
| ExecuteBatch (queries : list string)
| ExecuteInTransaction (queries : list Statement).

(** The service after a call, whether the call returned or threw. *)
Definition performCall (c : ServiceCall) (s : QueryService) : QueryService :=
  match c with
  | ExecuteQuery q o => snd (executeQuery q o s)
  | ExecuteBatch qs => snd (executeBatch qs s)
  | ExecuteInTransaction sts => snd (executeInTransaction sts s)
  end.

Definition performAll (cs : list ServiceCall) (s : QueryService) : QueryService :=
  fold_left (fun s c => performCall c s) cs s.

(** A method that only ever appends to the history. *)
Definition appendsOnly {A : Type} (m : Eff QueryService A) : Prop :=
  forall s, exists added, queryHistory (snd (m s)) = queryHistory s ++ added.

(** An execution failed when the call threw or the adapter reported the
    failure in the result. *)
Definition executionFailed (out : Outcome Types.QueryResult) : Prop :=
  match out with
  | Thrown _ => True
  | Returned r => Types.success r = false
  end.

(** The spec's sentence on the size of the history, for the service
    created over [env]: some cap bounds the history after any calls. *)
Definition claimedHistoryCap (env : Env) : Prop :=
  exists cap : nat,
    forall cs : list ServiceCall,
      (length (queryHistory (performAll cs (newService env))) <= cap)%nat.

(** The spec's sentence on what [executeQuery] records and re-raises, for
    one call: when the execution failed, the entry pushed says so, with
    the error text, and the call throws. *)
Definition claimedFailureRecorded (q : string) (o : option Types.QueryOptions)
    (s : QueryService) : Prop :=
  executionFailed (fst (currentExecuteQuery q o (dbManager s))) ->
  exists entry,
    last (queryHistory (snd (executeQuery q o s))) = Some entry
    /\ success entry = false
    /\ error entry <> None
    /\ isThrown (fst (executeQuery q o s)) = true.

(** *** What a transaction sends to the adapter

    A call that reaches the adapter, and the run of a list of calls, one
    after the other, against the backend alone. *)

Definition Call : Type := (string * option Types.QueryOptions)%type.

Definition beginCall : Call := ("BEGIN TRANSACTION"%string, None).
Definition commitCall : Call := ("COMMIT TRANSACTION"%string, None).
Definition rollbackCall : Call := ("ROLLBACK TRANSACTION"%string, None).

Fixpoint backendRun (calls : list Call) (env : Env)
    : list (Outcome Types.QueryResult) * Env :=
  match calls with
  | [] => ([], env)
  | c :: rest =>
      let '(out, env1) := currentExecuteQuery (fst c) (snd c) env in
      let '(outs, env2) := backendRun rest env1 in
      (out :: outs, env2)
  end.




(** Between [s] and [s'] exactly [calls] reached the adapter, in this
    order and with these outcomes, and the history recorded their texts. *)
Definition traced (s s' : QueryService) (calls : list Call)
    (outs : list (Outcome Types.QueryResult)) : Prop :=
  backendRun calls (dbManager s) = (outs, dbManager s')
  /\ map query (queryHistory s') = map query (queryHistory s) ++ map fst calls.


(** *** One call of [executeQuery] *)

(** The entry that a call pushes, given what the backend did. *)
Definition entryFor (q : string) (start : Z) (r : Outcome Types.QueryResult * Env)
    : HistoryEntry :=
  match fst r with
  | Returned _ => mkEntry q (dateNow (snd r)) (dateNow (snd r) - start) true None
  | Thrown e =>
      mkEntry q (dateNow (snd r)) (dateNow (snd r) - start) false (Some (errorMessage e))
  end.

Definition linesFor (q : string) (out : Outcome Types.QueryResult) : list LogLine :=
  match out with
  | Returned _ => [mkLog LogInfo "Starting query execution"; mkLog LogQuery q]
  | Thrown _ =>
      [mkLog LogInfo "Starting query execution"; mkLog LogError "Query execution failed"]
  end.

Lemma executeQuery_unfold (q : string) (o : option Types.QueryOptions) (s : QueryService) :
  executeQuery q o s =
  (fst (currentExecuteQuery q o (dbManager s)),
   mkService (snd (currentExecuteQuery q o (dbManager s)))
     (queryHistory s ++
        [entryFor q (dateNow (dbManager s)) (currentExecuteQuery q o (dbManager s))])
     (logger s ++ linesFor q (fst (currentExecuteQuery q o (dbManager s))))).
Proof.
  unfold executeQuery, entryFor, linesFor, bind, tryCatch, now, gets, log, pushHistory,
    modify, onManager, ret, throw.
  simpl. destruct (currentExecuteQuery q o (dbManager s)) as [[r|e] env']; simpl.
  - rewrite <- app_assoc. reflexivity.
  - rewrite <- app_assoc. reflexivity.
Qed.

Lemma executeQuery_history_length (q : string) (o : option Types.QueryOptions)
    (s : QueryService) :
  length (queryHistory (snd (executeQuery q o s))) = S (length (queryHistory s)).
Proof. rewrite executeQuery_unfold. simpl. rewrite length_app. simpl. lia. Qed.


(** *** The history only grows *)

Lemma appendsOnly_ret {A : Type} (a : A) : appendsOnly (ret a).
Proof. intros s. exists []. simpl. rewrite app_nil_r. reflexivity. Qed.

Lemma appendsOnly_throw {A : Type} (e : Exn) : appendsOnly (@throw QueryService A e).
Proof. intros s. exists []. simpl. rewrite app_nil_r. reflexivity. Qed.

Lemma appendsOnly_log (l : LogLevel) (msg : string) : appendsOnly (log l msg).
Proof. intros s. exists []. simpl. rewrite app_nil_r. reflexivity. Qed.

Lemma appendsOnly_bind {A B : Type} (m : Eff QueryService A) (k : A -> Eff QueryService B) :
  appendsOnly m -> (forall a, appendsOnly (k a)) -> appendsOnly (bind m k).
Proof.
  intros Hm Hk s. unfold bind. destruct (Hm s) as [l1 E1].
  destruct (m s) as [[a|e] s1]; simpl in *.
  - destruct (Hk a s1) as [l2 E2]. exists (l1 ++ l2). rewrite E2, E1, app_assoc. reflexivity.
  - exists l1. exact E1.
Qed.

Lemma appendsOnly_tryCatch {A : Type} (m : Eff QueryService A)
    (h : Exn -> Eff QueryService A) :
  appendsOnly m -> (forall e, appendsOnly (h e)) -> appendsOnly (tryCatch m h).
Proof.
  intros Hm Hh s. unfold tryCatch. destruct (Hm s) as [l1 E1].
  destruct (m s) as [[a|e] s1]; simpl in *.
  - exists l1. exact E1.
  - destruct (Hh e s1) as [l2 E2]. exists (l1 ++ l2). rewrite E2, E1, app_assoc. reflexivity.
Qed.

Lemma appendsOnly_executeQuery (q : string) (o : option Types.QueryOptions) :
  appendsOnly (executeQuery q o).
Proof. intros s. rewrite executeQuery_unfold. simpl. eauto. Qed.

Create HintDb appends.
#[local] Hint Resolve appendsOnly_ret appendsOnly_throw appendsOnly_log
  appendsOnly_executeQuery : appends.
#[local] Hint Extern 2 (appendsOnly (bind _ _)) =>
  apply appendsOnly_bind; [|intros ?] : appends.
#[local] Hint Extern 2 (appendsOnly (tryCatch _ _)) =>
  apply appendsOnly_tryCatch; [|intros ?] : appends.

Lemma appendsOnly_batchLoop (queries : list string) (results : list Types.QueryResult) :
  appendsOnly (batchLoop queries results).
Proof.
  revert results. induction queries as [|q rest IH]; intros results; simpl;
    auto with appends.
Qed.

Lemma appendsOnly_transactionLoop (queries : list Statement)
    (results : list Types.QueryResult) :
  appendsOnly (transactionLoop queries results).
Proof.
  revert results. induction queries as [|st rest IH]; intros results; simpl;
    [auto with appends|].
  apply appendsOnly_bind; [auto with appends|]. intros r.
  destruct (negb (Types.success r)); auto with appends.
Qed.

#[local] Hint Resolve appendsOnly_batchLoop appendsOnly_transactionLoop : appends.

Lemma appendsOnly_performCall (c : ServiceCall) (s : QueryService) :
  exists added, queryHistory (performCall c s) = queryHistory s ++ added.
Proof.
  destruct c as [q o|qs|sts]; simpl.
  - apply appendsOnly_executeQuery.
  - assert (appendsOnly (executeBatch qs)) as K; [|apply K].
    unfold executeBatch. auto 10 with appends.
  - assert (appendsOnly (executeInTransaction sts)) as K; [|apply K].
    unfold executeInTransaction, transactionBody, transactionRollback.
    auto 12 with appends.
Qed.

Lemma performAll_repeat_executeQuery (n : nat) (q : string) (s : QueryService) :
  length (queryHistory (performAll (repeat (ExecuteQuery q None) n) s)) =
  (length (queryHistory s) + n)%nat.
Proof.
  revert s. induction n as [|n IH]; intros s; simpl; [lia|].
  rewrite IH, executeQuery_history_length. lia.
Qed.

(** *** Size and order of the history *)

Lemma no_history_cap (env : Env) : ~ claimedHistoryCap env.
Proof.
  intros [cap Hcap].
  specialize (Hcap (repeat (ExecuteQuery "SELECT 1" None) (S cap))).
  rewrite performAll_repeat_executeQuery in Hcap. simpl in Hcap. lia.
Qed.

Lemma getQueryHistory_prefix (limit : option Z) (s : QueryService) :
  exists k, getQueryHistory limit s = take k (rev (queryHistory s)).
Proof.
  unfold getQueryHistory, slice0. destruct limit as [n|].
  - destruct (n =? 0)%Z.
    + exists (length (rev (queryHistory s))). symmetry. apply firstn_all.
    + destruct (n <? 0)%Z; eauto.
  - exists (length (rev (queryHistory s))). symmetry. apply firstn_all.
Qed.

(** C6 (as the code has it). The history has no cap: one call of
    [executeQuery] makes it one entry longer, no call of [executeQuery],
    [executeBatch] or [executeInTransaction] removes or replaces an entry,
    and from any state it can be made longer by any number of entries;
    [clearHistory] empties it.  [getQueryHistory] returns the entries
    most recent first: the reversed history, or a leading part of it when
    a limit is given. *)
Theorem history_grows_without_cap (s : QueryService) :
  (forall q o, length (queryHistory (snd (executeQuery q o s))) = S (length (queryHistory s)))
  /\ (forall c, exists added, queryHistory (performCall c s) = queryHistory s ++ added)
  /\ (forall n, exists cs,
        length (queryHistory (performAll cs s)) = (length (queryHistory s) + n)%nat)
  /\ queryHistory (snd (clearHistory s)) = []
  /\ getQueryHistory None s = rev (queryHistory s)
  /\ (forall limit, exists k, getQueryHistory limit s = take k (rev (queryHistory s))).
Proof.
  split; [intros q o; apply executeQuery_history_length|].
  split; [intros c; apply appendsOnly_performCall|].
  split.
  { intros n. exists (repeat (ExecuteQuery "SELECT 1" None) n).
    apply performAll_repeat_executeQuery. }
  split; [reflexivity|].
  split; [reflexivity|].
  intros limit. apply getQueryHistory_prefix.
Qed.

(** C7 (as the code has it). A call of [executeQuery] appends exactly
    one entry, for the query it was given.  When the call to the adapter
    throws, the entry has [success = false] and the text of the error, and
    the same error is thrown on.  When the adapter returns a result, that
    result is returned, also when it reports a failure; for a result that
    reports success the entry has [success = true] and no error text. *)
Theorem executeQuery_records_once (q : string) (o : option Types.QueryOptions)
    (s : QueryService) :
  exists entry,
    queryHistory (snd (executeQuery q o s)) = queryHistory s ++ [entry]
    /\ query entry = q
    /\ executionTime entry =
       (dateNow (dbManager (snd (executeQuery q o s))) - dateNow (dbManager s))%Z
    /\ match fst (currentExecuteQuery q o (dbManager s)) with
       | Thrown e =>
           fst (executeQuery q o s) = Thrown e
           /\ success entry = false /\ error entry = Some (errorMessage e)
       | Returned r =>
           fst (executeQuery q o s) = Returned r
           /\ (Types.success r = true -> success entry = true /\ error entry = None)
       end.
Proof.
  rewrite executeQuery_unfold. simpl.
  eexists. split; [reflexivity|]. unfold entryFor.
  destruct (currentExecuteQuery q o (dbManager s)) as [[r|e] env']; simpl; auto.
Qed.

(** What the entry says when the adapter reports a failure in the result
    it returns: [success = true], and the call returns. *)
Lemma reported_failure_recorded_as_success (q : string) (o : option Types.QueryOptions)
    (s : QueryService) (r : Types.QueryResult) :
  fst (currentExecuteQuery q o (dbManager s)) = Returned r ->
  fst (executeQuery q o s) = Returned r
  /\ exists entry,
       last (queryHistory (snd (executeQuery q o s))) = Some entry
       /\ success entry = true /\ error entry = None.
Proof.
  intros Hr. rewrite executeQuery_unfold. simpl. split; [exact Hr|].
  eexists. split; [apply last_snoc|]. unfold entryFor. rewrite Hr. auto.
Qed.

(** *** Statistics of an empty history *)

(** C10. On an empty history [getQueryStats] returns zero counts, a zero
    success rate, a zero average and, as slowest and fastest query, the
    placeholder with an empty text and execution time 0; neither of the
    two rounded divisions is evaluated, whatever they would give. *)
Theorem getQueryStats_empty_history (today : Z) (s : QueryService) :
  queryHistory s = [] ->
  getQueryStats today s =
  mkStats 0 0 0 0 0 (mkSummary "" 0 today) (mkSummary "" 0 today).
Proof. intros Hempty. unfold getQueryStats. rewrite Hempty. reflexivity. Qed.

(** *** Transactions *)

Lemma backendRun_app (c1 c2 : list Call) (env : Env) :
  backendRun (c1 ++ c2) env =
  (fst (backendRun c1 env) ++ fst (backendRun c2 (snd (backendRun c1 env))),
   snd (backendRun c2 (snd (backendRun c1 env)))).
Proof.
  revert env. induction c1 as [|c rest IH]; intros env; simpl.
  - destruct (backendRun c2 env); reflexivity.
  - destruct (currentExecuteQuery (fst c) (snd c) env) as [out env1].
    rewrite IH. destruct (backendRun rest env1). reflexivity.
Qed.

Lemma traced_refl (s : QueryService) : traced s s [] [].
Proof. split; simpl; [reflexivity | rewrite app_nil_r; reflexivity]. Qed.

Lemma traced_trans (s s1 s2 : QueryService) (c1 c2 : list Call)
    (o1 o2 : list (Outcome Types.QueryResult)) :
  traced s s1 c1 o1 -> traced s1 s2 c2 o2 -> traced s s2 (c1 ++ c2) (o1 ++ o2).
Proof.
  intros [R1 H1] [R2 H2]. split.
  - rewrite backendRun_app, R1. simpl. rewrite R2. reflexivity.
  - rewrite H2, H1, map_app, app_assoc. reflexivity.
Qed.

Lemma traced_log (l : LogLevel) (msg : string) (s : QueryService) :
  traced s (snd (log l msg s)) [] [].
Proof. split; simpl; [reflexivity | rewrite app_nil_r; reflexivity]. Qed.

Lemma traced_executeQuery (q : string) (o : option Types.QueryOptions)
    (s s' : QueryService) (out : Outcome Types.QueryResult) :
  executeQuery q o s = (out, s') -> traced s s' [(q, o)] [out].
Proof.
  rewrite executeQuery_unfold. intros [= <- <-]. split; simpl.
  - destruct (currentExecuteQuery q o (dbManager s)); reflexivity.
  - rewrite map_app. simpl. unfold entryFor.
    destruct (fst (currentExecuteQuery q o (dbManager s))); reflexivity.
Qed.






End Service.

Arguments QueryService : clear implicits.

End QueryService.

(** ** SchemaService (services/schema.service.ts) *)

Module SchemaService.

(** What the service needs of [dbManager] and of the clock:
    [currentGetTableInfo name] is
    [this.dbManager.getCurrentConnection().getTableInfo(name)]. *)
Class Backend (Env : Type) : Type := {
  currentGetTableInfo : string -> Eff Env Types.TableInfo;
  dateNow : Env -> Z
}.

Section Service.
Context {Env : Type} `{Backend Env}.

(** A value of [schemaCache]: [{ data, timestamp }].  The three cached
    methods use disjoint keys ([schema_...], [tables_...], [table_...]);
    the entries kept here are those of [getTableInfo]. *)
Record CacheEntry : Type := mkCacheEntry {
  data : Types.TableInfo;
  timestamp : Z
}.

(** [5 * 60 * 1000], five minutes *)
Definition cacheExpiration : Z := 5 * 60 * 1000.

Record SchemaService : Type := mkService {
  dbManager : Env;
  schemaCache : gmap string CacheEntry
}.

Definition newService (env : Env) : SchemaService := mkService env ∅.

Definition isCacheValid (key : string) : Eff SchemaService bool := fun s =>
  match schemaCache s !! key with
  | None => (Returned false, s)
  | Some cached =>
      let isExpired := (cacheExpiration <? dateNow (dbManager s) - timestamp cached)%Z in
      if isExpired
      then (Returned false, mkService (dbManager s) (delete key (schemaCache s)))
      else (Returned true, s)
  end.

Definition updateCache (key : string) (d : Types.TableInfo) : Eff SchemaService unit :=
  modify (fun s =>
    mkService (dbManager s)
      (<[key := mkCacheEntry d (dateNow (dbManager s))]> (schemaCache s))).

Definition clearCache : Eff SchemaService unit :=
  modify (fun s => mkService (dbManager s) ∅).

Definition onManager {A : Type} (f : Eff Env A) : Eff SchemaService A := fun s =>
  let '(out, env') := f (dbManager s) in
  (out, mkService env' (schemaCache s)).

(** [this.schemaCache.get(cacheKey).data] *)
Definition cachedData (key : string) : Eff SchemaService Types.TableInfo := fun s =>
  match schemaCache s !! key with
  | Some cached => (Returned (data cached), s)
  | None => (Thrown (JsError "Cannot read properties of undefined (reading 'data')"), s)
  end.

Definition getTableInfo (tableName : string) : Eff SchemaService Types.TableInfo :=
  let cacheKey := ("table_" ++ tableName)%string in
  (valid <- isCacheValid cacheKey ;;
   if valid : bool then cachedData cacheKey
   else
     tryCatch
       (tableInfo <- onManager (currentGetTableInfo tableName) ;;
        updateCache cacheKey tableInfo ;;;
        ret tableInfo)
       (fun error => throw error))%eff.

(** The spec's sentence on the validity of an entry, for one lookup: the
    entry is served exactly when it exists and [now - storedAt < ttl]. *)
Definition claimedValidity (key : string) (s : SchemaService) : Prop :=
  fst (isCacheValid key s) = Returned true <->
  exists cached,
    schemaCache s !! key = Some cached
    /\ (dateNow (dbManager s) - timestamp cached < cacheExpiration)%Z.

(** *** Lookups *)

Lemma isCacheValid_true_iff (key : string) (s : SchemaService) :
  fst (isCacheValid key s) = Returned true <->
  exists cached,
    schemaCache s !! key = Some cached
    /\ (dateNow (dbManager s) - timestamp cached <= cacheExpiration)%Z.
Proof.
  unfold isCacheValid. destruct (schemaCache s !! key) as [cached|]; simpl.
  - destruct (Z.ltb_spec cacheExpiration (dateNow (dbManager s) - timestamp cached)); simpl.
    + split; [discriminate|]. intros (c & [= <-] & Hle). lia.
    + split; [|reflexivity]. intros _. exists cached. split; [reflexivity | lia].
  - split; [discriminate|]. intros (c & [=] & _).
Qed.

Lemma isCacheValid_expired (key : string) (s : SchemaService) (cached : CacheEntry) :
  schemaCache s !! key = Some cached ->
  (cacheExpiration < dateNow (dbManager s) - timestamp cached)%Z ->
  isCacheValid key s = (Returned false, mkService (dbManager s) (delete key (schemaCache s))).
Proof.
  intros Hc Hold. unfold isCacheValid. rewrite Hc.
  destruct (Z.ltb_spec cacheExpiration (dateNow (dbManager s) - timestamp cached));
    [reflexivity | lia].
Qed.

Lemma isCacheValid_fresh (key : string) (s : SchemaService) (cached : CacheEntry) :
  schemaCache s !! key = Some cached ->
  (dateNow (dbManager s) - timestamp cached <= cacheExpiration)%Z ->
  isCacheValid key s = (Returned true, s).
Proof.
  intros Hc Hnew. unfold isCacheValid. rewrite Hc.
  destruct (Z.ltb_spec cacheExpiration (dateNow (dbManager s) - timestamp cached));
    [lia | reflexivity].
Qed.

(** What [getTableInfo] does when it has to ask the adapter, from the
    service [s] whose cache has no entry under the key any more. *)
Definition fetched (tableName : string) (s : SchemaService)
    : Outcome Types.TableInfo * SchemaService :=
  match currentGetTableInfo tableName (dbManager s) with
  | (Returned info, env') =>
      (Returned info,
       mkService env'
         (<[("table_" ++ tableName)%string := mkCacheEntry info (dateNow env')]>
            (schemaCache s)))
  | (Thrown e, env') => (Thrown e, mkService env' (schemaCache s))
  end.

Lemma getTableInfo_miss (tableName : string) (s s1 : SchemaService) :
  isCacheValid ("table_" ++ tableName) s = (Returned false, s1) ->
  getTableInfo tableName s = fetched tableName s1.
Proof.
  intros Hv. unfold getTableInfo, bind at 1. rewrite Hv.
  unfold fetched, tryCatch, bind, onManager, updateCache, modify, ret, throw.
  destruct (currentGetTableInfo tableName (dbManager s1)) as [[info|e] env']; reflexivity.
Qed.

(** C5 (as the code has it). A lookup serves the cached entry exactly
    when the entry exists and [now - storedAt <= ttl], with a [ttl] of five
    minutes.  A lookup that finds an entry older than that deletes it and
    asks the adapter: its outcome is the adapter's, and a table the
    adapter returns is stored with the time of its arrival.  A lookup
    that finds an entry not older than [ttl] returns its data and neither
    calls the adapter nor changes the cache. *)
Theorem cache_lookup (tableName : string) (s : SchemaService) :
  cacheExpiration = 300000%Z
  /\ (fst (isCacheValid ("table_" ++ tableName) s) = Returned true <->
      exists cached,
        schemaCache s !! ("table_" ++ tableName)%string = Some cached
        /\ (dateNow (dbManager s) - timestamp cached <= cacheExpiration)%Z)
  /\ (forall cached,
        schemaCache s !! ("table_" ++ tableName)%string = Some cached ->
        (cacheExpiration < dateNow (dbManager s) - timestamp cached)%Z ->
        snd (isCacheValid ("table_" ++ tableName) s) =
          mkService (dbManager s) (delete ("table_" ++ tableName)%string (schemaCache s))
        /\ getTableInfo tableName s =
           fetched tableName
             (mkService (dbManager s)
                (delete ("table_" ++ tableName)%string (schemaCache s))))
  /\ (forall cached,
        schemaCache s !! ("table_" ++ tableName)%string = Some cached ->
        (dateNow (dbManager s) - timestamp cached <= cacheExpiration)%Z ->
        getTableInfo tableName s = (Returned (data cached), s)).
Proof.
  split; [reflexivity|].
  split; [apply isCacheValid_true_iff|].
  split.
  - intros cached Hc Hold.
    pose proof (isCacheValid_expired _ _ _ Hc Hold) as E.
    split; [rewrite E; reflexivity | apply getTableInfo_miss, E].
  - intros cached Hc Hnew.
    unfold getTableInfo, bind. rewrite (isCacheValid_fresh _ _ _ Hc Hnew).
    unfold cachedData. rewrite Hc. reflexivity.
Qed.

End Service.

Arguments SchemaService : clear implicits.

End SchemaService.

(** ** SchemaHandler.handleDescribeTable (presentation/mcp-handlers) *)

Module SchemaHandler.

(** What [getSchemaUseCase.execute] resolves to, as far as the handler
    reads it: the flag, the names of [schema.tables] when there is a
    schema, and the error text. *)
Record GetSchemaResponse : Type := mkResponse {
  success : bool;
  schema : option (list string);
  error : option string
}.

(** [error || fallback] *)
Definition textOr (fallback : string) (t : option string) : string :=
  match t with
  | Some s => if String.eqb s "" then fallback else s
  | None => fallback
  end.

(** The handler from its argument, the environment variable
    [DB_DATABASE], the response of the use case and the outcome of
    [schemaDomainService.getTableInfo(table_name)].  It returns the
    description that the source then renders as text. *)
Definition handleDescribeTable (table_name : string) (DB_DATABASE : option string)
    (response : GetSchemaResponse) (detailedTableInfo : Outcome Types.TableInfo)
    : Outcome Types.TableInfo :=
  if String.eqb table_name "" then Thrown (JsError "Table name is required")
  else
    match DB_DATABASE with
    | None => Thrown (JsError "DB_DATABASE environment variable is required")
    | Some databaseName =>
        if String.eqb databaseName ""
        then Thrown (JsError "DB_DATABASE environment variable is required")
        else
          match success response, schema response with
          | true, Some tables =>
              match List.find (fun t => String.eqb t table_name) tables with
              | None => Thrown (JsError ("Table '" ++ table_name ++ "' not found"))
              | Some _ => detailedTableInfo
              end
          | _, _ => Thrown (JsError (textOr "Failed to describe table" (error response)))
          end
    end.

(** A table that is not among those of the schema: the handler throws a
    plain error that quotes the name. *)
Lemma handleDescribeTable_not_found (table_name databaseName : string)
    (tables : list string) (e : option string) (detail : Outcome Types.TableInfo) :
  table_name <> ""%string -> databaseName <> ""%string ->
  ~ In table_name tables ->
  handleDescribeTable table_name (Some databaseName) (mkResponse true (Some tables) e) detail
  = Thrown (JsError ("Table '" ++ table_name ++ "' not found")).
Proof.
  intros Hn Hd Hnot. unfold handleDescribeTable.
  apply String.eqb_neq in Hn, Hd. rewrite Hn, Hd. simpl.
  destruct (List.find _ tables) as [t|] eqn:F; [|reflexivity].
  apply find_some in F. destruct F as [Hin Heq].
  apply String.eqb_eq in Heq. subst t. contradiction.
Qed.

End SchemaHandler.

(** ** The services over the connection manager *)

Module Gateway.
Import Types Adapter ConnectionManager.

Section World.
Context {Pool : Type} `{Driver Pool}.

(** What stands behind the [dbManager] field of the services: the manager
    with its adapters, and the clock. *)
Record World : Type := mkWorld {
  manager : DatabaseConnectionManager Pool;
  clock : Z
}.

(** [this.dbManager.getCurrentConnection().method(...)]: the method runs
    on the adapter object that the registry holds. *)
Definition onCurrentConnection {A : Type} (f : Eff Running A) : Eff World A := fun w =>
  match getCurrentConnection (manager w) with
  | (Thrown e, _) => (Thrown e, w)
  | (Returned connection, _) =>
      let id := default ""%string (currentConnection (manager w)) in
      let '(out, (t, connection')) := f (clock w, connection) in
      (out,
       mkWorld
         (mkManager (mapSet id connection' (connections (manager w)))
            (currentConnection (manager w)))
         t)
  end.

#[export] Instance queryBackend : QueryService.Backend World := {|
  QueryService.currentExecuteQuery q o := onCurrentConnection (executeQuery q o);
  QueryService.dateNow := clock
|}.

(** The adapters of this backend are [MSSQLAdapter]s, the class of the
    default connection, whose [getTableInfo] is the one modelled. *)
#[export] Instance schemaBackend : SchemaService.Backend World := {|
  SchemaService.currentGetTableInfo tableName := onCurrentConnection (getTableInfo tableName);
  SchemaService.dateNow := clock
|}.

(** The current connection is an adapter of class [MSSQLAdapter]. *)
Definition currentIsMssql (w : World) : Prop :=
  exists connection,
    fst (getCurrentConnection (manager w)) = Returned connection
    /\ adapterType connection = mssql.

(** The spec's sentence on a table that does not exist, for one request:
    the request throws a [SchemaValidationError] that names the table. *)
Definition claimedSchemaValidationError (tableName : string)
    (s : SchemaService.SchemaService World) : Prop :=
  exists objectType validationIssue message,
    fst (SchemaService.getTableInfo tableName s) =
    Thrown (SchemaValidationError objectType tableName validationIssue message).

Lemma onCurrentConnection_getTableInfo (tableName : string) (w : World) :
  (exists msg, fst (onCurrentConnection (getTableInfo tableName) w) = Thrown (JsError msg))
  \/ (exists connection info,
        fst (getCurrentConnection (manager w)) = Returned connection
        /\ fst (getTableInfo tableName (clock w, connection)) = Returned info
        /\ fst (onCurrentConnection (getTableInfo tableName) w) = Returned info).
Proof.
  unfold onCurrentConnection.
  destruct (getCurrentConnection (manager w)) as [[connection|e] m'] eqn:E.
  - right. destruct (getTableInfo_returns tableName (clock w, connection))
      as (info & Hinfo & _).
    exists connection, info. split; [reflexivity|]. split; [exact Hinfo|].
    destruct (getTableInfo tableName (clock w, connection)) as [out [t c']].
    exact Hinfo.
  - left. unfold getCurrentConnection in E.
    destruct (negb _); [injection E as <- _; eauto|].
    destruct (mapGet _ _); [discriminate | injection E as <- _; eauto].
Qed.

(** C8 (as the code has it). A request for the details of a table
    never throws a [SchemaValidationError].  Through the schema service
    and an MSSQL adapter it returns a table description, from the cache or
    from the adapter, and throws only the plain error of a manager
    without a current connection; for a table the server does not have,
    with nothing cached, the description carries the requested name,
    schema "dbo", and no columns, keys or indexes.  The describe-table
    handler, for a table that is not in the schema it fetched, throws a
    plain [Error] whose message quotes the name. *)
Theorem getTableInfo_unknown_table (tableName : string)
    (s : SchemaService.SchemaService World) :
  (forall e, fst (SchemaService.getTableInfo tableName s) = Thrown e ->
     isSchemaValidationError e = false)
  /\ (unknownTable tableName ->
      currentIsMssql (SchemaService.dbManager s) ->
      SchemaService.schemaCache s !! ("table_" ++ tableName)%string = None ->
      exists info,
        fst (SchemaService.getTableInfo tableName s) = Returned info
        /\ name info = tableName /\ schema info = "dbo"%string /\ type info = table
        /\ emptyTable info)
  /\ (forall databaseName tables e detail,
        tableName <> ""%string -> databaseName <> ""%string ->
        ~ In tableName tables ->
        SchemaHandler.handleDescribeTable tableName (Some databaseName)
          (SchemaHandler.mkResponse true (Some tables) e) detail
        = Thrown (JsError ("Table '" ++ tableName ++ "' not found"))).
Proof.
  split; [|split].
  - intros e. unfold SchemaService.getTableInfo, bind at 1.
    destruct (SchemaService.isCacheValid _ s) as [[valid|e0] s1] eqn:Ev.
    2: { unfold SchemaService.isCacheValid in Ev.
         destruct (SchemaService.schemaCache s !! _); [destruct (_ <? _)%Z|]; discriminate. }
    destruct valid.
    + unfold SchemaService.cachedData.
      assert (Hs : s1 = s).
      { unfold SchemaService.isCacheValid in Ev.
        destruct (SchemaService.schemaCache s !! _); [destruct (_ <? _)%Z|]; congruence. }
      subst s1.
      apply (f_equal fst) in Ev. simpl in Ev.
      apply SchemaService.isCacheValid_true_iff in Ev. destruct Ev as (c & -> & _).
      discriminate.
    + unfold tryCatch, bind, SchemaService.onManager, SchemaService.updateCache, modify,
        ret, throw. simpl.
      destruct (onCurrentConnection_getTableInfo tableName (SchemaService.dbManager s1))
        as [[msg Hm]|(c & info & _ & _ & Hm)];
        destruct (onCurrentConnection (getTableInfo tableName) (SchemaService.dbManager s1))
          as [[x|x] w']; simpl in *; try discriminate.
      * injection Hm as ->. intros [= <-]. reflexivity.
  - intros Hun (connection & Hcur & Hty) Hmiss.
    unfold SchemaService.getTableInfo, bind at 1.
    unfold SchemaService.isCacheValid. rewrite Hmiss.
    unfold tryCatch, bind, SchemaService.onManager, SchemaService.updateCache, modify,
      ret, throw. simpl.
    unfold onCurrentConnection.
    destruct (getCurrentConnection (manager (SchemaService.dbManager s)))
      as [[c|e] m'] eqn:E; simpl in Hcur; [|discriminate].
    injection Hcur as ->.
    destruct (getTableInfo_unknownTable tableName
                (clock (SchemaService.dbManager s), connection) Hun Hty)
      as (info & Hinfo & Hempty).
    destruct (getTableInfo_returns tableName
                (clock (SchemaService.dbManager s), connection))
      as (info' & Hinfo' & Hname & Hschema & Hkind).
    rewrite Hinfo in Hinfo'. injection Hinfo' as <-.
    destruct (getTableInfo tableName (clock (SchemaService.dbManager s), connection))
      as [out [t c']]. simpl in Hinfo. subst out. simpl.
    exists info. auto.
  - intros databaseName tables e detail.
    apply SchemaHandler.handleDescribeTable_not_found.
Qed.

End World.

Arguments World : clear implicits.

End Gateway.

(** ** Arrays: [slice] *)

Module JsArray.

(** [array.slice(start)] for an integral [start]: a negative one counts
    from the end, and both are clamped to the array. *)
Definition sliceFrom {A : Type} (start : Z) (l : list A) : list A :=
  if (start <? 0)%Z
  then drop (Z.to_nat (Z.max (Z.of_nat (length l) + start) 0)) l
  else drop (Z.to_nat (Z.min start (Z.of_nat (length l)))) l.

(** [array.push(x)], then [array.slice(-n)] when more than [n] long. *)
Definition pushCapped {A : Type} (n : Z) (x : A) (l : list A) : list A :=
  let l' := l ++ [x] in
  if (n <? Z.of_nat (length l'))%Z then sliceFrom (- n) l' else l'.

Lemma sliceFrom_last {A : Type} (n : nat) (l : list A) :
  (0 < n)%nat -> sliceFrom (- Z.of_nat n) l = drop (length l - n) l.
Proof.
  intros Hn. unfold sliceFrom.
  destruct (Z.ltb_spec (- Z.of_nat n) 0); [|lia].
  f_equal. lia.
Qed.

Lemma length_sliceFrom_last {A : Type} (n : nat) (l : list A) :
  (0 < n)%nat -> length (sliceFrom (- Z.of_nat n) l) = Nat.min n (length l).
Proof. intros Hn. rewrite sliceFrom_last by exact Hn. rewrite length_drop. lia. Qed.

Lemma pushCapped_last {A : Type} (n : nat) (x : A) (l : list A) :
  (0 < n)%nat -> pushCapped (Z.of_nat n) x l = sliceFrom (- Z.of_nat n) (l ++ [x]).
Proof.
  intros Hn. unfold pushCapped.
  destruct (Z.ltb_spec (Z.of_nat n) (Z.of_nat (length (l ++ [x])))); [reflexivity|].
  rewrite sliceFrom_last by exact Hn.
  replace (length (l ++ [x]) - n)%nat with 0%nat by lia. reflexivity.
Qed.

(** Keeping the last [n] at every step keeps the last [n] of all. *)
Lemma sliceFrom_last_app {A : Type} (n : nat) (a b : list A) :
  (0 < n)%nat ->
  sliceFrom (- Z.of_nat n) (sliceFrom (- Z.of_nat n) a ++ b) =
  sliceFrom (- Z.of_nat n) (a ++ b).
Proof.
  intros Hn. rewrite !sliceFrom_last by exact Hn.
  rewrite <- (drop_app_le a b (length a - n)) by lia.
  rewrite drop_drop, !length_drop, !length_app. f_equal. lia.
Qed.

Lemma pushCapped_all {A : Type} (n : nat) (xs l : list A) :
  (0 < n)%nat ->
  fold_left (fun l x => pushCapped (Z.of_nat n) x l) xs (sliceFrom (- Z.of_nat n) l) =
  sliceFrom (- Z.of_nat n) (l ++ xs).
Proof.
  intros Hn. revert l. induction xs as [|x rest IH]; intros l; simpl.
  - rewrite app_nil_r. reflexivity.
  - rewrite pushCapped_last, sliceFrom_last_app by exact Hn.
    rewrite IH, <- app_assoc. reflexivity.
Qed.

(** Facts about [filter]. *)

Lemma filter_filter {A : Type} (f g : A -> bool) (l : list A) :
  List.filter f (List.filter g l) = List.filter (fun x => g x && f x) l.
Proof.
  induction l as [|x rest IH]; simpl; [reflexivity|].
  destruct (g x); simpl; [destruct (f x)|]; rewrite IH; reflexivity.
Qed.

Lemma filter_all {A : Type} (f : A -> bool) (l : list A) :
  (forall x, In x l -> f x = true) -> List.filter f l = l.
Proof.
  induction l as [|x rest IH]; simpl; intros Hall; [reflexivity|].
  rewrite (Hall x (or_introl eq_refl)), IH by auto. reflexivity.
Qed.

Lemma filter_length_le {A : Type} (f : A -> bool) (l : list A) :
  (length (List.filter f l) <= length l)%nat.
Proof. induction l as [|x rest IH]; simpl; [lia|]. destruct (f x); simpl; lia. Qed.

End JsArray.

(** ** The adapters: life cycle and connection test *)

Module AdapterLife.
Import Types Adapter.

Section Adapters.
Context {Pool : Type} `{Driver Pool}.

(** [result.recordset?.[0]?.test] *)
Definition firstTest (result : QueryResult) : SqlValue :=
  match recordset result with
  | Some (row :: _) => field "test" row
  | _ => SqlUndefined
  end.

(** [testConnection()], the same in the three classes. *)
Definition testConnection : Eff (@Running Pool) bool :=
  tryCatch
    (a <- gets snd ;;
     match pool a with
     | None => ret false
     | Some _ =>
         result <- executeQuery "SELECT 1 as test" None ;;
         ret (success result && bool_decide (firstTest result = SqlNumber 1))
     end)%eff
    (fun _ => ret false).

(** A method that does not read the clock, on an adapter that runs under
    one. *)
Definition offClock {A : Type} (f : Eff (BaseDatabaseAdapter Pool) A) : Eff (@Running Pool) A :=
  fun '(t, a) => let '(out, a') := f a in (out, (t, a')).

(** The methods a caller can invoke on an adapter. *)
Inductive AdapterCall : Type :=
| Connect
| Disconnect
| ExecuteQuery (query : string) (options : option QueryOptions)
| TestConnection.

(** The adapter (and the clock) after a call, whether it returned or threw. *)
Definition invoke (c : AdapterCall) (ta : @Running Pool) : @Running Pool :=
  match c with
  | Connect => snd (offClock connect ta)
  | Disconnect => snd (offClock disconnect ta)
  | ExecuteQuery q o => snd (executeQuery q o ta)
  | TestConnection => snd (testConnection ta)
  end.

(** What a caller can rely on between calls: the class and the
    configuration are those of the constructor, and an adapter that says
    it is connected has a pool. *)
Definition wellFormed (t : DatabaseType) (cfg : DatabaseConfig) (ta : @Running Pool) : Prop :=
  adapterType (snd ta) = t /\ config (snd ta) = cfg
  /\ (connected (snd ta) = true -> pool (snd ta) <> None).

(** A method keeps a property of the adapter, however it ends. *)
Definition keeps {A : Type} (P : @Running Pool -> Prop) (m : Eff (@Running Pool) A) : Prop :=
  forall ta, P ta -> P (snd (m ta)).

Lemma keeps_ret {A : Type} (P : @Running Pool -> Prop) (a : A) : keeps P (ret a).
Proof. intros ta Hta. exact Hta. Qed.

Lemma keeps_bind {A B : Type} (P : @Running Pool -> Prop) (m : Eff (@Running Pool) A)
    (k : A -> Eff (@Running Pool) B) :
  keeps P m -> (forall a, keeps P (k a)) -> keeps P (bind m k).
Proof.
  intros Hm Hk ta Hta. unfold bind. specialize (Hm ta Hta).
  destruct (m ta) as [[a|e] ta1]; simpl in *; [apply Hk, Hm | exact Hm].
Qed.

Lemma keeps_tryCatch {A : Type} (P : @Running Pool -> Prop) (m : Eff (@Running Pool) A)
    (h : Exn -> Eff (@Running Pool) A) :
  keeps P m -> (forall e, keeps P (h e)) -> keeps P (tryCatch m h).
Proof.
  intros Hm Hh ta Hta. unfold tryCatch. specialize (Hm ta Hta).
  destruct (m ta) as [[a|e] ta1]; simpl in *; [exact Hm | apply Hh, Hm].
Qed.

Lemma keeps_executeQuery (t : DatabaseType) (cfg : DatabaseConfig) (q : string)
    (o : option QueryOptions) :
  keeps (wellFormed t cfg) (executeQuery q o).
Proof.
  intros [now a] (Ht & Hc & Hp). unfold executeQuery, wellFormed in *. simpl in *.
  destruct (pool a) as [p|] eqn:Ep; simpl; [|rewrite Ep; auto].
  destruct (adapterType a) eqn:Et; simpl; repeat split; auto; try congruence.
Qed.

Lemma keeps_testConnection (t : DatabaseType) (cfg : DatabaseConfig) :
  keeps (wellFormed t cfg) testConnection.
Proof.
  unfold testConnection.
  apply keeps_tryCatch; [|intros e; apply keeps_ret].
  apply keeps_bind; [intros ta Hta; exact Hta|]. intros a.
  destruct (pool a); [|apply keeps_ret].
  apply keeps_bind; [apply keeps_executeQuery | intros r; apply keeps_ret].
Qed.

Lemma keeps_connect (t : DatabaseType) (cfg : DatabaseConfig) :
  keeps (wellFormed t cfg) (offClock connect).
Proof.
  intros [now a] (Ht & Hc & Hp). unfold offClock, connect, wellFormed in *. simpl in *.
  destruct (adapterType a); simpl.
  - destruct (mssqlPoolConnect _); simpl; repeat split; auto; intros; discriminate.
  - destruct (mysqlCreateConnection _); simpl; repeat split; auto; intros; discriminate.
  - destruct (pgNewPool _); simpl; repeat split; auto; intros; discriminate.
Qed.

Lemma keeps_disconnect (t : DatabaseType) (cfg : DatabaseConfig) :
  keeps (wellFormed t cfg) (offClock disconnect).
Proof.
  intros [now a] (Ht & Hc & Hp). unfold offClock, disconnect, wellFormed in *. simpl in *.
  destruct (pool a) as [p|] eqn:Ep; simpl.
  - destruct (poolClose p); simpl; repeat split; auto; intros; try discriminate.
    rewrite Ep. discriminate.
  - repeat split; auto; intros; discriminate.
Qed.

Lemma invoke_wellFormed (t : DatabaseType) (cfg : DatabaseConfig) (c : AdapterCall)
    (ta : @Running Pool) :
  wellFormed t cfg ta -> wellFormed t cfg (invoke c ta).
Proof.
  destruct c; simpl.
  - apply keeps_connect.
  - apply keeps_disconnect.
  - apply keeps_executeQuery.
  - apply keeps_testConnection.
Qed.

Lemma testConnection_unfold (ta : @Running Pool) :
  testConnection ta =
  match pool (snd ta) with
  | None => (Returned false, ta)
  | Some _ =>
      match executeQuery "SELECT 1 as test" None ta with
      | (Returned result, ta1) =>
          (Returned (success result && bool_decide (firstTest result = SqlNumber 1)), ta1)
      | (Thrown _, ta1) => (Returned false, ta1)
      end
  end.
Proof.
  unfold testConnection, tryCatch, bind, gets, ret.
  destruct (pool (snd ta)); [|reflexivity].
  destruct (executeQuery "SELECT 1 as test" None ta) as [[r|e] ta1]; reflexivity.
Qed.

(** X1. Whatever methods were called on an adapter since it was
    constructed, and however they ended: its class and configuration are
    those it was constructed with, and while [isConnected()] is true
    [executeQuery] does not throw. *)
Theorem connected_adapter_runs_queries (t : DatabaseType) (cfg : DatabaseConfig)
    (start : Z) (calls : list AdapterCall) :
  let ta := fold_left (fun ta c => invoke c ta) calls (start, newAdapter t cfg) in
  getType (snd ta) = t
  /\ config (snd ta) = cfg
  /\ (isConnected (snd ta) = true ->
      forall q o now, isThrown (fst (executeQuery q o (now, snd ta))) = false).
Proof.
  intros ta.
  assert (WF : wellFormed t cfg ta).
  { subst ta.
    assert (K : forall ta0, wellFormed t cfg ta0 ->
              wellFormed t cfg (fold_left (fun ta c => invoke c ta) calls ta0)).
    { induction calls as [|c rest IH]; intros ta0 W0; simpl; [exact W0|].
      apply IH, invoke_wellFormed, W0. }
    apply K. repeat split; simpl; discriminate. }
  destruct WF as (Ht & Hc & Hp).
  split; [exact Ht|]. split; [exact Hc|].
  intros Hconn q o now.
  destruct (isThrown (fst (executeQuery q o (now, snd ta)))) eqn:E; [|reflexivity].
  exfalso. apply (Hp Hconn).
  apply (executeQuery_throws_iff q o now (snd ta)).
  destruct (fst (executeQuery q o (now, snd ta))); [discriminate | eauto].
Qed.

(** X2. A [disconnect] that returns leaves the adapter without a pool
    and not connected: a second [disconnect] returns and changes nothing,
    [executeQuery] throws "Not connected to database." and
    [testConnection] answers false.  A [disconnect] that throws leaves the
    adapter exactly as it was, and its message names the product. *)
Theorem disconnect_outcome (a : BaseDatabaseAdapter Pool) :
  match disconnect a with
  | (Returned _, a1) =>
      isConnected a1 = false
      /\ disconnect a1 = (Returned tt, a1)
      /\ (forall q o now,
            executeQuery q o (now, a1) =
            (Thrown (JsError "Not connected to database."), (now, a1)))
      /\ (forall now, testConnection (now, a1) = (Returned false, (now, a1)))
  | (Thrown e, a1) =>
      a1 = a
      /\ exists msg,
           e = JsError (productName (getType a) ++ " disconnection failed: " ++ msg)
  end.
Proof.
  unfold disconnect. destruct (pool a) as [p|] eqn:Ep.
  - destruct (poolClose p) as [msg|]; [split; [reflexivity | eauto]|].
    simpl. repeat split.
  - simpl. repeat split.
Qed.

(** X3. [connect] either returns, and then the adapter is connected and
    [executeQuery] on it does not throw, or throws
    "<product> connection failed: <driver's message>", and then the
    adapter is not connected.  Neither changes class or configuration. *)
Theorem connect_outcome (a : BaseDatabaseAdapter Pool) :
  getType (snd (connect a)) = getType a
  /\ config (snd (connect a)) = config a
  /\ match fst (connect a) with
     | Returned _ =>
         isConnected (snd (connect a)) = true
         /\ forall q o now,
              isThrown (fst (executeQuery q o (now, snd (connect a)))) = false
     | Thrown e =>
         isConnected (snd (connect a)) = false
         /\ exists msg,
              e = JsError (productName (getType a) ++ " connection failed: " ++ msg)
     end.
Proof.
  unfold connect, getType, isConnected.
  destruct (adapterType a) eqn:Et.
  - destruct (mssqlPoolConnect _) as [msg|p]; simpl; rewrite ?Et; repeat split; eauto.
  - destruct (mysqlCreateConnection _) as [msg|p]; simpl; rewrite ?Et; repeat split; eauto.
  - destruct (pgNewPool _) as [msg|p]; simpl; rewrite ?Et; repeat split; eauto.
Qed.

Lemma testConnection_returns (ta : @Running Pool) :
  exists b, fst (testConnection ta) = Returned b.
Proof.
  rewrite testConnection_unfold. destruct (pool (snd ta)); [|eauto].
  destruct (executeQuery "SELECT 1 as test" None ta) as [[r|e] ta1]; eauto.
Qed.

(** X4. [testConnection] never throws.  Without a pool it answers false
    and touches nothing; with one it sends "SELECT 1 as test" and answers
    true exactly when the result reports success and the first row's
    [test] is the number 1. *)
Theorem testConnection_never_throws (ta : @Running Pool) :
  exists b,
    fst (testConnection ta) = Returned b
    /\ (pool (snd ta) = None -> b = false /\ snd (testConnection ta) = ta)
    /\ (pool (snd ta) <> None ->
        snd (testConnection ta) = snd (executeQuery "SELECT 1 as test" None ta))
    /\ (b = true <->
        exists result,
          fst (executeQuery "SELECT 1 as test" None ta) = Returned result
          /\ success result = true /\ firstTest result = SqlNumber 1).
Proof.
  rewrite testConnection_unfold. destruct ta as [now a]. cbn [snd].
  destruct (pool a) as [p|] eqn:Ep.
  - destruct (executeQuery "SELECT 1 as test" None (now, a)) as [[r|e] ta1] eqn:E.
    + simpl. eexists. split; [reflexivity|]. split; [discriminate|].
      split; [reflexivity|]. split.
      * intros Hb. apply andb_true_iff in Hb. destruct Hb as [Hs Ht].
        exists r. split; [reflexivity|]. split; [exact Hs|].
        apply bool_decide_eq_true in Ht. exact Ht.
      * intros (r' & [= <-] & Hs & Ht). rewrite Hs. simpl.
        apply bool_decide_eq_true. exact Ht.
    + exfalso.
      assert (Hn : pool a = None).
      { apply (executeQuery_throws_iff "SELECT 1 as test" None now a). rewrite E. eauto. }
      congruence.
  - exists false. split; [reflexivity|]. split; [auto|]. split; [congruence|].
    split; [discriminate|].
    intros (r & Hr & _). unfold executeQuery in Hr. rewrite Ep in Hr. discriminate.
Qed.

End Adapters.

End AdapterLife.

(** ** The connection manager: what each call leaves in the registry *)

Module ManagerOps.
Import Types Adapter ConnectionManager JsArray.

Section Manager.
Context {Pool : Type} `{Driver Pool}.

(** An element of what [getConnectionList] returns. *)
Record ConnectionListing : Type := mkListing {
  listing_id : string;
  listing_type : string;
  listing_status : string
}.

Definition getConnectionList (m : DatabaseConnectionManager Pool) : list ConnectionListing :=
  map (fun '(id, adapter) =>
         mkListing id (typeName (getType adapter))
           (if isConnected adapter then "connected" else "disconnected"))
      (connections m).

Record ConnectionStats : Type := mkConnectionStats {
  total : nat;
  active : nat;
  current : option string;
  listed : list ConnectionListing
}.

Definition getConnectionStats (m : DatabaseConnectionManager Pool) : ConnectionStats :=
  let totalConnections := length (connections m) in
  let activeConnections :=
    length (List.filter (fun adapter => isConnected adapter) (map snd (connections m))) in
  {| total := totalConnections;
     active := activeConnections;
     current := currentConnection m;
     listed := getConnectionList m |}.

(** The adapter's [disconnect] throws. *)
Definition cannotClose (kv : string * BaseDatabaseAdapter Pool) : bool :=
  isThrown (fst (disconnect (snd kv))).

(** *** The registry as a map *)

Lemma mapGet_mapSet_eq {V : Type} (k : string) (v : V) (m : JsMap V) :
  mapGet k (mapSet k v m) = Some v.
Proof.
  induction m as [|[k0 v0] rest IH]; simpl.
  - rewrite String.eqb_refl. reflexivity.
  - destruct (String.eqb k0 k) eqn:E; simpl; rewrite E; [reflexivity | exact IH].
Qed.

Lemma mapGet_mapSet_ne {V : Type} (k k' : string) (v : V) (m : JsMap V) :
  k <> k' -> mapGet k (mapSet k' v m) = mapGet k m.
Proof.
  intros Hne. induction m as [|[k0 v0] rest IH]; simpl.
  - destruct (String.eqb k' k) eqn:E; [apply String.eqb_eq in E; congruence | reflexivity].
  - destruct (String.eqb k0 k') eqn:E; simpl.
    + apply String.eqb_eq in E. subst k0.
      destruct (String.eqb k' k) eqn:E'; [apply String.eqb_eq in E'; congruence | reflexivity].
    + destruct (String.eqb k0 k); [reflexivity | exact IH].
Qed.

Lemma mapGet_mapDelete_eq {V : Type} (k : string) (m : JsMap V) :
  mapGet k (mapDelete k m) = None.
Proof.
  pose proof (mapHas_mapDelete k k m) as Hh. rewrite String.eqb_refl in Hh.
  unfold mapHas in Hh. destruct (mapGet k (mapDelete k m)); [discriminate | reflexivity].
Qed.

Lemma mapGet_mapDelete_ne {V : Type} (k k' : string) (m : JsMap V) :
  k <> k' -> mapGet k (mapDelete k' m) = mapGet k m.
Proof.
  intros Hne. unfold mapDelete. induction m as [|[k0 v0] rest IH]; simpl; [reflexivity|].
  destruct (String.eqb k0 k') eqn:E; simpl.
  - apply String.eqb_eq in E. subst k0.
    destruct (String.eqb k' k) eqn:E'; [apply String.eqb_eq in E'; congruence | exact IH].
  - destruct (String.eqb k0 k); [reflexivity | exact IH].
Qed.

Lemma mapKeys_mapSet {V : Type} (k : string) (v : V) (m : JsMap V) :
  mapHas k m = true -> mapKeys (mapSet k v m) = mapKeys m.
Proof.
  unfold mapHas, mapKeys. induction m as [|[k0 v0] rest IH]; simpl; [discriminate|].
  destruct (String.eqb k0 k) eqn:E; simpl; [reflexivity|].
  intros Hk. rewrite (IH Hk). reflexivity.
Qed.

Lemma mapDelete_mapSet {V : Type} (k : string) (v : V) (m : JsMap V) :
  mapDelete k (mapSet k v m) = mapDelete k m.
Proof.
  unfold mapDelete. induction m as [|[k0 v0] rest IH]; simpl.
  - rewrite String.eqb_refl. reflexivity.
  - destruct (String.eqb k0 k) eqn:E; simpl; rewrite E; simpl; [reflexivity|].
    rewrite IH. reflexivity.
Qed.

Lemma mapGet_In {V : Type} (k : string) (v : V) (m : JsMap V) :
  mapGet k m = Some v -> In (k, v) m.
Proof.
  induction m as [|[k0 v0] rest IH]; simpl; [discriminate|].
  destruct (String.eqb k0 k) eqn:E.
  - apply String.eqb_eq in E. intros [= ->]. left. congruence.
  - intros Hg. right. apply IH, Hg.
Qed.

Lemma mapGet_None {V : Type} (k : string) (m : JsMap V) (kv : string * V) :
  mapGet k m = None -> In kv m -> String.eqb (fst kv) k = false.
Proof.
  induction m as [|[k0 v0] rest IH]; simpl; [contradiction|].
  destruct (String.eqb k0 k) eqn:E; [discriminate|].
  intros Hg [<-|Hin]; [exact E | apply IH; assumption].
Qed.

(** In a registry without repeated keys, the entry that [get] finds is
    the only one under its key. *)
Lemma mapGet_unique {V : Type} (k : string) (v : V) (m : JsMap V) (kv : string * V) :
  NoDup (mapKeys m) -> mapGet k m = Some v -> In kv m -> fst kv = k -> snd kv = v.
Proof.
  unfold mapKeys. induction m as [|[k0 v0] rest IH]; simpl; [contradiction|].
  intros Hnd Hg Hin Hk. apply NoDup_cons in Hnd as [Hnotin Hnd']. subst.
  destruct (String.eqb k0 (fst kv)) eqn:E.
  - apply String.eqb_eq in E. subst k0. injection Hg as <-.
    destruct Hin as [<-|Hin]; [reflexivity|].
    exfalso. apply Hnotin. apply list_elem_of_In, in_map_iff. exists kv. split; [reflexivity | exact Hin].
  - destruct Hin as [<-|Hin]; [simpl in E; rewrite String.eqb_refl in E; discriminate|].
    apply (IH Hnd' Hg Hin eq_refl).
Qed.

Lemma NoDup_mapKeys_filter {V : Type} (f : string * V -> bool) (m : JsMap V) :
  NoDup (mapKeys m) -> NoDup (mapKeys (List.filter f m)).
Proof.
  unfold mapKeys. induction m as [|kv rest IH]; simpl; [intros _; apply NoDup_nil_2|].
  intros Hnd. apply NoDup_cons in Hnd as [Hnotin Hnd'].
  destruct (f kv); simpl; [|apply IH, Hnd'].
  apply NoDup_cons. split; [|apply IH, Hnd'].
  intros Hin. apply Hnotin. apply list_elem_of_In, in_map_iff in Hin.
  destruct Hin as (x & Hx & Hin).
  apply list_elem_of_In, in_map_iff. exists x. split; [exact Hx|]. apply List.filter_In in Hin. tauto.
Qed.

(** *** One removal inside [disconnectAll] *)

Definition removeQuietly (m : DatabaseConnectionManager Pool) (connectionId : string)
    : DatabaseConnectionManager Pool :=
  snd (tryCatch (removeConnection connectionId) (fun error => ret tt) m).

Lemma removeQuietly_connections (m : DatabaseConnectionManager Pool) (id : string) :
  NoDup (mapKeys (connections m)) ->
  connections (removeQuietly m id) =
  List.filter (fun kv => negb (String.eqb (fst kv) id) || cannotClose kv) (connections m).
Proof.
  intros Hnd. unfold removeQuietly, tryCatch.
  pose proof (removeConnection_cases id m) as R.
  destruct (mapGet id (connections m)) as [a|] eqn:G.
  - assert (U : forall kv, In kv (connections m) -> String.eqb (fst kv) id = true ->
                cannotClose kv = isThrown (fst (disconnect a))).
    { intros kv Hin Hk. apply String.eqb_eq in Hk. unfold cannotClose.
      rewrite (mapGet_unique id a (connections m) kv Hnd G Hin Hk). reflexivity. }
    pose proof (disconnect_thrown_unchanged a) as Hsame.
    destruct (disconnect a) as [[[]|e] a'] eqn:D; rewrite R; simpl in *.
    + rewrite mapDelete_mapSet. unfold mapDelete. apply filter_ext_in.
      intros kv Hin. destruct (String.eqb (fst kv) id) eqn:E; simpl; [|reflexivity].
      rewrite (U kv Hin E). reflexivity.
    + rewrite (Hsame e eq_refl), (mapSet_same _ _ _ G). symmetry. apply filter_all.
      intros kv Hin. destruct (String.eqb (fst kv) id) eqn:E; simpl; [|reflexivity].
      rewrite (U kv Hin E). reflexivity.
  - rewrite R. simpl. symmetry. apply filter_all.
    intros kv Hin. rewrite (mapGet_None id _ kv G Hin). reflexivity.
Qed.

Lemma removeQuietly_all (ids : list string) (m : DatabaseConnectionManager Pool) :
  NoDup (mapKeys (connections m)) ->
  connections (fold_left removeQuietly ids m) =
  List.filter (fun kv => negb (existsb (String.eqb (fst kv)) ids) || cannotClose kv)
    (connections m).
Proof.
  revert m. induction ids as [|id rest IH]; intros m Hnd; simpl.
  - symmetry. apply filter_all. reflexivity.
  - rewrite IH, removeQuietly_connections, filter_filter by
      (try rewrite removeQuietly_connections by exact Hnd;
       try apply NoDup_mapKeys_filter; exact Hnd).
    apply filter_ext. intros kv.
    destruct (String.eqb (fst kv) id), (existsb (String.eqb (fst kv)) rest),
      (cannotClose kv); reflexivity.
Qed.


(** *** What the calls leave behind *)

Lemma connect_returned (a a1 : BaseDatabaseAdapter Pool) :
  connect a = (Returned tt, a1) ->
  connected a1 = true /\ adapterType a1 = adapterType a /\ config a1 = config a.
Proof.
  unfold connect. destruct (adapterType a) eqn:Et.
  - destruct (mssqlPoolConnect _); intros [= <-]; simpl; auto.
  - destruct (mysqlCreateConnection _); intros [= <-]; simpl; auto.
  - destruct (pgNewPool _); intros [= <-]; simpl; auto.
Qed.

Lemma connect_thrown (a : BaseDatabaseAdapter Pool) (e : Exn) :
  fst (connect a) = Thrown e -> connected (snd (connect a)) = false.
Proof.
  unfold connect. destruct (adapterType a).
  - destruct (mssqlPoolConnect _); simpl; [reflexivity | discriminate].
  - destruct (mysqlCreateConnection _); simpl; [reflexivity | discriminate].
  - destruct (pgNewPool _); simpl; [reflexivity | discriminate].
Qed.

Lemma createConnection_returned (id : string) (cfg : DatabaseConfig) (ty : string)
    (m m' : DatabaseConnectionManager Pool) (a : BaseDatabaseAdapter Pool) :
  createConnection id cfg ty m = (Returned a, m') ->
  (exists t, ty = typeName t /\ connect (newAdapter t cfg) = (Returned tt, a))
  /\ m' = mkManager (mapSet id a (connections m))
            (if truthyId (currentConnection m) then currentConnection m else Some id).
Proof.
  unfold createConnection, adapterFor.
  destruct (String.eqb ty "mssql") eqn:E1;
    [|destruct (String.eqb ty "mysql") eqn:E2;
      [|destruct (String.eqb ty "postgresql") eqn:E3]].
  4: { discriminate. }
  all: unfold tryCatch, bind, ret, onAdapter, modify, throw; simpl.
  all: match goal with |- context [connect ?x] => destruct (connect x) as [[[]|e] a'] eqn:C end;
    simpl; [|discriminate].
  all: destruct m as [conns cur]; simpl; destruct (truthyId cur); simpl; intros [= <- <-].
  all: split; [|reflexivity].
  1,2: exists mssql. 3,4: exists mysql. 5,6: exists postgresql.
  all: split; [|exact C].
  all: first [apply String.eqb_eq in E1; exact E1
             |apply String.eqb_eq in E2; exact E2
             |apply String.eqb_eq in E3; exact E3].
Qed.

(** X5. [switchConnection] to an identifier that is not registered
    throws "Connection not found: <id>" and changes nothing.  To a
    registered one it returns and leaves the registry alone;
    [getCurrentConnection] then returns the adapter registered under that
    identifier, unless the identifier is the empty string, which the
    manager takes for no connection at all. *)
Theorem switchConnection_outcome (id : string) (m : DatabaseConnectionManager Pool) :
  match mapGet id (connections m) with
  | None => switchConnection id m = (Thrown (JsError ("Connection not found: " ++ id)), m)
  | Some a =>
      exists m',
        switchConnection id m = (Returned tt, m')
        /\ connections m' = connections m
        /\ getCurrentConnection m' =
           (if String.eqb id ""
            then Thrown (JsError "No active database connection.")
            else Returned a, m')
  end.
Proof.
  unfold switchConnection, mapHas.
  destruct (mapGet id (connections m)) as [a|] eqn:G; simpl; [|reflexivity].
  eexists. split; [reflexivity|]. split; [reflexivity|].
  unfold getCurrentConnection. simpl.
  destruct (String.eqb id ""); simpl; [reflexivity|]. rewrite G. reflexivity.
Qed.

(** X6. A [createConnection] that returns has registered a connected
    adapter of the requested class and configuration under the
    identifier; every other identifier keeps its adapter; the current
    pointer is kept when it was set and becomes this identifier when it was
    not, so that on a manager without connections the new one is what
    [getCurrentConnection] returns. *)
Theorem createConnection_registers (id : string) (cfg : DatabaseConfig) (ty : string)
    (m m' : DatabaseConnectionManager Pool) (a : BaseDatabaseAdapter Pool) :
  createConnection id cfg ty m = (Returned a, m') ->
  getConnection id m' = (Returned a, m')
  /\ isConnected a = true /\ typeName (getType a) = ty /\ config a = cfg
  /\ (forall k, k <> id -> mapGet k (connections m') = mapGet k (connections m))
  /\ currentConnection m' =
     (if truthyId (currentConnection m) then currentConnection m else Some id)
  /\ (truthyId (currentConnection m) = false -> id <> ""%string ->
      getCurrentConnection m' = (Returned a, m')).
Proof.
  intros Hc. apply createConnection_returned in Hc.
  destruct Hc as [(t & -> & Hconn) ->].
  apply connect_returned in Hconn. destruct Hconn as (Hon & Hty & Hcfg). simpl in *.
  split; [unfold getConnection; simpl; rewrite mapGet_mapSet_eq; reflexivity|].
  split; [exact Hon|]. split; [unfold getType; rewrite Hty; reflexivity|].
  split; [exact Hcfg|].
  split; [intros k Hk; apply mapGet_mapSet_ne, Hk|].
  split; [reflexivity|].
  intros Hnone Hid. rewrite Hnone. unfold getCurrentConnection. simpl.
  apply String.eqb_neq in Hid. rewrite Hid. simpl. rewrite mapGet_mapSet_eq. reflexivity.
Qed.

(** X7. A [removeConnection] that returns has taken the identifier out
    of the registry, so that [getConnection] on it throws; every other
    identifier keeps its adapter, and the current pointer moves only if it
    was on the removed identifier. *)
Theorem removeConnection_returns (id : string) (m m' : DatabaseConnectionManager Pool) :
  removeConnection id m = (Returned tt, m') ->
  getConnection id m' = (Thrown (JsError ("Connection not found: " ++ id)), m')
  /\ (forall k, k <> id -> mapGet k (connections m') = mapGet k (connections m))
  /\ (currentConnection m <> Some id -> currentConnection m' = currentConnection m)
  /\ (currentConnection m = Some id -> currentConnection m' = firstKey (connections m')).
Proof.
  pose proof (removeConnection_cases id m) as R.
  destruct (mapGet id (connections m)) as [a|]; [|rewrite R; discriminate].
  destruct (disconnect a) as [[[]|e] a']; rewrite R; [|discriminate].
  intros [= <-]. simpl. rewrite mapDelete_mapSet.
  split; [unfold getConnection; simpl; rewrite mapGet_mapDelete_eq; reflexivity|].
  split; [intros k Hk; apply mapGet_mapDelete_ne, Hk|].
  split; intros Hcur.
  - rewrite bool_decide_eq_false_2 by exact Hcur. reflexivity.
  - rewrite bool_decide_eq_true_2 by exact Hcur. reflexivity.
Qed.

(** X8. [disconnectAll] never throws.  On a registry it leaves exactly
    the connections whose [disconnect] throws, untouched and in their
    order, and no current connection: [getCurrentConnection] throws
    afterwards. *)
Theorem disconnectAll_outcome (m : DatabaseConnectionManager Pool) :
  NoDup (mapKeys (connections m)) ->
  disconnectAll m =
    (Returned tt, mkManager (List.filter cannotClose (connections m)) None)
  /\ fst (getCurrentConnection (snd (disconnectAll m))) =
     Thrown (JsError "No active database connection.").
Proof.
  intros Hnd. unfold disconnectAll.
  change (fold_left _ (mapKeys (connections m)) m)
    with (fold_left removeQuietly (mapKeys (connections m)) m).
  rewrite (removeQuietly_all _ _ Hnd).
  split; [|reflexivity].
  f_equal. f_equal. apply filter_ext_in. intros kv Hin.
  assert (E : existsb (String.eqb (fst kv)) (mapKeys (connections m)) = true).
  { apply existsb_exists. exists (fst kv). split; [|apply String.eqb_refl].
    apply in_map, Hin. }
  rewrite E. reflexivity.
Qed.

(** X9. [autoReconnect] never throws and never changes the current
    pointer, the identifiers registered or any adapter but the target's.
    When it answers true the target's adapter is connected.  When it
    answers false, either nothing has changed, or the target's adapter is
    left registered and not connected. *)
Theorem autoReconnect_outcome (id : option string) (m : DatabaseConnectionManager Pool) :
  exists b m',
    autoReconnect id m = (Returned b, m')
    /\ currentConnection m' = currentConnection m
    /\ mapKeys (connections m') = mapKeys (connections m)
    /\ (forall k, Some k <> orCurrent id m ->
          mapGet k (connections m') = mapGet k (connections m))
    /\ (b = true ->
        exists target a,
          orCurrent id m = Some target
          /\ mapGet target (connections m') = Some a /\ isConnected a = true)
    /\ (b = false ->
        m' = m
        \/ exists target a,
             orCurrent id m = Some target
             /\ mapGet target (connections m') = Some a /\ isConnected a = false).
Proof.
  unfold autoReconnect, tryCatch, bind, gets, throw, ret, onRegistered.
  destruct (orCurrent id m) as [target|] eqn:T; simpl.
  2: { exists false, m. repeat split; auto. discriminate. }
  destruct (String.eqb target ""); simpl.
  { exists false, m. repeat split; auto. discriminate. }
  destruct (mapGet target (connections m)) as [a|] eqn:G; simpl.
  2: { exists false, m. repeat split; auto. discriminate. }
  assert (Hhas : mapHas target (connections m) = true) by (unfold mapHas; rewrite G; reflexivity).
  pose proof (disconnect_thrown_unchanged a) as Hsame.
  destruct (disconnect a) as [[[]|e] a1] eqn:D; simpl in *.
  2: { rewrite (Hsame e eq_refl), (mapSet_same _ _ _ G).
       exists false, m. destruct m; simpl. repeat split; auto. discriminate. }
  rewrite mapGet_mapSet_eq. simpl.
  pose proof (connect_thrown a1) as Hoff.
  destruct (connect a1) as [[[]|e] a2] eqn:C; simpl in *.
  - apply connect_returned in C. destruct C as (Hon & _).
    eexists true, _. split; [reflexivity|]. cbn [connections currentConnection].
    split; [reflexivity|].
    split; [rewrite !mapKeys_mapSet by (try apply mapHas_mapSet_mono; exact Hhas); reflexivity|].
    split; [intros k Hk; rewrite !mapGet_mapSet_ne by congruence; reflexivity|].
    split; [|discriminate]. intros _. exists target, a2.
    split; [reflexivity|]. split; [apply mapGet_mapSet_eq | exact Hon].
  - eexists false, _. split; [reflexivity|]. cbn [connections currentConnection].
    split; [reflexivity|].
    split; [rewrite !mapKeys_mapSet by (try apply mapHas_mapSet_mono; exact Hhas); reflexivity|].
    split; [intros k Hk; rewrite !mapGet_mapSet_ne by congruence; reflexivity|].
    split; [discriminate|]. intros _. right. exists target, a2.
    split; [reflexivity|]. split; [apply mapGet_mapSet_eq | apply (Hoff e eq_refl)].
Qed.

Lemma active_le_total (m : DatabaseConnectionManager Pool) :
  (active (getConnectionStats m) <= total (getConnectionStats m))%nat.
Proof.
  simpl. rewrite <- (length_map snd (connections m)). apply filter_length_le.
Qed.

(** X10. The statistics agree with the list: [total] is the number of
    connections listed, in the order of registration; [active] is the
    number of those listed as "connected", and so never more than
    [total]; and an adapter is listed as "connected" exactly when
    [isConnected()] holds of it. *)
Theorem getConnectionStats_counts (m : DatabaseConnectionManager Pool) :
  let stats := getConnectionStats m in
  total stats = length (listed stats)
  /\ map listing_id (listed stats) = mapKeys (connections m)
  /\ active stats =
     length (List.filter (fun l => String.eqb (listing_status l) "connected") (listed stats))
  /\ (active stats <= total stats)%nat
  /\ (forall id a, In (id, a) (connections m) ->
        In (mkListing id (typeName (getType a))
              (if isConnected a then "connected" else "disconnected"))
           (listed stats)).
Proof.
  simpl. unfold getConnectionList, mapKeys.
  induction (connections m) as [|[id a] rest (IH1 & IH2 & IH3 & IH4 & IH5)]; simpl.
  - repeat split; auto.
  - split; [rewrite length_map; reflexivity|].
    split; [rewrite IH2; reflexivity|].
    split.
    { destruct (isConnected a); simpl; rewrite IH3; reflexivity. }
    split.
    { destruct (isConnected a); simpl; lia. }
    intros id' a' [[= <- <-]|Hin]; [left; reflexivity | right; apply IH5, Hin].
Qed.

End Manager.

End ManagerOps.

(** ** The query service: batches, statistics, history, connection test *)

Module QueryOps.
Import QueryService.

Section Service.
Context {Env : Type} `{Backend Env} `{JsMath}.

(** [testConnection()] of the service: it goes through [executeQuery],
    and so through the history. *)
Definition testConnection : Eff (QueryService Env) bool :=
  tryCatch
    (result <- executeQuery "SELECT 1 as test" None ;;
     ret (Types.success result
          && bool_decide (AdapterLife.firstTest result = Types.SqlNumber 1)))%eff
    (fun _ => ret false).

(** A call of [executeBatch] for a query: no options. *)
Definition plainCall (q : string) : Call := (q, None).

(** The two courses a batch can take: every call returns, whatever the
    results report, or one call throws and ends the batch. *)
Inductive BatchRun (queries : list string)
    : list Call -> list (Outcome Types.QueryResult) ->
      Outcome (list Types.QueryResult) -> Prop :=
| batch_completes rs :
    length rs = length queries ->
    BatchRun queries (map plainCall queries) (map Returned rs) (Returned rs)
| batch_stops done q rest rs e :
    queries = done ++ q :: rest ->
    length rs = length done ->
    BatchRun queries (map plainCall (done ++ [q])) (map Returned rs ++ [Thrown e]) (Thrown e).

Definition batchFailedLine : LogLine := mkLog LogError "Batch query execution failed".
Definition batchCompletedLine : LogLine := mkLog LogInfo "Batch query execution completed".

(** The entry that is slowest (when [slowest] is true) or fastest in a
    history: no entry beats it, and those before it are strictly beaten
    by it. *)
Definition beats (slowest : bool) (a b : Z) : bool :=
  if slowest then (b <? a)%Z else (a <? b)%Z.

Definition firstBest (slowest : bool) (history : list HistoryEntry) (e : HistoryEntry)
    : Prop :=
  exists before after,
    history = before ++ e :: after
    /\ Forall (fun x => beats slowest (executionTime e) (executionTime x) = true) before
    /\ Forall (fun x => beats slowest (executionTime x) (executionTime e) = false) after.

Definition abbreviated (e : HistoryEntry) : QuerySummary :=
  mkSummary (abbreviate (query e)) (executionTime e) (timestamp e).

(** *** Batches *)

Lemma batchLoop_cons (q : string) (rest : list string)
    (results : list Types.QueryResult) (s : QueryService Env) :
  batchLoop (q :: rest) results s =
  match executeQuery q None s with
  | (Returned r, s1) => batchLoop rest (results ++ [r]) s1
  | (Thrown e, s1) => (Thrown e, s1)
  end.
Proof. reflexivity. Qed.

Lemma batchLoop_run (queries : list string) (results : list Types.QueryResult)
    (s : QueryService Env) :
  (exists rs,
      fst (batchLoop queries results s) = Returned (results ++ rs)
      /\ length rs = length queries
      /\ traced s (snd (batchLoop queries results s))
           (map plainCall queries) (map Returned rs))
  \/ (exists done q rest rs e,
        queries = done ++ q :: rest
        /\ length rs = length done
        /\ fst (batchLoop queries results s) = Thrown e
        /\ traced s (snd (batchLoop queries results s))
             (map plainCall (done ++ [q])) (map Returned rs ++ [Thrown e])).
Proof.
  revert results s. induction queries as [|q rest IH]; intros results s.
  - left. exists []. simpl. rewrite app_nil_r.
    split; [reflexivity|]. split; [reflexivity | apply traced_refl].
  - rewrite batchLoop_cons.
    destruct (executeQuery q None s) as [[r|e] s1] eqn:E;
      pose proof (traced_executeQuery _ _ _ _ _ E) as T1.
    + destruct (IH (results ++ [r]) s1) as
        [(rs & Hout & Hlen & T2)|(done & q' & rest' & rs & e & Hq & Hlen & Hout & T2)].
      * left. exists (r :: rs). rewrite Hout, <- app_assoc. simpl.
        split; [reflexivity|]. split; [lia|].
        apply (traced_trans _ _ _ [plainCall q] _ [Returned r] _ T1 T2).
      * right. exists (q :: done), q', rest', (r :: rs), e.
        subst rest. rewrite Hout. simpl.
        split; [reflexivity|]. split; [lia|]. split; [reflexivity|].
        apply (traced_trans _ _ _ [plainCall q] _ [Returned r] _ T1 T2).
    + right. exists [], q, rest, [], e. simpl.
      split; [reflexivity|]. split; [reflexivity|]. split; [reflexivity | exact T1].
Qed.

(** X11. A batch sends its queries in the order given, each as one call
    of [executeQuery] without options.  A result that reports a failure
    does not stop it: when no call throws, the batch returns one result
    per query, in order.  The first call that throws ends the batch with
    that error, and the queries after it are not sent.  The history
    records every call sent, and the log says how the batch ended. *)
Theorem executeBatch_protocol (queries : list string) (s : QueryService Env) :
  exists calls outs,
    traced s (snd (executeBatch queries s)) calls outs
    /\ BatchRun queries calls outs (fst (executeBatch queries s))
    /\ last (logger (snd (executeBatch queries s))) =
       Some (if isThrown (fst (executeBatch queries s))
             then batchFailedLine else batchCompletedLine).
Proof.
  set (s0 := mkService (dbManager s) (queryHistory s)
               (logger s ++ [mkLog LogInfo "Starting batch query execution"])).
  assert (T0 : traced s s0 [] [])
    by apply (traced_log LogInfo "Starting batch query execution").
  assert (E : executeBatch queries s =
              match batchLoop queries [] s0 with
              | (Returned rs, s1) =>
                  (Returned rs,
                   mkService (dbManager s1) (queryHistory s1) (logger s1 ++ [batchCompletedLine]))
              | (Thrown e, s1) =>
                  (Thrown e,
                   mkService (dbManager s1) (queryHistory s1) (logger s1 ++ [batchFailedLine]))
              end).
  { unfold executeBatch, bind at 1. simpl. fold s0.
    unfold tryCatch, bind, log, modify, ret, throw.
    destruct (batchLoop queries [] s0) as [[rs|e] s1]; reflexivity. }
  rewrite E.
  destruct (batchLoop_run queries [] s0) as
    [(rs & Hout & Hlen & T)|(done & q & rest & rs & e & Hq & Hlen & Hout & T)];
    destruct (batchLoop queries [] s0) as [[x|x] s1]; simpl in *; try discriminate;
    injection Hout as ->.
  - exists (map plainCall queries), (map Returned rs).
    split; [|split; [constructor; exact Hlen | apply last_snoc]].
    apply (traced_trans _ _ _ [] _ [] _ T0).
    destruct T as [R Hh]. split; [exact R | exact Hh].
  - eexists _, _.
    split; [|split; [econstructor; eassumption | apply last_snoc]].
    apply (traced_trans _ _ _ [] _ [] _ T0).
    destruct T as [R Hh]. split; [exact R | exact Hh].
Qed.


(** *** Statistics of a history that is not empty *)

Lemma beats_trans (slowest : bool) (a b c : Z) :
  beats slowest a b = true -> beats slowest b c = true -> beats slowest a c = true.
Proof. unfold beats. destruct slowest; rewrite !Z.ltb_lt; lia. Qed.

Lemma beats_after (slowest : bool) (a b c : Z) :
  beats slowest a b = true -> beats slowest c b = false -> beats slowest a c = true.
Proof.
  unfold beats. destruct slowest; rewrite !Z.ltb_lt, Z.ltb_ge; lia.
Qed.

Lemma fold_best (slowest : bool) (rest before after : list HistoryEntry)
    (e : HistoryEntry) :
  Forall (fun x => beats slowest (executionTime e) (executionTime x) = true) before ->
  Forall (fun x => beats slowest (executionTime x) (executionTime e) = false) after ->
  exists e',
    firstBest slowest (before ++ e :: after ++ rest) e'
    /\ fold_left
         (fun best current =>
            if beats slowest (executionTime current) (sum_executionTime best)
            then summaryOf current else best)
         rest (summaryOf e) = summaryOf e'.
Proof.
  revert before after e. induction rest as [|c rest IH]; intros before after e Hb Ha.
  - exists e. split; [|reflexivity]. exists before, after.
    rewrite app_nil_r. auto.
  - simpl. destruct (beats slowest (executionTime c) (executionTime e)) eqn:B.
    + destruct (IH (before ++ e :: after) [] c) as (e' & Hfirst & Hfold).
      * apply Forall_app. split; [|constructor].
        -- eapply Forall_impl; [exact Hb|]. simpl. intros x Hx.
           apply (beats_trans _ _ _ _ B Hx).
        -- exact B.
        -- eapply Forall_impl; [exact Ha|]. simpl. intros x Hx.
           apply (beats_after _ _ _ _ B Hx).
      * constructor.
      * exists e'. split; [|exact Hfold].
        rewrite <- app_assoc in Hfirst. exact Hfirst.
    + destruct (IH before (after ++ [c]) e Hb) as (e' & Hfirst & Hfold).
      * apply Forall_app. split; [exact Ha | constructor; [exact B | constructor]].
      * exists e'. split; [|exact Hfold].
        rewrite <- app_assoc in Hfirst. exact Hfirst.
Qed.

Lemma beats_irrefl (slowest : bool) (a : Z) : beats slowest a a = false.
Proof. unfold beats. destruct slowest; apply Z.ltb_irrefl. Qed.

(** X12. On a history that is not empty, [getQueryStats] counts every
    entry once, as successful or as failed; the slowest query it reports
    is the first entry whose execution time no entry exceeds, the fastest
    the first entry whose execution time no entry undercuts, each with
    its execution time, its timestamp and its text abbreviated.  A text
    of at most 100 UTF-16 code units is reported whole; a longer one as
    its first 100 code units followed by three dots.  For a text of ASCII
    characters these are its length and its first 100 characters. *)
Theorem getQueryStats_extremes (today : Z) (s : QueryService Env) :
  queryHistory s <> [] ->
  let stats := getQueryStats today s in
  totalQueries stats = Z.of_nat (length (queryHistory s))
  /\ (successfulQueries stats + failedQueries stats = totalQueries stats)%Z
  /\ (0 <= successfulQueries stats)%Z /\ (0 <= failedQueries stats)%Z
  /\ (exists e, firstBest true (queryHistory s) e /\ slowestQuery stats = abbreviated e)
  /\ (exists e, firstBest false (queryHistory s) e /\ fastestQuery stats = abbreviated e)
  /\ (forall e,
        sum_executionTime (abbreviated e) = executionTime e
        /\ sum_timestamp (abbreviated e) = timestamp e
        /\ ((JsString.length (query e) <= 100)%nat ->
            sum_query (abbreviated e) = query e)
        /\ ((100 < JsString.length (query e))%nat ->
            sum_query (abbreviated e)
            = (JsString.substringTo 100 (query e) ++ "...")%string)
        /\ (JsString.isAscii (query e) = true ->
            sum_query (abbreviated e)
            = if (String.length (query e) <=? 100)%nat then query e
              else (String.substring 0 100 (query e) ++ "...")%string)).
Proof.
  intros Hne stats. subst stats. unfold getQueryStats.
  destruct (queryHistory s) as [|first rest] eqn:Hh; [contradiction|].
  cbn [totalQueries successfulQueries failedQueries slowestQuery fastestQuery].
  pose proof (JsArray.filter_length_le success (first :: rest)) as Hle.
  split; [reflexivity|]. split; [lia|]. split; [lia|]. split; [lia|].
  assert (Hshort : forall q, (JsString.length q <= 100)%nat -> abbreviate q = q).
  { intros q L. unfold abbreviate.
    rewrite (JsString.substringTo_whole 100 q L).
    destruct (Nat.ltb_spec 100 (JsString.length q)) as [G|_]; [lia|].
    apply JsString.append_empty. }
  assert (Hlong : forall q, (100 < JsString.length q)%nat ->
            abbreviate q = (JsString.substringTo 100 q ++ "...")%string).
  { intros q L. unfold abbreviate.
    destruct (Nat.ltb_spec 100 (JsString.length q)) as [_|G]; [reflexivity | lia]. }
  split; [|split; [|
    intros e; split; [reflexivity|]; split; [reflexivity|];
    split; [exact (Hshort (query e))|]; split; [exact (Hlong (query e))|];
    intros A; cbn [abbreviated sum_query];
    destruct (Nat.leb_spec (String.length (query e)) 100) as [L|L];
    [ apply Hshort; rewrite (JsString.length_ascii _ A); exact L
    | rewrite Hlong by (rewrite (JsString.length_ascii _ A); exact L);
      rewrite (JsString.substringTo_ascii 100 _ A); reflexivity ]]].
  - destruct (fold_best true rest [] [] first) as (e & Hfirst & Hfold);
      [constructor | constructor|].
    exists e. split; [exact Hfirst|].
    cbn [fold_left]. unfold beats in Hfold.
    change (sum_executionTime (summaryOf first) <? executionTime first)%Z
      with (executionTime first <? executionTime first)%Z.
    rewrite Z.ltb_irrefl, Hfold. reflexivity.
  - destruct (fold_best false rest [] [] first) as (e & Hfirst & Hfold);
      [constructor | constructor|].
    exists e. split; [exact Hfirst|].
    cbn [fold_left]. unfold beats in Hfold.
    change (executionTime first <? sum_executionTime (summaryOf first))%Z
      with (executionTime first <? executionTime first)%Z.
    rewrite Z.ltb_irrefl, Hfold. reflexivity.
Qed.

(** *** The history as callers see it *)

(** X13. [getQueryHistory] shows the most recent call first: after a
    call of [executeQuery], its entry is put in front of what was shown
    before, and a limit of 1 shows that entry alone.  A positive limit
    shows that many entries, or all when there are fewer; a limit of 0
    shows all. *)
Theorem getQueryHistory_most_recent_first (q : string) (o : option Types.QueryOptions)
    (s : QueryService Env) :
  (exists entry,
     query entry = q
     /\ getQueryHistory None (snd (executeQuery q o s)) = entry :: getQueryHistory None s
     /\ getQueryHistory (Some 1%Z) (snd (executeQuery q o s)) = [entry])
  /\ (forall n, (0 < n)%Z ->
        length (getQueryHistory (Some n) s) = Nat.min (Z.to_nat n) (length (queryHistory s)))
  /\ getQueryHistory (Some 0%Z) s = getQueryHistory None s.
Proof.
  split; [|split].
  - rewrite executeQuery_unfold. unfold getQueryHistory. simpl.
    rewrite rev_app_distr. simpl. eexists. split; [|split; reflexivity].
    unfold entryFor. destruct (fst (currentExecuteQuery q o (dbManager s))); reflexivity.
  - intros n Hn. unfold getQueryHistory, slice0.
    destruct (Z.eqb_spec n 0); [lia|]. destruct (Z.ltb_spec n 0); [lia|].
    rewrite length_take, length_rev. reflexivity.
  - reflexivity.
Qed.

(** *** The connection test of the service *)

(** X14. [testConnection] of the service never throws.  It is one call
    of [executeQuery] for "SELECT 1 as test", recorded in the history like
    any other, and it answers true exactly when that call returns a
    result that reports success and whose first row has 1 under [test]. *)
Theorem service_testConnection_outcome (s : QueryService Env) :
  exists b,
    fst (testConnection s) = Returned b
    /\ snd (testConnection s) = snd (executeQuery "SELECT 1 as test" None s)
    /\ length (queryHistory (snd (testConnection s))) = S (length (queryHistory s))
    /\ (b = true <->
        exists result,
          fst (currentExecuteQuery "SELECT 1 as test" None (dbManager s)) = Returned result
          /\ Types.success result = true
          /\ AdapterLife.firstTest result = Types.SqlNumber 1).
Proof.
  assert (E : testConnection s =
              (match fst (executeQuery "SELECT 1 as test" None s) with
               | Returned result =>
                   Returned (Types.success result
                             && bool_decide (AdapterLife.firstTest result = Types.SqlNumber 1))
               | Thrown _ => Returned false
               end,
               snd (executeQuery "SELECT 1 as test" None s))).
  { unfold testConnection, tryCatch, bind, ret.
    destruct (executeQuery "SELECT 1 as test" None s) as [[r|e] s1]; reflexivity. }
  rewrite E. cbn [fst snd]. rewrite executeQuery_history_length.
  rewrite executeQuery_unfold. cbn [fst].
  destruct (fst (currentExecuteQuery "SELECT 1 as test" None (dbManager s))) as [r|e].
  - eexists. split; [reflexivity|]. split; [reflexivity|]. split; [reflexivity|].
    split.
    + intros Hb. apply andb_true_iff in Hb. destruct Hb as [Hs Ht].
      exists r. split; [reflexivity|]. split; [exact Hs|].
      apply bool_decide_eq_true in Ht. exact Ht.
    + intros (r' & [= <-] & Hs & Ht). rewrite Hs. simpl.
      apply bool_decide_eq_true. exact Ht.
  - exists false. split; [reflexivity|]. split; [reflexivity|]. split; [reflexivity|].
    split; [discriminate|]. intros (r & Hr & _). discriminate.
Qed.

End Service.

End QueryOps.

(** ** The schema service: what the cache holds after a lookup *)

Module SchemaOps.
Import SchemaService.

Section Service.
Context {Env : Type} `{Backend Env}.

(** The key under which [getTableInfo] caches a table. *)
Definition tableKey (tableName : string) : string := ("table_" ++ tableName)%string.

Lemma isCacheValid_cases (key : string) (s : SchemaService Env) :
  (isCacheValid key s = (Returned true, s)
   /\ exists cached, schemaCache s !! key = Some cached
        /\ (dateNow (dbManager s) - timestamp cached <= cacheExpiration)%Z)
  \/ (isCacheValid key s =
        (Returned false, mkService (dbManager s) (delete key (schemaCache s)))).
Proof.
  unfold isCacheValid. destruct (schemaCache s !! key) as [cached|] eqn:C.
  - destruct (Z.ltb_spec cacheExpiration (dateNow (dbManager s) - timestamp cached)).
    + right. reflexivity.
    + left. split; [reflexivity|]. exists cached. split; [reflexivity | lia].
  - right. rewrite delete_id by exact C. destruct s; reflexivity.
Qed.

Lemma getTableInfo_cases (tableName : string) (s : SchemaService Env) :
  (exists cached,
      schemaCache s !! tableKey tableName = Some cached
      /\ (dateNow (dbManager s) - timestamp cached <= cacheExpiration)%Z
      /\ getTableInfo tableName s = (Returned (data cached), s))
  \/ getTableInfo tableName s =
     fetched tableName
       (mkService (dbManager s) (delete (tableKey tableName) (schemaCache s))).
Proof.
  destruct (isCacheValid_cases (tableKey tableName) s) as [[Hv (cached & Hc & Hage)]|Hv].
  - left. exists cached. split; [exact Hc|]. split; [exact Hage|].
    unfold getTableInfo, bind. fold (tableKey tableName). rewrite Hv.
    unfold cachedData. rewrite Hc. reflexivity.
  - right. apply getTableInfo_miss. exact Hv.
Qed.

(** X15. A lookup that returns a table leaves the cache able to answer
    the same lookup: repeated at once, it returns the same table without
    calling the adapter or changing anything.  A lookup that throws
    leaves no entry for the table, so the next one asks the adapter
    again. *)
Theorem getTableInfo_repeatable (tableName : string) (s : SchemaService Env) :
  match getTableInfo tableName s with
  | (Returned info, s1) => getTableInfo tableName s1 = (Returned info, s1)
  | (Thrown _, s1) =>
      schemaCache s1 !! tableKey tableName = None
      /\ getTableInfo tableName s1 = fetched tableName s1
  end.
Proof.
  destruct (getTableInfo_cases tableName s) as [(cached & Hc & Hage & ->)| ->].
  - unfold getTableInfo, bind. fold (tableKey tableName).
    rewrite (isCacheValid_fresh _ _ _ Hc Hage).
    unfold cachedData. rewrite Hc. reflexivity.
  - unfold fetched. cbn [dbManager schemaCache].
    destruct (currentGetTableInfo tableName (dbManager s)) as [[info|e] env'].
    + unfold getTableInfo, bind. fold (tableKey tableName).
      rewrite (isCacheValid_fresh _ _ (mkCacheEntry info (dateNow env'))).
      * unfold cachedData. cbn [schemaCache]. rewrite lookup_insert_eq. reflexivity.
      * apply lookup_insert_eq.
      * cbn [dbManager timestamp]. unfold cacheExpiration. lia.
    + cbn [schemaCache]. split; [apply lookup_delete_eq|].
      apply getTableInfo_miss. unfold isCacheValid. cbn [schemaCache].
      rewrite lookup_delete_eq. reflexivity.
Qed.

(** X16. After [clearCache] nothing is served from the cache: every
    lookup asks the adapter, whatever was cached before and however
    fresh. *)
Theorem clearCache_forgets (tableName : string) (s : SchemaService Env) :
  fst (clearCache s) = Returned tt
  /\ schemaCache (snd (clearCache s)) = ∅
  /\ dbManager (snd (clearCache s)) = dbManager s
  /\ fst (isCacheValid (tableKey tableName) (snd (clearCache s))) = Returned false
  /\ getTableInfo tableName (snd (clearCache s)) = fetched tableName (snd (clearCache s)).
Proof.
  split; [reflexivity|]. split; [reflexivity|]. split; [reflexivity|].
  assert (E : isCacheValid (tableKey tableName) (snd (clearCache s)) =
              (Returned false, snd (clearCache s))).
  { unfold isCacheValid, clearCache, modify. cbn [snd schemaCache].
    rewrite lookup_empty. reflexivity. }
  split; [rewrite E; reflexivity | apply getTableInfo_miss, E].
Qed.

Lemma tableKey_inj (a b : string) : tableKey a = tableKey b -> a = b.
Proof. unfold tableKey. intros E. cbv [String.append] in E. congruence. Qed.

(** X17. A lookup for one table never touches what is cached for
    another: the other table's entry, its data and its age are the same
    after the lookup, whether the lookup was served, fetched or threw. *)
Theorem getTableInfo_keeps_other_tables (tableName other : string)
    (s : SchemaService Env) :
  other <> tableName ->
  schemaCache (snd (getTableInfo tableName s)) !! tableKey other =
  schemaCache s !! tableKey other.
Proof.
  intros Hne.
  assert (Hk : tableKey tableName <> tableKey other)
    by (intros E; apply tableKey_inj in E; congruence).
  destruct (getTableInfo_cases tableName s) as [(cached & Hc & Hage & ->)| ->];
    [reflexivity|].
  unfold fetched. cbn [dbManager schemaCache].
  destruct (currentGetTableInfo tableName (dbManager s)) as [[info|e] env'];
    cbn [snd schemaCache].
  - rewrite lookup_insert_ne by exact Hk. apply lookup_delete_ne, Hk.
  - apply lookup_delete_ne, Hk.
Qed.

End Service.

End SchemaOps.

(** ** The services and the manager together *)

Module GatewayOps.
Import Types Adapter ConnectionManager Gateway.

Section World.
Context {Pool : Type} `{Driver Pool}.

(** [this.getConnection(id).method(...)]: as [onCurrentConnection], on
    the adapter registered under [id]. *)
Definition onConnection {A : Type} (id : string) (f : Eff (@Running Pool) A)
    : Eff (World Pool) A := fun w =>
  match getConnection id (manager w) with
  | (Thrown e, _) => (Thrown e, w)
  | (Returned connection, _) =>
      let '(out, (t, connection')) := f (clock w, connection) in
      (out,
       mkWorld
         (mkManager (mapSet id connection' (connections (manager w)))
            (currentConnection (manager w)))
         t)
  end.

(** [testConnection(connectionId?)] of the manager. *)
Definition testConnection (connectionId : option string) : Eff (World Pool) bool :=
  tryCatch
    (if truthyId connectionId
     then onConnection (default ""%string connectionId) AdapterLife.testConnection
     else onCurrentConnection AdapterLife.testConnection)
    (fun error => ret false).

(** The manager has no current connection: the pointer is unset (or the
    empty string). *)
Definition noCurrent (w : World Pool) : Prop :=
  truthyId (currentConnection (manager w)) = false.

Definition noConnectionText : string := "No active database connection.".

Lemma onCurrentConnection_noCurrent {A : Type} (f : Eff (@Running Pool) A) (w : World Pool) :
  noCurrent w -> onCurrentConnection f w = (Thrown (JsError noConnectionText), w).
Proof.
  intros Hn. unfold onCurrentConnection, getCurrentConnection.
  unfold noCurrent in Hn. rewrite Hn. reflexivity.
Qed.

Lemma onTarget_registry {A : Type} (id : string) (a : BaseDatabaseAdapter Pool)
    (f : Eff (@Running Pool) A) (w : World Pool) :
  mapGet id (connections (manager w)) = Some a ->
  let r := f (clock w, a) in
  let w' := mkWorld (mkManager (mapSet id (snd (snd r)) (connections (manager w)))
                       (currentConnection (manager w))) (fst (snd r)) in
  currentConnection (manager w') = currentConnection (manager w)
  /\ mapKeys (connections (manager w')) = mapKeys (connections (manager w)).
Proof.
  intros G r w'. split; [reflexivity|]. subst w'. cbn [manager connections].
  apply ManagerOps.mapKeys_mapSet. unfold mapHas. rewrite G. reflexivity.
Qed.

(** X18. [testConnection] of the manager never throws, and changes
    neither the current pointer nor the identifiers registered.  It tests
    the connection named, or the current one when none is named, and
    answers true only if that connection is registered and its adapter's
    own test, run at that moment, answers true. *)
Theorem manager_testConnection_outcome (connectionId : option string) (w : World Pool) :
  exists b,
    fst (testConnection connectionId w) = Returned b
    /\ currentConnection (manager (snd (testConnection connectionId w))) =
       currentConnection (manager w)
    /\ mapKeys (connections (manager (snd (testConnection connectionId w)))) =
       mapKeys (connections (manager w))
    /\ (b = true ->
        exists target a,
          orCurrent connectionId (manager w) = Some target
          /\ mapGet target (connections (manager w)) = Some a
          /\ fst (AdapterLife.testConnection (clock w, a)) = Returned true).
Proof.
  unfold testConnection, tryCatch, orCurrent.
  destruct (truthyId connectionId) eqn:Tid.
  - destruct connectionId as [id|]; [|discriminate].
    change (default ""%string (Some id)) with id.
    unfold onConnection, getConnection.
    destruct (mapGet id (connections (manager w))) as [a|] eqn:G.
    + pose proof (onTarget_registry id a AdapterLife.testConnection w G) as [K1 K2].
      destruct (AdapterLife.testConnection_returns (clock w, a)) as (b & Hb).
      destruct (AdapterLife.testConnection (clock w, a)) as [out [t a']] eqn:E.
      cbn [fst snd] in *. subst out. cbn [fst snd].
      exists b. split; [reflexivity|]. split; [exact K1|]. split; [exact K2|].
      intros ->. exists id, a. rewrite E. auto.
    + exists false. cbn. split; [reflexivity|]. split; [reflexivity|].
      split; [reflexivity | discriminate].
  - unfold onCurrentConnection, getCurrentConnection.
    destruct (truthyId (currentConnection (manager w))) eqn:Tc; cbn [negb].
    2: { exists false. cbn. split; [reflexivity|]. split; [reflexivity|].
         split; [reflexivity | discriminate]. }
    destruct (currentConnection (manager w)) as [cur|] eqn:Ec; [|discriminate].
    change (default ""%string (Some cur)) with cur.
    destruct (mapGet cur (connections (manager w))) as [a|] eqn:G.
    + pose proof (onTarget_registry cur a AdapterLife.testConnection w G) as [K1 K2].
      rewrite Ec in K1.
      destruct (AdapterLife.testConnection_returns (clock w, a)) as (b & Hb).
      destruct (AdapterLife.testConnection (clock w, a)) as [out [t a']] eqn:E.
      cbn [fst snd] in *. subst out. cbn [fst snd].
      exists b. split; [reflexivity|]. split; [exact K1|]. split; [exact K2|].
      intros ->. exists cur, a. rewrite E. auto.
    + exists false. cbn. rewrite Ec. split; [reflexivity|]. split; [reflexivity|].
      split; [reflexivity | discriminate].
Qed.

(** X19. While the manager has no current connection, the query service
    fails with the manager's error, reaches no adapter and records the
    query as failed, with that text.  The schema service still returns a
    table that it cached no more than five minutes ago, changing nothing;
    for every other table it throws the manager's error, reaches no
    adapter and keeps no entry for the table. *)
Theorem services_without_connection (q : string) (o : option QueryOptions)
    (tableName : string) (w : World Pool) (history : list QueryService.HistoryEntry)
    (lines : list QueryService.LogLine)
    (cache : gmap string (@SchemaService.CacheEntry)) :
  noCurrent w ->
  (exists entry,
     QueryService.executeQuery q o (QueryService.mkService w history lines) =
       (Thrown (JsError noConnectionText),
        QueryService.mkService w (history ++ [entry])
          (lines ++ [QueryService.mkLog QueryService.LogInfo "Starting query execution";
                     QueryService.mkLog QueryService.LogError "Query execution failed"]))
     /\ QueryService.query entry = q
     /\ QueryService.success entry = false
     /\ QueryService.error entry = Some noConnectionText)
  /\ (forall cached,
        cache !! SchemaOps.tableKey tableName = Some cached ->
        (clock w - SchemaService.timestamp cached <= 5 * 60 * 1000)%Z ->
        SchemaService.getTableInfo tableName (SchemaService.mkService w cache) =
          (Returned (SchemaService.data cached), SchemaService.mkService w cache))
  /\ ((forall cached,
         cache !! SchemaOps.tableKey tableName = Some cached ->
         (5 * 60 * 1000 < clock w - SchemaService.timestamp cached)%Z) ->
      SchemaService.getTableInfo tableName (SchemaService.mkService w cache) =
        (Thrown (JsError noConnectionText),
         SchemaService.mkService w (delete (SchemaOps.tableKey tableName) cache))
      /\ delete (SchemaOps.tableKey tableName) cache !! SchemaOps.tableKey tableName = None).
Proof.
  intros Hn. split.
  - rewrite QueryService.executeQuery_unfold. cbn [QueryService.dbManager
      QueryService.queryHistory QueryService.logger QueryService.currentExecuteQuery
      queryBackend QueryService.dateNow].
    rewrite (onCurrentConnection_noCurrent _ w Hn). cbn [fst snd].
    unfold QueryService.entryFor, QueryService.linesFor. cbn.
    eexists. split; [reflexivity|]. repeat split.
  - split.
    + intros cached Hc Hage.
      pose proof (SchemaService.isCacheValid_fresh (SchemaOps.tableKey tableName)
                    (SchemaService.mkService w cache) cached Hc Hage) as Hv.
      unfold SchemaService.getTableInfo, bind. fold (SchemaOps.tableKey tableName).
      rewrite Hv.
      unfold SchemaService.cachedData. cbn [SchemaService.schemaCache].
      rewrite Hc. reflexivity.
    + intros Hold. split; [|apply lookup_delete_eq].
      destruct (SchemaOps.getTableInfo_cases tableName (SchemaService.mkService w cache))
        as [(cached & Hc & Hage & _)|Hrun].
      * cbn [SchemaService.schemaCache SchemaService.dbManager SchemaService.dateNow
             schemaBackend] in Hc, Hage.
        specialize (Hold cached Hc). unfold SchemaService.cacheExpiration in Hage. lia.
      * rewrite Hrun. unfold SchemaService.fetched. cbn [SchemaService.dbManager
          SchemaService.schemaCache SchemaService.currentGetTableInfo schemaBackend].
        rewrite (onCurrentConnection_noCurrent _ w Hn). reflexivity.
Qed.

End World.

End GatewayOps.

(** ** The alert over its life *)

Module AlertHistory.
Import Alert.

Definition isCritical (a : PerformanceAlert) : bool :=
  match _severity a with critical => true | _ => false end.

(** The two methods that change an alert, each with the instant it reads
    off the clock. *)
Inductive AlertCall : Type :=
| Acknowledge (now : Z)
| Resolve (now : Z).

(** The alert after a call; an [acknowledge] that throws has changed
    nothing. *)
Definition after (a : PerformanceAlert) (c : AlertCall) : PerformanceAlert :=
  match c with
  | Acknowledge now =>
      match acknowledge now a with
      | Returned a' => a'
      | Thrown _ => a
      end
  | Resolve now => resolve now a
  end.

Definition afterAll (calls : list AlertCall) (a : PerformanceAlert) : PerformanceAlert :=
  fold_left after calls a.

(** The timestamps agree with the status. *)
Definition consistent (a : PerformanceAlert) : Prop :=
  match _status a with
  | active => _acknowledgedAt a = None /\ _resolvedAt a = None
  | acknowledged => _acknowledgedAt a <> None /\ _resolvedAt a = None
  | resolved => _resolvedAt a <> None
  end.

(** What the constructor fixed. *)
Definition sameIdentity (a b : PerformanceAlert) : Prop :=
  _id a = _id b /\ _type a = _type b /\ _severity a = _severity b
  /\ _message a = _message b /\ _details a = _details b /\ _createdAt a = _createdAt b.

(** The instant of the last [resolve] among the calls, if any. *)
Definition lastResolve (calls : list AlertCall) : option Z :=
  fold_left (fun r c => match c with Resolve now => Some now | Acknowledge _ => r end)
    calls None.

Lemma after_consistent (a : PerformanceAlert) (c : AlertCall) :
  consistent a -> consistent (after a c).
Proof.
  unfold consistent. destruct c as [now|now]; simpl; [|discriminate].
  unfold acknowledge. destruct (_status a) eqn:E; simpl; rewrite ?E; auto.
  - intros [_ Hr]. split; [discriminate | exact Hr].
  - intros [_ Hr]. split; [discriminate | exact Hr].
Qed.

Lemma after_sameIdentity (a : PerformanceAlert) (c : AlertCall) :
  sameIdentity (after a c) a.
Proof.
  unfold sameIdentity. destruct c as [now|now]; simpl; [|repeat split].
  unfold acknowledge. destruct (AlertStatus_eqb (_status a) resolved); repeat split.
Qed.

Lemma afterAll_invariant (calls : list AlertCall) (a : PerformanceAlert) :
  consistent a -> consistent (afterAll calls a) /\ sameIdentity (afterAll calls a) a.
Proof.
  unfold afterAll. revert a. induction calls as [|c rest IH]; intros a Ha; simpl.
  - split; [exact Ha | repeat split].
  - destruct (IH (after a c) (after_consistent a c Ha)) as [Hc Hs].
    split; [exact Hc|].
    pose proof (after_sameIdentity a c) as Hs'. unfold sameIdentity in *.
    intuition congruence.
Qed.

Lemma after_resolved (a : PerformanceAlert) (c : AlertCall) :
  _status a = resolved ->
  _status (after a c) = resolved
  /\ _resolvedAt (after a c) =
     match c with Resolve now => Some now | Acknowledge _ => _resolvedAt a end.
Proof.
  intros Hr. destruct c as [now|now]; simpl; [|auto].
  unfold acknowledge. rewrite Hr. simpl. auto.
Qed.

Lemma afterAll_resolved (calls : list AlertCall) (a : PerformanceAlert) :
  _status a = resolved ->
  _status (afterAll calls a) = resolved
  /\ _resolvedAt (afterAll calls a) =
     fold_left (fun r c => match c with Resolve now => Some now | Acknowledge _ => r end)
       calls (_resolvedAt a).
Proof.
  unfold afterAll. revert a. induction calls as [|c rest IH]; intros a Hr; simpl; [auto|].
  destruct (after_resolved a c Hr) as [Hs Ht].
  destruct (IH (after a c) Hs) as [Hs' Ht']. split; [exact Hs'|].
  rewrite Ht', Ht. destruct c; reflexivity.
Qed.

(** X20. Whatever calls of [acknowledge] and [resolve] an alert has
    seen since it was constructed, also calls that threw: what the
    constructor fixed is unchanged; exactly one of [isActive],
    [isAcknowledged], [isResolved] holds; an active alert has neither
    timestamp, an acknowledged one has the acknowledgement time and no
    resolution time, and a resolved one has the resolution time. *)
Theorem alert_timestamps_follow_status (id : string) (ty : AlertType)
    (sev : AlertSeverity) (msg : string) (details : list (string * string))
    (createdAt : Z) (calls : list AlertCall) :
  let a := afterAll calls (newAlert id ty sev msg details createdAt) in
  sameIdentity a (newAlert id ty sev msg details createdAt)
  /\ (Nat.b2n (isActive a) + Nat.b2n (isAcknowledged a) + Nat.b2n (isResolved a) = 1)%nat
  /\ (isActive a = true -> _acknowledgedAt a = None /\ _resolvedAt a = None)
  /\ (isAcknowledged a = true -> _acknowledgedAt a <> None /\ _resolvedAt a = None)
  /\ (isResolved a = true <-> _resolvedAt a <> None).
Proof.
  intros a.
  destruct (afterAll_invariant calls (newAlert id ty sev msg details createdAt))
    as [Hc Hs]; [split; reflexivity|].
  fold a in Hc, Hs. split; [exact Hs|].
  unfold consistent, isActive, isAcknowledged, isResolved in *.
  destruct (_status a); simpl; (split; [reflexivity|]).
  - destruct Hc as [Hk Hr]. split; [auto|]. split; [discriminate|].
    split; [discriminate | congruence].
  - destruct Hc as [Hk Hr]. split; [discriminate|]. split; [auto|].
    split; [discriminate | congruence].
  - split; [discriminate|]. split; [discriminate|]. split; auto.
Qed.

(** X21. [resolve] is final.  After it, whatever further calls are
    made, the alert stays resolved: [acknowledge] throws, the alert never
    asks for escalation, and [getDuration] no longer depends on the clock:
    it is the time from creation to the last [resolve]. *)
Theorem resolve_is_final (a0 : PerformanceAlert) (resolvedAt : Z)
    (later : list AlertCall) :
  let a := afterAll later (resolve resolvedAt a0) in
  isResolved a = true
  /\ isActive a = false
  /\ (forall now, acknowledge now a = Thrown (JsError "Cannot acknowledge a resolved alert"))
  /\ (forall now thresholdMinutes, shouldEscalate now thresholdMinutes a = false)
  /\ (forall now,
        getDuration now a =
        (default resolvedAt (lastResolve later) - _createdAt a0)%Z).
Proof.
  intros a.
  destruct (afterAll_resolved later (resolve resolvedAt a0) eq_refl) as [Hs Ht].
  fold a in Hs, Ht.
  assert (Hid : _createdAt a = _createdAt a0).
  { assert (K : forall calls b, _createdAt (afterAll calls b) = _createdAt b).
    { unfold afterAll. induction calls as [|c rest IH]; intros b; simpl; [reflexivity|].
      rewrite IH. apply (after_sameIdentity b c). }
    unfold a. rewrite K. reflexivity. }
  assert (Hlast : _resolvedAt a = Some (default resolvedAt (lastResolve later))).
  { rewrite Ht. simpl. unfold lastResolve.
    assert (K : forall calls (r0 : option Z) (t : Z),
              fold_left (fun r c => match c with Resolve now => Some now | Acknowledge _ => r end)
                calls (Some (default t r0)) =
              Some (default t
                      (fold_left (fun r c => match c with
                                             | Resolve now => Some now
                                             | Acknowledge _ => r
                                             end) calls r0))).
    { induction calls as [|c rest IH]; intros r0 t; simpl; [reflexivity|].
      destruct c as [now|now]; [apply IH|]. apply (IH (Some now) t). }
    apply (K later None resolvedAt). }
  unfold isResolved, isActive, acknowledge, shouldEscalate, getDuration.
  rewrite Hs, Hlast, Hid. simpl. repeat split.
Qed.

End AlertHistory.

(** ** MetricsCollector (services/performance/metrics-collector.ts) *)

Module Metrics.
Import Types Adapter ConnectionManager JsArray.

Section Collector.
Context {Pool : Type} `{Driver Pool}.

Record MetricsCollector : Type := mkCollector {
  dbManager : DatabaseConnectionManager Pool;
  queryExecutionTimes : list Z
}.

(** [new MetricsCollector(dbManager, logger)] *)
Definition newCollector (m : DatabaseConnectionManager Pool) : MetricsCollector :=
  mkCollector m [].

Definition recordQueryTime (executionTime : Z) (c : MetricsCollector) : MetricsCollector :=
  mkCollector (dbManager c) (pushCapped 1000 executionTime (queryExecutionTimes c)).

Definition clearMetrics (c : MetricsCollector) : MetricsCollector :=
  mkCollector (dbManager c) [].

Definition getConnectionCount (c : MetricsCollector) : nat :=
  ManagerOps.total (ManagerOps.getConnectionStats (dbManager c)).

Definition getActiveQueryCount (c : MetricsCollector) : nat :=
  ManagerOps.active (ManagerOps.getConnectionStats (dbManager c)).

(** [this.queryExecutionTimes.slice(-60).length] *)
Definition getQueryThroughput (c : MetricsCollector) : nat :=
  length (sliceFrom (-60) (queryExecutionTimes c)).

Definition recordAll (times : list Z) (c : MetricsCollector) : MetricsCollector :=
  fold_left (fun c executionTime => recordQueryTime executionTime c) times c.

Lemma recordAll_times (times : list Z) (c : MetricsCollector) :
  queryExecutionTimes (recordAll times c) =
  fold_left (fun l x => pushCapped 1000 x l) times (queryExecutionTimes c)
  /\ dbManager (recordAll times c) = dbManager c.
Proof.
  unfold recordAll. revert c. induction times as [|t rest IH]; intros c; simpl; [auto|].
  destruct (IH (recordQueryTime t c)) as [-> ->]. auto.
Qed.

(** X22. The collector keeps the execution times of the last 1000
    queries recorded since it was created or cleared, in the order
    recorded, and never more; the throughput it reports is the number of
    times it holds, up to 60; and it reports as many connections and
    active queries as the manager counts, the second never above the
    first. *)
Theorem recordQueryTime_window (times : list Z) (c : MetricsCollector) :
  let c' := recordAll times (clearMetrics c) in
  queryExecutionTimes c' = drop (length times - 1000) times
  /\ (length (queryExecutionTimes c') <= 1000)%nat
  /\ getQueryThroughput c' = Nat.min 60 (length times)
  /\ (getActiveQueryCount c' <= getConnectionCount c')%nat
  /\ getConnectionCount c' = length (connections (dbManager c)).
Proof.
  intros c'.
  destruct (recordAll_times times (clearMetrics c)) as [Ht Hm]. fold c' in Ht, Hm.
  assert (Hw : queryExecutionTimes c' = drop (length times - 1000) times).
  { rewrite Ht. simpl.
    pose proof (pushCapped_all 1000 times (@nil Z)) as K. simpl in K.
    rewrite <- (sliceFrom_last 1000 times) by lia. apply K. lia. }
  split; [exact Hw|].
  split; [rewrite Hw, length_drop; lia|].
  split.
  { unfold getQueryThroughput. change (-60)%Z with (- Z.of_nat 60)%Z.
    rewrite (length_sliceFrom_last 60 (queryExecutionTimes c')) by lia.
    rewrite Hw, length_drop. lia. }
  unfold getActiveQueryCount, getConnectionCount. rewrite Hm.
  split; [apply ManagerOps.active_le_total | reflexivity].
Qed.

End Collector.

Arguments MetricsCollector : clear implicits.

End Metrics.

(** ** Logger (core/logger.ts) *)

Module Logging.
Import JsArray.

Inductive LogLevel : Type := debug | info | warn | error.

#[global] Instance LogLevel_eq_dec : EqDecision LogLevel.
Proof. solve_decision. Defined.

(** The level as the string it is at run time. *)
Definition levelName (l : LogLevel) : string :=
  match l with
  | debug => "debug"
  | info => "info"
  | warn => "warn"
  | error => "error"
  end.

(** An element of [logHistory]; the timestamp and the metadata object
    are not kept. *)
Record LogEntry : Type := mkEntry {
  level : LogLevel;
  message : string
}.

(** [stderr] holds what was written to the standard error stream, one
    entry per line written. *)
Record Logger : Type := mkLogger {
  logLevel : LogLevel;
  enableConsoleOutput : bool;
  logHistory : list LogEntry;
  stderr : list LogEntry
}.

Definition maxHistorySize : Z := 1000.

(** [new Logger(logLevel, enableConsoleOutput)] *)
Definition newLogger (l : LogLevel) (console : bool) : Logger := mkLogger l console [] [].

Definition getLevelPriority (l : LogLevel) : Z :=
  match l with
  | debug => 0
  | info => 1
  | warn => 2
  | error => 3
  end.

Definition shouldLog (l : LogLevel) (lg : Logger) : bool :=
  (getLevelPriority (logLevel lg) <=? getLevelPriority l)%Z.

Definition saveLogEntry (l : LogLevel) (msg : string) (lg : Logger) : Logger :=
  mkLogger (logLevel lg) (enableConsoleOutput lg)
    (pushCapped maxHistorySize (mkEntry l msg) (logHistory lg)) (stderr lg).

Definition log (l : LogLevel) (msg : string) (lg : Logger) : Logger :=
  if negb (shouldLog l lg) then lg
  else
    let lg := saveLogEntry l msg lg in
    if enableConsoleOutput lg
    then mkLogger (logLevel lg) (enableConsoleOutput lg) (logHistory lg)
           (stderr lg ++ [mkEntry l msg])
    else lg.

Definition logQuery (query : string) (executionTime : Z) (success : bool) (lg : Logger)
    : Logger :=
  if success then log info "Query execution successful" lg
  else log error "Query execution failed" lg.

Definition logConnection (action : string) (success : bool) (lg : Logger) : Logger :=
  if success then log info ("Database " ++ action ++ " successful") lg
  else log error ("Database " ++ action ++ " failed") lg.

Inductive Severity : Type := severity_low | severity_medium | severity_high.

Definition logSecurityEvent (event : string) (severity : Severity) (lg : Logger) : Logger :=
  let l := match severity with
           | severity_high => error
           | severity_medium => warn
           | severity_low => info
           end in
  log l ("Security event: " ++ event) lg.

Definition levelChanged (l : LogLevel) : LogEntry :=
  mkEntry info ("Log level changed to " ++ levelName l ++ ".").

Definition setLogLevel (l : LogLevel) (lg : Logger) : Logger :=
  log info (message (levelChanged l))
    (mkLogger l (enableConsoleOutput lg) (logHistory lg) (stderr lg)).

Definition getLogHistory (l : option LogLevel) (limit : option Z) (lg : Logger)
    : list LogEntry :=
  let filtered :=
    match l with
    | Some l => List.filter (fun entry => bool_decide (level entry = l)) (logHistory lg)
    | None => logHistory lg
    end in
  match limit with
  | Some n => if (n =? 0)%Z then filtered else sliceFrom (- n) filtered
  | None => filtered
  end.

Definition clearHistory (lg : Logger) : Logger :=
  mkLogger (logLevel lg) (enableConsoleOutput lg) [] (stderr lg).

Record Statistics : Type := mkStatistics {
  debugCount : nat;
  infoCount : nat;
  warnCount : nat;
  errorCount : nat
}.

(** [stats[entry.level]++] *)
Definition countEntry (stats : Statistics) (entry : LogEntry) : Statistics :=
  match level entry with
  | debug => mkStatistics (S (debugCount stats)) (infoCount stats) (warnCount stats)
               (errorCount stats)
  | info => mkStatistics (debugCount stats) (S (infoCount stats)) (warnCount stats)
              (errorCount stats)
  | warn => mkStatistics (debugCount stats) (infoCount stats) (S (warnCount stats))
              (errorCount stats)
  | error => mkStatistics (debugCount stats) (infoCount stats) (warnCount stats)
               (S (errorCount stats))
  end.

Definition getStatistics (lg : Logger) : Statistics :=
  fold_left countEntry (logHistory lg) (mkStatistics 0 0 0 0).

Definition countOf (l : LogLevel) (stats : Statistics) : nat :=
  match l with
  | debug => debugCount stats
  | info => infoCount stats
  | warn => warnCount stats
  | error => errorCount stats
  end.

(** The methods a caller can invoke. *)
Inductive LoggerCall : Type :=
| Debug (msg : string)
| Info (msg : string)
| Warn (msg : string)
| Error (msg : string)
| LogQuery (query : string) (executionTime : Z) (success : bool)
| LogConnection (action : string) (success : bool)
| LogSecurityEvent (event : string) (severity : Severity)
| SetLogLevel (l : LogLevel)
| ClearHistory.

Definition invoke (lg : Logger) (c : LoggerCall) : Logger :=
  match c with
  | Debug msg => log debug msg lg
  | Info msg => log info msg lg
  | Warn msg => log warn msg lg
  | Error msg => log error msg lg
  | LogQuery q t ok => logQuery q t ok lg
  | LogConnection action ok => logConnection action ok lg
  | LogSecurityEvent event severity => logSecurityEvent event severity lg
  | SetLogLevel l => setLogLevel l lg
  | ClearHistory => clearHistory lg
  end.

(** What holds of a logger between calls: the history is within its
    bound, and the console, when enabled, has seen every entry the
    history holds, the history being the latest of what it has seen. *)
Definition bounded (console : bool) (lg : Logger) : Prop :=
  enableConsoleOutput lg = console
  /\ (length (logHistory lg) <= 1000)%nat
  /\ if console then exists earlier, stderr lg = earlier ++ logHistory lg
     else stderr lg = [].

Lemma pushCapped_1000 {A : Type} (x : A) (l : list A) :
  pushCapped maxHistorySize x l = drop (length (l ++ [x]) - 1000) (l ++ [x]).
Proof.
  change maxHistorySize with (Z.of_nat 1000).
  rewrite pushCapped_last, sliceFrom_last by lia. reflexivity.
Qed.

Lemma log_bounded (console : bool) (l : LogLevel) (msg : string) (lg : Logger) :
  bounded console lg -> bounded console (log l msg lg).
Proof.
  intros (Hc & Hlen & Hout). unfold log, saveLogEntry, bounded.
  destruct (shouldLog l lg); cbn [negb]; [|repeat split; assumption].
  cbn [enableConsoleOutput]. rewrite Hc.
  destruct console; cbn [enableConsoleOutput logHistory stderr]; rewrite pushCapped_1000.
  - split; [reflexivity|]. split; [rewrite length_drop, length_app; simpl; lia|].
    destruct Hout as [earlier ->].
    exists (earlier ++ take (length (logHistory lg ++ [mkEntry l msg]) - 1000)
                         (logHistory lg ++ [mkEntry l msg])).
    rewrite <- !app_assoc. f_equal. symmetry. apply take_drop.
  - split; [reflexivity|]. split; [rewrite length_drop, length_app; simpl; lia | exact Hout].
Qed.

Lemma invoke_bounded (console : bool) (c : LoggerCall) (lg : Logger) :
  bounded console lg -> bounded console (invoke lg c).
Proof.
  intros Hb. destruct c as [msg|msg|msg|msg|q t ok|action ok|event severity|l|]; simpl;
    try (apply log_bounded; exact Hb).
  - unfold logQuery. destruct ok; apply log_bounded; exact Hb.
  - unfold logConnection. destruct ok; apply log_bounded; exact Hb.
  - destruct Hb as (Hc & Hlen & Hout). split; [exact Hc|]. split; [simpl; lia|].
    simpl. destruct console; [|exact Hout].
    destruct Hout as [earlier ->]. exists (earlier ++ logHistory lg).
    rewrite app_nil_r. reflexivity.
Qed.

(** X23. Whatever is logged through a logger since it was created, its
    history never holds more than 1000 entries.  With console output
    enabled, every entry the history holds was also written to the
    standard error stream, the history being the latest of what was
    written; with console output disabled nothing is ever written. *)
Theorem logger_history_bounded (l : LogLevel) (console : bool) (calls : list LoggerCall) :
  let lg := fold_left invoke calls (newLogger l console) in
  (length (logHistory lg) <= 1000)%nat
  /\ enableConsoleOutput lg = console
  /\ (if console then exists earlier, stderr lg = earlier ++ logHistory lg
      else stderr lg = []).
Proof.
  intros lg.
  assert (Hb : bounded console lg).
  { subst lg.
    assert (K : forall lg0, bounded console lg0 ->
              bounded console (fold_left invoke calls lg0)).
    { induction calls as [|c rest IH]; intros lg0 H0; simpl; [exact H0|].
      apply IH, invoke_bounded, H0. }
    apply K. split; [reflexivity|]. split; [simpl; lia|].
    destruct console; [exists []; reflexivity | reflexivity]. }
  destruct Hb as (Hc & Hlen & Hout). auto.
Qed.

Lemma last_pushCapped_1000 {A : Type} (x : A) (l : list A) :
  last (pushCapped maxHistorySize x l) = Some x.
Proof.
  rewrite pushCapped_1000.
  rewrite drop_app_le by (rewrite length_app; simpl; lia).
  apply last_snoc.
Qed.

(** X24. A message below the logger's level leaves no trace: the logger
    is what it was.  A message at or above it becomes the last entry of
    the history.  [setLogLevel] sets the level first and announces the
    change at level "info" afterwards, so the announcement is recorded
    when the new level is "debug" or "info" and is lost when it is "warn"
    or "error". *)
Theorem log_respects_level (l : LogLevel) (msg : string) (lg : Logger) :
  (if shouldLog l lg
   then last (logHistory (log l msg lg)) = Some (mkEntry l msg)
        /\ logLevel (log l msg lg) = logLevel lg
   else log l msg lg = lg)
  /\ (shouldLog l lg = true <-> (getLevelPriority (logLevel lg) <= getLevelPriority l)%Z)
  /\ (forall new,
        logLevel (setLogLevel new lg) = new
        /\ if bool_decide (new = debug \/ new = info)
           then last (logHistory (setLogLevel new lg)) = Some (levelChanged new)
           else logHistory (setLogLevel new lg) = logHistory lg
                /\ stderr (setLogLevel new lg) = stderr lg).
Proof.
  split; [|split].
  - unfold log, saveLogEntry. destruct (shouldLog l lg); cbn [negb]; [|reflexivity].
    cbn [enableConsoleOutput].
    destruct (enableConsoleOutput lg); cbn [logHistory logLevel];
      (split; [apply last_pushCapped_1000 | reflexivity]).
  - unfold shouldLog. apply Z.leb_le.
  - intros new. unfold setLogLevel, log, saveLogEntry, shouldLog.
    cbn [logLevel enableConsoleOutput logHistory stderr message levelChanged].
    destruct new; cbn; destruct (enableConsoleOutput lg); cbn [logHistory logLevel stderr];
      repeat split; try apply last_pushCapped_1000.
Qed.

Lemma fold_countEntry (l : LogLevel) (history : list LogEntry) (stats : Statistics) :
  countOf l (fold_left countEntry history stats) =
  (countOf l stats
   + length (List.filter (fun entry => bool_decide (level entry = l)) history))%nat.
Proof.
  revert stats. induction history as [|e rest IH]; intros stats; simpl; [lia|].
  rewrite IH. unfold countEntry.
  destruct (level e), l; simpl; lia.
Qed.

Lemma length_by_level (history : list LogEntry) :
  (length (List.filter (fun entry => bool_decide (level entry = debug)) history)
   + length (List.filter (fun entry => bool_decide (level entry = info)) history)
   + length (List.filter (fun entry => bool_decide (level entry = warn)) history)
   + length (List.filter (fun entry => bool_decide (level entry = error)) history)
   = length history)%nat.
Proof.
  induction history as [|e rest IH]; simpl; [reflexivity|].
  destruct (level e); simpl; lia.
Qed.

(** X25. The statistics count every entry of the history once, under
    its level: the four counts add up to the length of the history, and
    the count of a level is the number of entries that [getLogHistory]
    returns for that level.  With a level given, [getLogHistory] returns
    entries of that level only; with a positive limit, no more than the
    limit. *)
Theorem getStatistics_counts_history (lg : Logger) :
  let stats := getStatistics lg in
  (debugCount stats + infoCount stats + warnCount stats + errorCount stats
   = length (logHistory lg))%nat
  /\ (forall l, countOf l stats = length (getLogHistory (Some l) None lg))
  /\ (forall l limit, Forall (fun entry => level entry = l) (getLogHistory (Some l) limit lg))
  /\ (forall l limit, (0 < limit)%Z ->
        (Z.of_nat (length (getLogHistory l (Some limit) lg)) <= limit)%Z).
Proof.
  intros stats. subst stats. unfold getStatistics.
  assert (Hc : forall l,
            countOf l (fold_left countEntry (logHistory lg) (mkStatistics 0 0 0 0)) =
            length (List.filter (fun entry => bool_decide (level entry = l)) (logHistory lg))).
  { intros l. rewrite fold_countEntry. destruct l; reflexivity. }
  split.
  { rewrite <- (length_by_level (logHistory lg)).
    rewrite <- (Hc debug), <- (Hc info), <- (Hc warn), <- (Hc error). reflexivity. }
  split; [exact Hc|].
  split.
  - intros l limit. unfold getLogHistory.
    assert (Hf : Forall (fun entry => level entry = l)
                   (List.filter (fun entry => bool_decide (level entry = l)) (logHistory lg))).
    { apply Forall_forall. intros e He. apply list_elem_of_In, List.filter_In in He.
      destruct He as [_ He]. apply bool_decide_eq_true in He. exact He. }
    destruct limit as [n|]; [|exact Hf].
    destruct (n =? 0)%Z; [exact Hf|].
    unfold sliceFrom. destruct (- n <? 0)%Z; apply Forall_drop, Hf.
  - intros l limit Hpos. unfold getLogHistory.
    destruct (Z.eqb_spec limit 0); [lia|].
    replace limit with (Z.of_nat (Z.to_nat limit)) at 1 by lia.
    rewrite length_sliceFrom_last by lia. lia.
Qed.

End Logging.

(** ** QueryExecutorImpl (infrastructure/database) *)

Module QueryExecutor.

(** The result type of the domain layer (domain/query/entities/Query.ts). *)
Record DomainQueryResult : Type := mkDomainResult {
  rows : list Types.Row;
  rowCount : Z;
  executionTime : Z;
  columns : option (list string);
  error : option string
}.

(** The event published when a batch is done. *)
Record BatchCompleted : Type := mkBatchCompleted {
  totalQueries : nat;
  successfulQueries : nat;
  failedQueries : nat;
  timestamp : Z
}.

Section Executor.
Context {Env : Type} `{QueryService.Backend Env}.

(** [logger] holds the calls of the logger, as level and message;
    [published] holds what was handed to the event bus, whose subscribers
    run outside the executor. *)
Record QueryExecutorImpl : Type := mkExecutor {
  dbManager : Env;
  logger : list Logging.LogEntry;
  published : list BatchCompleted
}.

Definition logLine (l : Logging.LogLevel) (msg : string) : Eff QueryExecutorImpl unit :=
  modify (fun s =>
    mkExecutor (dbManager s) (logger s ++ [Logging.mkEntry l msg]) (published s)).

Definition publish (event : BatchCompleted) : Eff QueryExecutorImpl unit :=
  modify (fun s => mkExecutor (dbManager s) (logger s) (published s ++ [event])).

(** [this.dbManager.getCurrentConnection().executeQuery(sql, options)] *)
Definition onManager (sql : string) (options : option Types.QueryOptions)
    : Eff QueryExecutorImpl Types.QueryResult := fun s =>
  let '(out, env') := QueryService.currentExecuteQuery sql options (dbManager s) in
  (out, mkExecutor env' (logger s) (published s)).

(** [{ parameters }] and [{}] *)
Definition parametersOnly (parameters : list Types.SqlValue) : option Types.QueryOptions :=
  Some (Types.mkOptions None (Some parameters)).

Definition noOptions : option Types.QueryOptions := Some (Types.mkOptions None None).

(** The object that [execute] returns for a result that reports
    success. *)
Definition toDomain (result : Types.QueryResult) : DomainQueryResult :=
  {| rows := default [] (Types.recordset result);
     rowCount :=
       match Types.recordset result with
       | Some recordset => Z.of_nat (length recordset)
       | None => 0%Z
       end;
     executionTime := Types.executionTime result;
     columns :=
       Some match Types.recordset result with
            | Some (row :: _) => map fst row
            | _ => []
            end;
     error := None |}.

(** [new Error(result.error || fallback)] *)
Definition reported (fallback : string) (result : Types.QueryResult) : Exn :=
  JsError (SchemaHandler.textOr fallback (Types.error result)).

Definition execute (sql : string) (parameters : list Types.SqlValue)
    : Eff QueryExecutorImpl DomainQueryResult :=
  (logLine Logging.debug "Executing query" ;;;
   tryCatch
     (result <- onManager sql (parametersOnly parameters) ;;
      if negb (Types.success result)
      then throw (reported "Query execution failed" result)
      else ret (toDomain result))
     (fun error =>
        logLine Logging.error "Query execution failed" ;;;
        throw error))%eff.

(** The object pushed for a query whose [execute] threw. *)
Definition failedResult (e : Exn) : DomainQueryResult :=
  {| rows := []; rowCount := 0; executionTime := 0; columns := None;
     error := Some (errorMessage e) |}.

(** [parameters && parameters[i] ? parameters[i] : []] *)
Definition parametersAt (parameters : option (list (list Types.SqlValue))) (i : nat)
    : list Types.SqlValue :=
  match parameters with
  | Some ps => default [] (ps !! i)
  | None => []
  end.

(** The [for] loop of [executeBatch], from index [i] on. *)
Fixpoint batchLoop (queries : list string) (i : nat)
    (parameters : option (list (list Types.SqlValue))) (results : list DomainQueryResult)
    : Eff QueryExecutorImpl (list DomainQueryResult) :=
  match queries with
  | [] => ret results
  | sql :: rest =>
      (result <-
         tryCatch (execute sql (parametersAt parameters i))
           (fun error =>
              logLine Logging.error ("Batch query " ++ pretty (i + 1)%nat ++ " failed") ;;;
              ret (failedResult error)) ;;
       batchLoop rest (S i) parameters (results ++ [result]))%eff
  end.

(** Truthiness of [r.error]. *)
Definition hasError (r : DomainQueryResult) : bool :=
  match error r with
  | Some text => negb (String.eqb text "")
  | None => false
  end.

Definition executeBatch (queries : list string)
    (parameters : option (list (list Types.SqlValue)))
    : Eff QueryExecutorImpl (list DomainQueryResult) :=
  (logLine Logging.debug "Executing batch queries" ;;;
   results <- batchLoop queries 0 parameters [] ;;
   now <- gets (fun s => QueryService.dateNow (dbManager s)) ;;
   publish {| totalQueries := length queries;
              successfulQueries := length (List.filter (fun r => negb (hasError r)) results);
              failedQueries := length (List.filter hasError results);
              timestamp := now |} ;;;
   ret results)%eff.

Definition beginTransaction : Eff QueryExecutorImpl string :=
  tryCatch
    (onManager "BEGIN TRANSACTION" noOptions ;;;
     now <- gets (fun s => QueryService.dateNow (dbManager s)) ;;
     ret ("transaction-" ++ pretty now)%string)%eff
    (fun error => throw (JsError ("Failed to begin transaction: " ++ errorMessage error))).

Definition commitTransaction (transactionId : string) : Eff QueryExecutorImpl unit :=
  tryCatch
    (onManager "COMMIT TRANSACTION" noOptions ;;; ret tt)%eff
    (fun error => throw (JsError ("Failed to commit transaction: " ++ errorMessage error))).

Definition rollbackTransaction (transactionId : string) : Eff QueryExecutorImpl unit :=
  tryCatch
    (onManager "ROLLBACK TRANSACTION" noOptions ;;; ret tt)%eff
    (fun error =>
       logLine Logging.error "Failed to rollback transaction" ;;;
       throw (JsError ("Failed to rollback transaction: " ++ errorMessage error)))%eff.

Definition executeInTransaction (sql : string) (parameters : list Types.SqlValue)
    : Eff QueryExecutorImpl DomainQueryResult :=
  tryCatch
    (beginTransaction ;;;
     result <- onManager sql (parametersOnly parameters) ;;
     if negb (Types.success result)
     then
       rollbackTransaction "" ;;;
       throw (reported "Query execution in transaction failed" result)
     else
       commitTransaction "" ;;;
       ret (toDomain result))%eff
    (fun error =>
       rollbackTransaction "" ;;;
       logLine Logging.error "Query execution in transaction failed" ;;;
       throw error)%eff.

(** *** What the adapter is asked, and what comes of it *)

(** What [execute] makes of the outcome of the adapter's call. *)
Definition executed (out : Outcome Types.QueryResult) : Outcome DomainQueryResult :=
  match out with
  | Thrown e => Thrown e
  | Returned result =>
      if Types.success result then Returned (toDomain result)
      else Thrown (reported "Query execution failed" result)
  end.

(** What [executeBatch] pushes for it. *)
Definition pushed (out : Outcome Types.QueryResult) : DomainQueryResult :=
  match executed out with
  | Returned r => r
  | Thrown e => failedResult e
  end.

(** The calls of a batch, from index [i] on. *)
Fixpoint batchCalls (queries : list string) (i : nat)
    (parameters : option (list (list Types.SqlValue))) : list QueryService.Call :=
  match queries with
  | [] => []
  | sql :: rest =>
      (sql, parametersOnly (parametersAt parameters i)) :: batchCalls rest (S i) parameters
  end.

Definition beginCall : QueryService.Call := ("BEGIN TRANSACTION"%string, noOptions).
Definition commitCall : QueryService.Call := ("COMMIT TRANSACTION"%string, noOptions).
Definition rollbackCall : QueryService.Call := ("ROLLBACK TRANSACTION"%string, noOptions).

(** The error that leaves the [catch] block: the one of the rollback
    when the rollback throws, the one caught otherwise. *)
Definition afterRollback (rollback : Outcome Types.QueryResult) (caught : Exn) : Exn :=
  match rollback with
  | Thrown e => JsError ("Failed to rollback transaction: " ++ errorMessage e)
  | Returned _ => caught
  end.

(** The five courses of [executeInTransaction] for the statement
    [statement]: the calls made, what each gave, and what the caller
    gets. *)
Inductive TransactionCourse (statement : QueryService.Call)
    : list QueryService.Call -> list (Outcome Types.QueryResult) ->
      Outcome DomainQueryResult -> Prop :=
| begin_throws e r :
    TransactionCourse statement [beginCall; rollbackCall] [Thrown e; r]
      (Thrown (afterRollback r
                 (JsError ("Failed to begin transaction: " ++ errorMessage e))))
| statement_throws b e r :
    TransactionCourse statement [beginCall; statement; rollbackCall]
      [Returned b; Thrown e; r]
      (Thrown (afterRollback r e))
| statement_fails b result r1 r2 :
    Types.success result = false ->
    TransactionCourse statement [beginCall; statement; rollbackCall; rollbackCall]
      [Returned b; Returned result; r1; r2]
      (Thrown (afterRollback r2
                 (afterRollback r1
                    (reported "Query execution in transaction failed" result))))
| commit_throws b result e r :
    Types.success result = true ->
    TransactionCourse statement [beginCall; statement; commitCall; rollbackCall]
      [Returned b; Returned result; Thrown e; r]
      (Thrown (afterRollback r
                 (JsError ("Failed to commit transaction: " ++ errorMessage e))))
| committed b result c :
    Types.success result = true ->
    TransactionCourse statement [beginCall; statement; commitCall]
      [Returned b; Returned result; Returned c]
      (Returned (toDomain result)).


(** *** [execute] *)

Definition executeLines (out : Outcome Types.QueryResult) : list Logging.LogEntry :=
  Logging.mkEntry Logging.debug "Executing query"
  :: if isThrown (executed out)
     then [Logging.mkEntry Logging.error "Query execution failed"]
     else [].

Lemma execute_unfold (sql : string) (parameters : list Types.SqlValue)
    (s : QueryExecutorImpl) :
  execute sql parameters s =
  (executed (fst (QueryService.currentExecuteQuery sql (parametersOnly parameters)
                    (dbManager s))),
   mkExecutor
     (snd (QueryService.currentExecuteQuery sql (parametersOnly parameters) (dbManager s)))
     (logger s ++
        executeLines (fst (QueryService.currentExecuteQuery sql (parametersOnly parameters)
                             (dbManager s))))
     (published s)).
Proof.
  unfold execute, executeLines, executed, bind, tryCatch, logLine, modify, onManager, ret,
    throw.
  cbn [dbManager logger published].
  destruct (QueryService.currentExecuteQuery sql (parametersOnly parameters) (dbManager s))
    as [[result|e] env']; cbn [fst snd].
  - destruct (Types.success result); cbn; rewrite <- ?app_assoc; reflexivity.
  - cbn. rewrite <- app_assoc. reflexivity.
Qed.

Lemma last_two {A : Type} (l : list A) (a b : A) : last (l ++ [a; b]) = Some b.
Proof.
  replace (l ++ [a; b]) with ((l ++ [a]) ++ [b]) by (rewrite <- app_assoc; reflexivity).
  apply last_snoc.
Qed.

(** X26. [execute] turns a failure that the adapter reports in its
    result into an exception: it returns only for a result that reports
    success, with the rows, their number and the names of the first row's
    columns, and without an error text.  For a result that reports a
    failure it throws an error with the result's error text, or "Query
    execution failed" when there is none; what the adapter or the manager
    throws is thrown on.  Every throw is logged as an error. *)
Theorem execute_raises_reported_failures (sql : string)
    (parameters : list Types.SqlValue) (s : QueryExecutorImpl) :
  let call := QueryService.currentExecuteQuery sql (parametersOnly parameters) (dbManager s) in
  dbManager (snd (execute sql parameters s)) = snd call
  /\ published (snd (execute sql parameters s)) = published s
  /\ match fst call with
     | Thrown e => fst (execute sql parameters s) = Thrown e
     | Returned result =>
         if Types.success result
         then fst (execute sql parameters s) = Returned (toDomain result)
         else fst (execute sql parameters s) =
              Thrown (JsError (SchemaHandler.textOr "Query execution failed"
                                 (Types.error result)))
     end
  /\ (forall r, fst (execute sql parameters s) = Returned r ->
        error r = None /\ rowCount r = Z.of_nat (length (rows r)))
  /\ (isThrown (fst (execute sql parameters s)) = true ->
      last (logger (snd (execute sql parameters s))) =
      Some (Logging.mkEntry Logging.error "Query execution failed")).
Proof.
  intros call. rewrite execute_unfold. fold call. cbn [fst snd dbManager published logger].
  split; [reflexivity|]. split; [reflexivity|].
  unfold executeLines.
  destruct (fst call) as [result|e]; cbn [executed].
  - destruct (Types.success result) eqn:Hs; cbn [isThrown].
    + split; [reflexivity|]. split; [|discriminate].
      intros r [= <-]. unfold toDomain. cbn.
      destruct (Types.recordset result); split; reflexivity.
    + split; [reflexivity|]. split; [discriminate|].
      intros _. apply last_two.
  - cbn. split; [reflexivity|]. split; [discriminate|].
    intros _. apply last_two.
Qed.


(** *** [executeBatch] *)

Lemma batchStep (sql : string) (i : nat) (parameters : list Types.SqlValue)
    (s : QueryExecutorImpl) :
  exists lines,
    tryCatch (execute sql parameters)
      (fun error =>
         logLine Logging.error ("Batch query " ++ pretty (i + 1)%nat ++ " failed") ;;;
         ret (failedResult error))%eff s =
    (Returned (pushed (fst (QueryService.currentExecuteQuery sql (parametersOnly parameters)
                              (dbManager s)))),
     mkExecutor
       (snd (QueryService.currentExecuteQuery sql (parametersOnly parameters) (dbManager s)))
       lines (published s)).
Proof.
  unfold tryCatch at 1. rewrite execute_unfold. unfold pushed.
  destruct (executed _) as [r|e]; [eexists; reflexivity|].
  unfold bind, logLine, modify, ret. cbn. eexists. reflexivity.
Qed.

Lemma executorLoop_run (queries : list string) (i : nat)
    (parameters : option (list (list Types.SqlValue))) (results : list DomainQueryResult)
    (s : QueryExecutorImpl) :
  exists outs,
    QueryService.backendRun (batchCalls queries i parameters) (dbManager s) =
      (outs, dbManager (snd (batchLoop queries i parameters results s)))
    /\ fst (batchLoop queries i parameters results s) = Returned (results ++ map pushed outs)
    /\ published (snd (batchLoop queries i parameters results s)) = published s.
Proof.
  revert i results s. induction queries as [|sql rest IH]; intros i results s.
  - exists []. cbn. rewrite app_nil_r. auto.
  - destruct (batchStep sql i (parametersAt parameters i) s) as [lines Hstep].
    assert (Hcons :
      batchLoop (sql :: rest) i parameters results s =
      batchLoop rest (S i) parameters
        (results ++ [pushed (fst (QueryService.currentExecuteQuery sql
                                    (parametersOnly (parametersAt parameters i))
                                    (dbManager s)))])
        (mkExecutor
           (snd (QueryService.currentExecuteQuery sql
                   (parametersOnly (parametersAt parameters i)) (dbManager s)))
           lines (published s))).
    { cbn [batchLoop]. unfold bind at 1. rewrite Hstep. reflexivity. }
    rewrite Hcons. cbn [batchCalls QueryService.backendRun fst snd].
    destruct (QueryService.currentExecuteQuery sql
                (parametersOnly (parametersAt parameters i)) (dbManager s))
      as [out env'] eqn:E. cbn [fst snd].
    destruct (IH (S i) (results ++ [pushed out]) (mkExecutor env' lines (published s)))
      as (outs & Hrun & Hout & Hpub).
    cbn [dbManager published] in Hrun, Hpub.
    exists (out :: outs). rewrite Hrun, Hout, Hpub, <- app_assoc. auto.
Qed.

Lemma length_backendRun (calls : list QueryService.Call) (env : Env) :
  length (fst (QueryService.backendRun calls env)) = length calls.
Proof.
  revert env. induction calls as [|c rest IH]; intros env; cbn; [reflexivity|].
  destruct (QueryService.currentExecuteQuery (fst c) (snd c) env) as [out env1].
  specialize (IH env1). destruct (QueryService.backendRun rest env1). cbn in *. lia.
Qed.

Lemma length_batchCalls (queries : list string) (i : nat)
    (parameters : option (list (list Types.SqlValue))) :
  length (batchCalls queries i parameters) = length queries.
Proof.
  revert i. induction queries as [|sql rest IH]; intros i; cbn; [reflexivity|].
  rewrite IH. reflexivity.
Qed.

Lemma filter_split_length {A : Type} (f : A -> bool) (l : list A) :
  (length (List.filter (fun x => negb (f x)) l) + length (List.filter f l) = length l)%nat.
Proof. induction l as [|x rest IH]; cbn; [reflexivity|]. destruct (f x); cbn; lia. Qed.

(** X27. [executeBatch] never throws and never stops early: it sends
    every query, in order, each with the parameters at its index (none
    when there are none there), and returns one result per query, in
    order: the rows of a query that succeeded, and an empty result with
    the error text for a query that threw or whose result reported a
    failure.  It then publishes one event, whose two counts add up to the
    number of queries. *)
Theorem executeBatch_never_throws (queries : list string)
    (parameters : option (list (list Types.SqlValue))) (s : QueryExecutorImpl) :
  exists outs event,
    QueryService.backendRun (batchCalls queries 0 parameters) (dbManager s) =
      (outs, dbManager (snd (executeBatch queries parameters s)))
    /\ length outs = length queries
    /\ fst (executeBatch queries parameters s) = Returned (map pushed outs)
    /\ published (snd (executeBatch queries parameters s)) = published s ++ [event]
    /\ totalQueries event = length queries
    /\ (successfulQueries event + failedQueries event = length queries)%nat.
Proof.
  set (s0 := mkExecutor (dbManager s)
               (logger s ++ [Logging.mkEntry Logging.debug "Executing batch queries"])
               (published s)).
  assert (E : executeBatch queries parameters s =
              match batchLoop queries 0 parameters [] s0 with
              | (Returned results, s1) =>
                  (Returned results,
                   mkExecutor (dbManager s1) (logger s1)
                     (published s1 ++
                        [{| totalQueries := length queries;
                            successfulQueries :=
                              length (List.filter (fun r => negb (hasError r)) results);
                            failedQueries := length (List.filter hasError results);
                            timestamp := QueryService.dateNow (dbManager s1) |}]))
              | (Thrown e, s1) => (Thrown e, s1)
              end).
  { unfold executeBatch, bind, logLine, modify, gets, publish, ret. fold s0.
    destruct (batchLoop queries 0 parameters [] s0) as [[results|e] s1]; reflexivity. }
  rewrite E. clear E.
  destruct (executorLoop_run queries 0 parameters [] s0) as (outs & Hrun & Hout & Hpub).
  assert (Hlen : length outs = length queries).
  { pose proof (length_backendRun (batchCalls queries 0 parameters) (dbManager s0)) as L.
    rewrite Hrun, length_batchCalls in L. exact L. }
  destruct (batchLoop queries 0 parameters [] s0) as [[results|e] s1];
    cbn [fst snd] in *; [|discriminate].
  injection Hout as ->. cbn [app].
  eexists outs, _. cbn [fst snd dbManager published].
  split; [exact Hrun|]. split; [exact Hlen|]. split; [reflexivity|].
  split; [rewrite Hpub; reflexivity|]. split; [reflexivity|].
  cbn [successfulQueries failedQueries].
  rewrite filter_split_length, length_map. exact Hlen.
Qed.

(** *** [executeInTransaction] *)

Ltac adapterCall :=
  match goal with
  | |- context [QueryService.currentExecuteQuery ?q ?o ?x] =>
      let E := fresh "E" in
      destruct (QueryService.currentExecuteQuery q o x) as [[?r|?e] ?env] eqn:E;
      cbn [fst snd dbManager logger published] in E |- *
  end.

(** X28. [executeInTransaction] sends BEGIN, the statement and COMMIT,
    and returns the statement's rows only if none of the three calls
    throws and the statement's result reports success (what BEGIN and
    COMMIT report in their results is not looked at).  In every other
    course the last call is a ROLLBACK; a statement whose result reports
    a failure is followed by two.  The error thrown is that of the last
    ROLLBACK when it throws, and otherwise the error of the failure. *)
Theorem executor_transaction_protocol (sql : string) (parameters : list Types.SqlValue)
    (s : QueryExecutorImpl) :
  exists calls outs,
    QueryService.backendRun calls (dbManager s) =
      (outs, dbManager (snd (executeInTransaction sql parameters s)))
    /\ TransactionCourse (sql, parametersOnly parameters) calls outs
         (fst (executeInTransaction sql parameters s))
    /\ published (snd (executeInTransaction sql parameters s)) = published s.
Proof.
  unfold executeInTransaction, beginTransaction, commitTransaction, rollbackTransaction,
    tryCatch, bind, onManager, logLine, modify, gets, ret, throw.
  cbn [fst snd dbManager logger published].
  adapterCall.
  - adapterCall.
    + destruct (Types.success r0) eqn:Hs; cbn [negb].
      * adapterCall.
        -- eexists [beginCall; (sql, parametersOnly parameters); commitCall], _.
           split; [cbn; rewrite E, E0, E1; reflexivity|].
           split; [apply committed; exact Hs | reflexivity].
        -- adapterCall.
           ++ eexists [beginCall; (sql, parametersOnly parameters); commitCall; rollbackCall], _.
              split; [cbn; rewrite E, E0, E1, E2; reflexivity|].
              split; [apply (commit_throws _ r r0 e (Returned r1)); exact Hs | reflexivity].
           ++ eexists [beginCall; (sql, parametersOnly parameters); commitCall; rollbackCall], _.
              split; [cbn; rewrite E, E0, E1, E2; reflexivity|].
              split; [apply (commit_throws _ r r0 e (Thrown e0)); exact Hs | reflexivity].
      * adapterCall.
        -- adapterCall.
           ++ eexists [beginCall; (sql, parametersOnly parameters); rollbackCall; rollbackCall], _.
              split; [cbn; rewrite E, E0, E1, E2; reflexivity|].
              split; [apply (statement_fails _ r r0 (Returned r1) (Returned r2)); exact Hs
                     | reflexivity].
           ++ eexists [beginCall; (sql, parametersOnly parameters); rollbackCall; rollbackCall], _.
              split; [cbn; rewrite E, E0, E1, E2; reflexivity|].
              split; [apply (statement_fails _ r r0 (Returned r1) (Thrown e)); exact Hs
                     | reflexivity].
        -- adapterCall.
           ++ eexists [beginCall; (sql, parametersOnly parameters); rollbackCall; rollbackCall], _.
              split; [cbn; rewrite E, E0, E1, E2; reflexivity|].
              split; [apply (statement_fails _ r r0 (Thrown e) (Returned r1)); exact Hs
                     | reflexivity].
           ++ eexists [beginCall; (sql, parametersOnly parameters); rollbackCall; rollbackCall], _.
              split; [cbn; rewrite E, E0, E1, E2; reflexivity|].
              split; [apply (statement_fails _ r r0 (Thrown e) (Thrown e0)); exact Hs
                     | reflexivity].
    + adapterCall.
      * eexists [beginCall; (sql, parametersOnly parameters); rollbackCall], _.
        split; [cbn; rewrite E, E0, E1; reflexivity|].
        split; [apply (statement_throws _ r e (Returned r0)) | reflexivity].
      * eexists [beginCall; (sql, parametersOnly parameters); rollbackCall], _.
        split; [cbn; rewrite E, E0, E1; reflexivity|].
        split; [apply (statement_throws _ r e (Thrown e0)) | reflexivity].
  - adapterCall.
    + eexists [beginCall; rollbackCall], _.
      split; [cbn; rewrite E, E0; reflexivity|].
      split; [apply (begin_throws _ e (Returned r)) | reflexivity].
    + eexists [beginCall; rollbackCall], _.
      split; [cbn; rewrite E, E0; reflexivity|].
      split; [apply (begin_throws _ e (Thrown e0)) | reflexivity].
Qed.

End Executor.

Arguments QueryExecutorImpl : clear implicits.

End QueryExecutor.

(** ** InMemoryPerformanceAlertRepository (infrastructure/repositories) *)

Module AlertRepository.
Import Alert ConnectionManager JsArray.

Section Repository.

(** The repository holds alert objects, not copies: [Ref] names an
    object and [alertAt] is the state of each object at the moment of the
    call.  [save] reads only [id] and [createdAt] of an alert, which no
    method of the alert changes. *)
Context {Ref : Type} (alertAt : Ref -> PerformanceAlert).

Record Repository : Type := mkRepository {
  alerts : JsMap Ref;
  alertsHistory : list Ref
}.

Definition emptyRepository : Repository := mkRepository [] [].

Definition maxHistorySize : nat := 500.

Definition idOf (r : Ref) : string := _id (alertAt r).
Definition createdAtOf (r : Ref) : Z := _createdAt (alertAt r).

(** [array.sort((a, b) => b.createdAt.getTime() - a.createdAt.getTime())]:
    the sort is stable, so its result is that of inserting the elements
    one by one, each behind those that are not older than it. *)
Fixpoint insertSorted (x : Ref) (l : list Ref) : list Ref :=
  match l with
  | [] => [x]
  | y :: rest =>
      if (createdAtOf y <? createdAtOf x)%Z then x :: y :: rest
      else y :: insertSorted x rest
  end.

Definition sortNewestFirst (l : list Ref) : list Ref :=
  fold_left (fun sorted x => insertSorted x sorted) l [].

Definition save (alert : Ref) (repo : Repository) : Repository :=
  let existingAlert := mapGet (idOf alert) (alerts repo) in
  let alerts1 := mapSet (idOf alert) alert (alerts repo) in
  match existingAlert with
  | Some _ => mkRepository alerts1 (alertsHistory repo)
  | None =>
      let history := sortNewestFirst (alertsHistory repo ++ [alert]) in
      if (maxHistorySize <? length history)%nat
      then
        let removedAlerts := drop maxHistorySize history in
        mkRepository
          (fold_left (fun m removedAlert => mapDelete (idOf removedAlert) m)
             removedAlerts alerts1)
          (take maxHistorySize history)
      else mkRepository alerts1 history
  end.

Definition findById (id : string) (repo : Repository) : option Ref :=
  mapGet id (alerts repo).

Definition findAll (repo : Repository) : list Ref := map snd (alerts repo).

Definition findActive (repo : Repository) : list Ref :=
  List.filter (fun r => isActive (alertAt r)) (findAll repo).

Definition findAcknowledged (repo : Repository) : list Ref :=
  List.filter (fun r => isAcknowledged (alertAt r)) (findAll repo).

Definition findResolved (repo : Repository) : list Ref :=
  List.filter (fun r => isResolved (alertAt r)) (findAll repo).

Definition findCritical (repo : Repository) : list Ref :=
  List.filter (fun r => AlertHistory.isCritical (alertAt r)) (findAll repo).

(** [now r] is the instant that [shouldEscalate] reads off the clock
    when it is called on [r]. *)
Definition findEscalationCandidates (now : Ref -> Z) (thresholdMinutes : JsNumber.number)
    (repo : Repository) : list Ref :=
  List.filter (fun r => shouldEscalate (now r) thresholdMinutes (alertAt r)) (findAll repo).

Definition AlertType_eqb (x y : AlertType) : bool :=
  match x, y with
  | connection_pool_high_utilization, connection_pool_high_utilization
  | slow_query_detected, slow_query_detected
  | high_cpu_usage, high_cpu_usage
  | high_memory_usage, high_memory_usage
  | high_disk_usage, high_disk_usage
  | connection_timeout, connection_timeout
  | query_timeout, query_timeout => true
  | _, _ => false
  end.

Definition alertTypes : list AlertType :=
  [connection_pool_high_utilization; slow_query_detected; high_cpu_usage;
   high_memory_usage; high_disk_usage; connection_timeout; query_timeout].

Record AlertStatistics : Type := mkAlertStatistics {
  total : nat;
  active : nat;
  acknowledged : nat;
  resolved : nat;
  critical : nat;
  byType : list (AlertType * nat)
}.

Definition getAlertStatistics (repo : Repository) : AlertStatistics :=
  let allAlerts := findAll repo in
  {| total := length allAlerts;
     active := length (List.filter (fun a => isActive (alertAt a)) allAlerts);
     acknowledged := length (List.filter (fun a => isAcknowledged (alertAt a)) allAlerts);
     resolved := length (List.filter (fun a => isResolved (alertAt a)) allAlerts);
     critical := length (List.filter (fun a => AlertHistory.isCritical (alertAt a)) allAlerts);
     byType :=
       map (fun type =>
              (type,
               length (List.filter (fun a => AlertType_eqb (_type (alertAt a)) type)
                         allAlerts)))
         alertTypes |}.

Definition clear (repo : Repository) : Repository := mkRepository [] [].

Definition saveAll (saved : list Ref) (repo : Repository) : Repository :=
  fold_left (fun repo alert => save alert repo) saved repo.

(** The history is ordered newest first. *)
Fixpoint newestFirst (l : list Ref) : Prop :=
  match l with
  | [] => True
  | x :: rest =>
      Forall (fun y => (createdAtOf y <= createdAtOf x)%Z) rest /\ newestFirst rest
  end.

(** *** Statistics *)

Lemma status_partition (l : list Ref) :
  (length (List.filter (fun a => isActive (alertAt a)) l)
   + length (List.filter (fun a => isAcknowledged (alertAt a)) l)
   + length (List.filter (fun a => isResolved (alertAt a)) l)
   = length l)%nat.
Proof.
  induction l as [|x rest IH]; cbn; [reflexivity|].
  unfold isActive, isAcknowledged, isResolved in *.
  destruct (_status (alertAt x)); cbn; lia.
Qed.

Lemma type_partition (l : list Ref) :
  fold_right (fun type sum =>
                (length (List.filter (fun a => AlertType_eqb (_type (alertAt a)) type) l)
                 + sum)%nat)
    0%nat alertTypes
  = length l.
Proof.
  induction l as [|x rest IH]; cbn in *; [reflexivity|].
  destruct (_type (alertAt x)); cbn; lia.
Qed.

(** X29. The statistics of the repository count every alert it holds
    once by status and once by type: [total] is the sum of [active],
    [acknowledged] and [resolved], and the sum of the counts by type;
    [critical] is at most [total].  Every alert that
    [findEscalationCandidates] returns is one that [findActive] returns,
    whatever the threshold and the clock. *)
Theorem statistics_partition_alerts (repo : Repository) (now : Ref -> Z)
    (thresholdMinutes : JsNumber.number) :
  let stats := getAlertStatistics repo in
  (total stats = active stats + acknowledged stats + resolved stats)%nat
  /\ total stats = length (findAll repo)
  /\ active stats = length (findActive repo)
  /\ (critical stats <= total stats)%nat
  /\ fold_right (fun entry sum => (snd entry + sum)%nat) 0%nat (byType stats) = total stats
  /\ map fst (byType stats) = alertTypes
  /\ (forall r, In r (findEscalationCandidates now thresholdMinutes repo) ->
        In r (findActive repo))
  /\ (length (findEscalationCandidates now thresholdMinutes repo) <= active stats)%nat.
Proof.
  cbn. split; [symmetry; apply status_partition|].
  split; [reflexivity|]. split; [reflexivity|].
  split; [apply filter_length_le|].
  split; [pose proof (type_partition (findAll repo)) as T; cbn in T; exact T|].
  split; [reflexivity|].
  assert (Hsub : forall r, shouldEscalate (now r) thresholdMinutes (alertAt r) = true ->
                   isActive (alertAt r) = true).
  { intros r Hr. unfold shouldEscalate in Hr. unfold isActive.
    destruct (AlertStatus_eqb (_status (alertAt r)) Alert.active); [reflexivity | discriminate]. }
  split.
  - intros r Hr. unfold findEscalationCandidates, findActive in *.
    apply List.filter_In in Hr. destruct Hr as [Hin Hr].
    apply List.filter_In. split; [exact Hin | apply Hsub, Hr].
  - unfold findEscalationCandidates.
    induction (findAll repo) as [|x rest IH]; cbn; [lia|].
    destruct (shouldEscalate (now x) thresholdMinutes (alertAt x)) eqn:Ex.
    + rewrite (Hsub x Ex). cbn. lia.
    + destruct (isActive (alertAt x)); cbn; lia.
Qed.


(** *** What [save] keeps *)

Lemma insertSorted_perm (x : Ref) (l : list Ref) : insertSorted x l ≡ₚ x :: l.
Proof.
  induction l as [|y rest IH]; cbn; [reflexivity|].
  destruct (createdAtOf y <? createdAtOf x)%Z; [reflexivity|].
  rewrite IH. apply Permutation_swap.
Qed.

Lemma insertSorted_newestFirst (x : Ref) (l : list Ref) :
  newestFirst l -> newestFirst (insertSorted x l).
Proof.
  induction l as [|y rest IH]; cbn; [auto|].
  intros [Hall Hrest].
  destruct (Z.ltb_spec (createdAtOf y) (createdAtOf x)); cbn.
  - split; [|split; assumption].
    constructor; [lia|]. eapply Forall_impl; [exact Hall|]. cbn. intros z Hz. lia.
  - split; [|apply IH, Hrest].
    rewrite insertSorted_perm. constructor; assumption.
Qed.

Lemma insertSorted_oldest (x : Ref) (l : list Ref) :
  Forall (fun y => (createdAtOf x <= createdAtOf y)%Z) l -> insertSorted x l = l ++ [x].
Proof.
  induction l as [|y rest IH]; cbn; [reflexivity|].
  intros Hall. apply Forall_cons in Hall as [Hy Hrest].
  destruct (Z.ltb_spec (createdAtOf y) (createdAtOf x)); [lia|].
  rewrite (IH Hrest). reflexivity.
Qed.

Lemma newestFirst_snoc (l : list Ref) (x : Ref) :
  newestFirst (l ++ [x]) ->
  newestFirst l /\ Forall (fun y => (createdAtOf x <= createdAtOf y)%Z) l.
Proof.
  induction l as [|y rest IH]; cbn; [auto|].
  intros [Hall Hrest]. destruct (IH Hrest) as [Hs Hx].
  apply Forall_app in Hall as [Hall1 Hall2].
  split; [split; assumption|].
  constructor; [|exact Hx]. apply Forall_cons in Hall2 as [Hxy _]. exact Hxy.
Qed.

Lemma sortNewestFirst_snoc (l : list Ref) (x : Ref) :
  sortNewestFirst (l ++ [x]) = insertSorted x (sortNewestFirst l).
Proof. unfold sortNewestFirst. rewrite fold_left_app. reflexivity. Qed.

(** Sorting a list that is ordered already changes nothing. *)
Lemma sortNewestFirst_sorted (l : list Ref) : newestFirst l -> sortNewestFirst l = l.
Proof.
  induction l as [|x rest IH] using rev_ind; [reflexivity|].
  intros Hs. apply newestFirst_snoc in Hs as [Hs Hx].
  rewrite sortNewestFirst_snoc, (IH Hs). apply insertSorted_oldest, Hx.
Qed.

Lemma newestFirst_take (n : nat) (l : list Ref) : newestFirst l -> newestFirst (take n l).
Proof.
  revert n. induction l as [|x rest IH]; intros [|n]; cbn; auto.
  intros [Hall Hrest]. split; [apply Forall_take, Hall | apply IH, Hrest].
Qed.

Lemma mapHas_deleted (k : string) (removed : list Ref) (m : JsMap Ref) :
  mapHas k (fold_left (fun m removedAlert => mapDelete (idOf removedAlert) m) removed m) =
  mapHas k m && negb (existsb (fun x => String.eqb (idOf x) k) removed).
Proof.
  revert m. induction removed as [|x rest IH]; intros m; cbn.
  - rewrite andb_true_r. reflexivity.
  - rewrite IH, mapHas_mapDelete.
    destruct (String.eqb (idOf x) k), (mapHas k m); cbn; reflexivity.
Qed.

Lemma mapDelete_absent {V : Type} (k : string) (m : JsMap V) :
  mapGet k m = None -> mapDelete k m = m.
Proof.
  intros Hk. apply filter_all. intros kv Hin.
  rewrite (ManagerOps.mapGet_None k m kv Hk Hin). reflexivity.
Qed.

(** What holds of a repository between calls. *)
Definition wellKept (repo : Repository) : Prop :=
  (length (alertsHistory repo) <= maxHistorySize)%nat
  /\ newestFirst (alertsHistory repo)
  /\ NoDup (map idOf (alertsHistory repo))
  /\ forall id,
       mapHas id (alerts repo) = true <->
       exists r, In r (alertsHistory repo) /\ idOf r = id.

Lemma save_wellKept (alert : Ref) (repo : Repository) :
  wellKept repo -> wellKept (save alert repo).
Proof.
  intros (Hlen & Hsorted & Hnd & Hids). unfold save.
  destruct (mapGet (idOf alert) (alerts repo)) as [old|] eqn:G.
  - (* an alert of this id is held already *)
    split; [exact Hlen|]. split; [exact Hsorted|]. split; [exact Hnd|].
    intros id. cbn [alerts alertsHistory]. rewrite <- Hids, mapHas_mapSet.
    destruct (String.eqb_spec (idOf alert) id) as [<-|]; cbn; [|reflexivity].
    unfold mapHas. rewrite G. tauto.
  - (* a new alert *)
    rewrite sortNewestFirst_snoc, (sortNewestFirst_sorted _ Hsorted).
    set (history := insertSorted alert (alertsHistory repo)).
    assert (Hperm : history ≡ₚ alert :: alertsHistory repo) by apply insertSorted_perm.
    assert (Hfresh : forall r, In r (alertsHistory repo) -> idOf r <> idOf alert).
    { intros r Hin Heq.
      assert (Hh : mapHas (idOf alert) (alerts repo) = true) by (apply Hids; eauto).
      unfold mapHas in Hh. rewrite G in Hh. discriminate. }
    assert (Hsorted1 : newestFirst history) by apply insertSorted_newestFirst, Hsorted.
    assert (Hnd1 : NoDup (map idOf history)).
    { rewrite (Permutation_map idOf Hperm). cbn. apply NoDup_cons. split; [|exact Hnd].
      intros Hin. apply list_elem_of_In, in_map_iff in Hin.
      destruct Hin as (r & Heq & Hin). apply (Hfresh r Hin Heq). }
    assert (Hids1 : forall id,
              mapHas id (mapSet (idOf alert) alert (alerts repo)) = true <->
              exists r, In r history /\ idOf r = id).
    { intros id. rewrite mapHas_mapSet, orb_true_iff, Hids, String.eqb_eq. split.
      - intros [<-|(r & Hin & Hr)].
        + exists alert. split; [|reflexivity].
          apply list_elem_of_In. rewrite Hperm. apply list_elem_of_In. left. reflexivity.
        + exists r. split; [|exact Hr].
          apply list_elem_of_In. rewrite Hperm. apply list_elem_of_In. right. exact Hin.
      - intros (r & Hin & Hr).
        apply list_elem_of_In in Hin. rewrite Hperm in Hin. apply list_elem_of_In in Hin.
        destruct Hin as [<-|Hin]; [left; exact Hr | right; eauto]. }
    destruct (Nat.ltb_spec maxHistorySize (length history)) as [Hover|Hfits].
    + unfold wellKept. cbn [alerts alertsHistory].
      assert (Hsplit : map idOf history =
                       map idOf (take maxHistorySize history)
                       ++ map idOf (drop maxHistorySize history))
        by (rewrite <- map_app, take_drop; reflexivity).
      rewrite Hsplit in Hnd1. apply NoDup_app in Hnd1 as (Hnd2 & Hdisjoint & _).
      split; [rewrite length_take; lia|].
      split; [apply newestFirst_take, Hsorted1|].
      split; [exact Hnd2|].
      intros id. rewrite mapHas_deleted, andb_true_iff, Hids1, negb_true_iff. split.
      * intros [(r & Hin & Hr) Hkept].
        exists r. split; [|exact Hr].
        rewrite <- (take_drop maxHistorySize history) in Hin.
        apply in_app_or in Hin. destruct Hin as [Hin|Hin]; [exact Hin|].
        exfalso. apply not_true_iff_false in Hkept. apply Hkept.
        apply existsb_exists. exists r. split; [exact Hin | apply String.eqb_eq, Hr].
      * intros (r & Hin & Hr). split.
        -- exists r. split; [|exact Hr].
           rewrite <- (take_drop maxHistorySize history). apply in_or_app. left. exact Hin.
        -- apply not_true_iff_false. intros Hex.
           apply existsb_exists in Hex. destruct Hex as (x & Hx & Heq).
           apply String.eqb_eq in Heq.
           apply (Hdisjoint id).
           ++ apply list_elem_of_In, in_map_iff. exists r. auto.
           ++ apply list_elem_of_In, in_map_iff. exists x. auto.
    + unfold wellKept. cbn [alerts alertsHistory].
      split; [exact Hfits|]. split; [exact Hsorted1|]. split; [exact Hnd1 | exact Hids1].
Qed.

Lemma saveAll_wellKept (saved : list Ref) (repo : Repository) :
  wellKept repo -> wellKept (saveAll saved repo).
Proof.
  unfold saveAll. revert repo. induction saved as [|alert rest IH]; intros repo Hw; cbn;
    [exact Hw|].
  apply IH, save_wellKept, Hw.
Qed.

Lemma emptyRepository_wellKept : wellKept emptyRepository.
Proof.
  split; [cbn; unfold maxHistorySize; lia|]. split; [exact I|].
  split; [apply NoDup_nil_2|].
  intros id. cbn. split; [discriminate | intros (r & [] & _)].
Qed.

(** X30. Whatever alerts were saved to a repository since it was
    created, it keeps at most 500 of them, ordered newest first, and
    [findById] finds exactly the alerts kept.  When it is full, saving an
    alert that is not newer than any alert kept leaves the repository as
    it was: the alert is dropped at once and [findById] does not find
    it. *)
Theorem repository_keeps_newest (saved : list Ref) :
  let repo := saveAll saved emptyRepository in
  (length (alertsHistory repo) <= 500)%nat
  /\ newestFirst (alertsHistory repo)
  /\ (forall id,
        findById id repo <> None <->
        exists r, In r (alertsHistory repo) /\ idOf r = id)
  /\ (forall alert,
        length (alertsHistory repo) = 500%nat ->
        findById (idOf alert) repo = None ->
        Forall (fun kept => (createdAtOf alert <= createdAtOf kept)%Z) (alertsHistory repo) ->
        save alert repo = repo
        /\ findById (idOf alert) (save alert repo) = None).
Proof.
  intros repo.
  destruct (saveAll_wellKept saved emptyRepository emptyRepository_wellKept)
    as (Hlen & Hsorted & Hnd & Hids). fold repo in Hlen, Hsorted, Hnd, Hids.
  split; [exact Hlen|]. split; [exact Hsorted|].
  split.
  { intros id. rewrite <- Hids. unfold findById, mapHas.
    destruct (mapGet id (alerts repo)); split; congruence. }
  intros alert Hfull Hnew Hold.
  assert (E : save alert repo = repo).
  { unfold save. unfold findById in Hnew. rewrite Hnew.
    rewrite sortNewestFirst_snoc, (sortNewestFirst_sorted _ Hsorted).
    rewrite (insertSorted_oldest _ _ Hold).
    rewrite length_app, Hfull. cbn [length Nat.add Nat.ltb Nat.leb maxHistorySize].
    replace (500 + 1 <=? 500)%nat with false by reflexivity.
    unfold maxHistorySize.
    replace (500 <? 500 + 1)%nat with true by reflexivity.
    rewrite <- Hfull at 1 2.
    rewrite drop_app_length, take_app_length. cbn [fold_left].
    rewrite ManagerOps.mapDelete_mapSet, (mapDelete_absent _ _ Hnew).
    destruct repo; reflexivity. }
  split; [exact E | rewrite E; exact Hnew].
Qed.

End Repository.

End AlertRepository.

(** ** A small installation, and the theorems at work on it *)

Module Sample.
Import Types Adapter ConnectionManager Gateway.

(** *** A driver

    A handle names the host it talks to and counts the calls it has
    served.  The SQL Server behind it answers "SELECT 1 as test" with one
    row, rejects any query on the table [missing], and has nothing to say
    about anything else; the host "stuck.example" cannot be closed and the
    host "down.example" cannot be reached.  The MySQL and PostgreSQL
    drivers are the placeholders of the sources, which fail with the
    message that the library is not installed. *)

Record Handle : Type := mkHandle {
  handleHost : string;
  served : nat
}.

Definition notInstalled (product library : string) : string :=
  (product ++ " adapter requires " ++ library ++ " library to be installed")%string.

Definition answer (q : string) : string + MssqlResult :=
  if String.eqb q "SELECT * FROM missing" then inl "Invalid object name 'missing'."%string
  else if String.eqb q "SELECT 1 as test"
       then inr (mkMssqlResult (Some [[("test"%string, SqlNumber 1)]]) (AffectedArray [1%Z]) None)
       else inr (mkMssqlResult (Some []) (AffectedArray [0%Z]) None).

#[export] Instance sampleDriver : Driver Handle := {|
  mssqlNewPool cfg := mkHandle (host cfg) 0;
  mssqlPoolConnect p :=
    if String.eqb (handleHost p) "down.example" then inl "connect ECONNREFUSED"%string
    else inr p;
  mysqlCreateConnection cfg := inl (notInstalled "MySQL" "mysql2");
  pgNewPool cfg := inl (notInstalled "PostgreSQL" "pg");
  poolClose p :=
    if String.eqb (handleHost p) "stuck.example" then Some "socket hang up"%string else None;
  mssqlRequestQuery p timeout inputs q :=
    mkReply (answer q) (mkHandle (handleHost p) (S (served p))) 3;
  mysqlExecute p q ps := mkReply (inl (notInstalled "MySQL" "mysql2")) p 0;
  mysqlQuery p q := mkReply (inl (notInstalled "MySQL" "mysql2")) p 0;
  pgQuery p q ps := mkReply (inl (notInstalled "PostgreSQL" "pg")) p 0
|}.

(** The two rounded divisions of [getQueryStats], on doubles as in
    JavaScript: [Math.round(a / b)] and [Math.round((a / b) * 100)]. *)
#[export] Instance doubleMath : QueryService.JsMath := {|
  QueryService.roundDiv a b :=
    JsNumber.round (PrimFloat.div (JsNumber.ofZ a) (JsNumber.ofZ b));
  QueryService.roundPercent a b :=
    JsNumber.round
      (PrimFloat.mul (PrimFloat.div (JsNumber.ofZ a) (JsNumber.ofZ b)) (JsNumber.ofZ 100))
|}.

(** 29 successes of 200 queries are reported as 14 per cent, 1 of 3 as
    33, 2 of 3 as 67; 7 ms over 2 queries average to 4. *)
Example doubleMath_examples :
  QueryService.roundPercent 29 200 = 14%Z
  /\ QueryService.roundPercent 1 3 = 33%Z
  /\ QueryService.roundPercent 2 3 = 67%Z
  /\ QueryService.roundPercent 200 200 = 100%Z
  /\ QueryService.roundDiv 7 2 = 4%Z
  /\ QueryService.roundDiv 10 4 = 3%Z.
Proof. vm_compute. repeat split. Qed.

Definition configFor (h : string) : DatabaseConfig :=
  mkConfig h (Some 1433%Z) "test" "u" "p" None.

(** The manager after [createConnection("default", config, "mssql")]. *)
Definition managerAt (h : string) : DatabaseConnectionManager Handle :=
  snd (createDefaultConnection (configFor h) newManager).

Definition sampleManager : DatabaseConnectionManager Handle := managerAt "localhost".

Definition sampleWorld : Gateway.World Handle := Gateway.mkWorld sampleManager 1000.

(** *** An adapter that loses its connection

    A backend that answers from a script, one outcome per call: the
    adapter as the service sees it when another caller closes the
    connection between two of its calls. *)

Definition Script : Type := list (Outcome QueryResult).

#[export] Instance scriptedBackend : QueryService.Backend Script := {|
  QueryService.currentExecuteQuery q o := fun script =>
    match script with
    | out :: rest => (out, rest)
    | [] => (Thrown (JsError "Not connected to database."), [])
    end;
  QueryService.dateNow := fun _ => 0%Z
|}.




(** A schema service whose cache holds one entry, stored at instant 0,
    looked up at instant [age]. *)
Definition usersEntry : SchemaService.CacheEntry :=
  SchemaService.mkCacheEntry (basicTableInfo "users") 0.

Definition agedService (age : Z) : SchemaService.SchemaService (World Handle) :=
  SchemaService.mkService (mkWorld sampleManager age) {[ "table_users"%string := usersEntry ]}.

(** The time at which the entry for the table [users] was stored, after a
    lookup. *)
Definition timestamp_of
    (r : Outcome TableInfo * SchemaService.SchemaService (World Handle)) : option Z :=
  SchemaService.timestamp <$> SchemaService.schemaCache (snd r) !! "table_users"%string.

Definition stuckAdapter : BaseDatabaseAdapter Handle :=
  mkAdapter mssql (configFor "stuck.example") true (Some (mkHandle "stuck.example" 0)).


(** *** The manager *)


Lemma removeConnection_disconnect_throws_witness :
  removeConnection "default" (managerAt "stuck.example") =
  (Thrown (JsError "MSSQL disconnection failed: socket hang up"), managerAt "stuck.example").
Proof.
  apply (removeConnection_disconnect_throws (managerAt "stuck.example") "default"
           stuckAdapter (JsError "MSSQL disconnection failed: socket hang up"));
    vm_compute; reflexivity.
Defined.

(** *** The adapters *)

(** The scenario of the spec: a connection of type [mssql] to
    [localhost:1433], then "SELECT 1 as test". *)
Example select_one_as_test :
  fst (QueryService.executeQuery "SELECT 1 as test" None (QueryService.newService sampleWorld))
  = Returned (mkResult true (Some [[("test"%string, SqlNumber 1)]])
                (Some [[("test"%string, SqlNumber 1)]]) 1 None None 3).
Proof. vm_compute. reflexivity. Qed.

(** An adapter that was never connected throws; a query the server
    rejects comes back as a result. *)
Example executeQuery_failures :
  fst (executeQuery "SELECT 1 as test" None (0%Z, newAdapter mssql (configFor "localhost")))
  = Thrown (JsError "Not connected to database.")
  /\ fst (executeQuery "SELECT * FROM missing" None
            (0%Z, mkAdapter mssql (configFor "localhost") true (Some (mkHandle "localhost" 0))))
     = Returned (mkResult false None None 0 None (Some "Invalid object name 'missing'."%string) 3).
Proof. split; vm_compute; reflexivity. Qed.

(** *** The query service *)

(** The scenario of the spec: of three statements the second fails; the
    first two are attempted, ROLLBACK is sent, the third is not. *)
Example transaction_second_statement_fails :
  let s' := QueryService.executeInTransaction
              [("SELECT 1 as test"%string, None); ("SELECT * FROM missing"%string, None);
               ("SELECT 2"%string, None)]
              (QueryService.newService sampleWorld) in
  fst s' = Thrown (JsError "Transaction query failed: Invalid object name 'missing'.")
  /\ map QueryService.query (QueryService.queryHistory (snd s')) =
     ["BEGIN TRANSACTION"; "SELECT 1 as test"; "SELECT * FROM missing";
      "ROLLBACK TRANSACTION"]%string.
Proof. vm_compute. split; reflexivity. Qed.


Lemma history_cap_counterexample : ~ QueryService.claimedHistoryCap sampleWorld.
Proof. apply QueryService.no_history_cap. Qed.

(** The server rejects the query; the call returns the failed result and
    the entry says [success = true]. *)
Lemma failure_recorded_counterexample :
  ~ QueryService.claimedFailureRecorded "SELECT * FROM missing" None
      (QueryService.newService sampleWorld).
Proof.
  unfold QueryService.claimedFailureRecorded. intros Hclaim.
  destruct Hclaim as (entry & Hlast & Hsuccess & _).
  - vm_compute. reflexivity.
  - vm_compute in Hlast. injection Hlast as <-. discriminate Hsuccess.
Qed.

Lemma getQueryStats_empty_history_witness :
  QueryService.getQueryStats 5 (QueryService.newService sampleWorld) =
  QueryService.mkStats 0 0 0 0 0
    (QueryService.mkSummary "" 0 5) (QueryService.mkSummary "" 0 5).
Proof.
  apply (QueryService.getQueryStats_empty_history 5 (QueryService.newService sampleWorld)).
  reflexivity.
Defined.

(** *** The schema service *)

(** An entry that is exactly five minutes old is still served. *)
Lemma cache_boundary_counterexample :
  ~ SchemaService.claimedValidity "table_users" (agedService 300000).
Proof.
  intros [Hserved _].
  destruct Hserved as (cached & Hcached & Hyounger).
  - rewrite (SchemaService.isCacheValid_fresh _ _ usersEntry); [reflexivity | |].
    + apply lookup_singleton_eq.
    + vm_compute. discriminate.
  - unfold agedService in Hcached. simpl in Hcached.
    rewrite lookup_singleton_eq in Hcached. injection Hcached as <-.
    vm_compute in Hyounger. discriminate Hyounger.
Qed.

(** The scenario of the spec: one millisecond past the five minutes the
    lookup goes to the adapter, and the entry is replaced by what came
    back (six queries of 3 ms later); at five minutes it does not. *)
Example lookup_after_ttl_fetches :
  timestamp_of (SchemaService.getTableInfo "users" (agedService 300001)) = Some 300019%Z
  /\ clock (SchemaService.dbManager (snd (SchemaService.getTableInfo "users" (agedService 300001))))
     = 300019%Z
  /\ SchemaService.getTableInfo "users" (agedService 300000)
     = (Returned (basicTableInfo "users"), agedService 300000).
Proof. split; [|split]; vm_compute; reflexivity. Qed.

Lemma ghost_is_unknown : unknownTable "ghost".
Proof.
  intros p timeout inputs q Hq. simpl in Hq.
  repeat (destruct Hq as [<-|Hq]; [vm_compute; eauto|]). contradiction.
Qed.

(** The server has no table [ghost]; the request returns an empty
    description of it. *)
Lemma schema_validation_error_counterexample :
  ~ claimedSchemaValidationError "ghost" (SchemaService.newService sampleWorld).
Proof.
  intros (objectType & validationIssue & message & Hthrown).
  vm_compute in Hthrown. discriminate Hthrown.
Qed.

Lemma getTableInfo_unknown_table_witness :
  exists info,
    fst (SchemaService.getTableInfo "ghost" (SchemaService.newService sampleWorld))
      = Returned info
    /\ name info = "ghost"%string /\ schema info = "dbo"%string /\ type info = table
    /\ emptyTable info.
Proof.
  apply (proj1 (proj2 (getTableInfo_unknown_table "ghost"
                         (SchemaService.newService sampleWorld)))).
  - exact ghost_is_unknown.
  - eexists. split; vm_compute; reflexivity.
  - reflexivity.
Defined.

End Sample.

(** ** The installation again: the further theorems at work *)

Module SampleRuns.
Import Types Adapter ConnectionManager Gateway Sample.

(** The adapter of the default connection once connected. *)
Definition localAdapter : BaseDatabaseAdapter Handle :=
  mkAdapter mssql (configFor "localhost") true (Some (mkHandle "localhost" 0)).

(** A manager with two connections: the server behind the second cannot
    be closed. *)
Definition twoManager : DatabaseConnectionManager Handle :=
  snd (createConnection "reports" (configFor "stuck.example") "mssql"
         (snd (createConnection "orders" (configFor "localhost") "mssql" newManager))).

(** A world whose manager was just created. *)
Definition emptyWorld : World Handle := mkWorld newManager 1000.

(** A history of two queries, the second slower than the first. *)
Definition twoQueries : QueryService.QueryService (World Handle) :=
  QueryService.mkService sampleWorld
    [QueryService.mkEntry "SELECT 1" 1003 3 true None;
     QueryService.mkEntry "SELECT * FROM orders" 1010 7 true None]
    [].

(** A SQL Server that cannot be reached: a pool for it does not connect,
    and rejects every request made of it. *)
Definition unreachableDriver : Driver Handle := {|
  mssqlNewPool cfg := mkHandle (host cfg) 0;
  mssqlPoolConnect p := inl "connect ECONNREFUSED"%string;
  mysqlCreateConnection cfg := inl (notInstalled "MySQL" "mysql2");
  pgNewPool cfg := inl (notInstalled "PostgreSQL" "pg");
  poolClose p := None;
  mssqlRequestQuery p timeout inputs q := mkReply (inl "Connection is closed."%string) p 0;
  mysqlExecute p q ps := mkReply (inl (notInstalled "MySQL" "mysql2")) p 0;
  mysqlQuery p q := mkReply (inl (notInstalled "MySQL" "mysql2")) p 0;
  pgQuery p q ps := mkReply (inl (notInstalled "PostgreSQL" "pg")) p 0
|}.

(** The adapter of each class after its [connect] to that server has
    thrown. *)
Definition afterFailedConnect (ty : DatabaseType) : BaseDatabaseAdapter Handle :=
  snd (@connect Handle unreachableDriver (newAdapter ty (configFor "down.example"))).

Lemma executeQuery_after_failed_connect_witness :
  isConnected (afterFailedConnect mssql) = false
  /\ (exists r,
        fst (@executeQuery Handle unreachableDriver "SELECT 1 as test" None
               (1000%Z, afterFailedConnect mssql)) = Returned r)
  /\ fst (@executeQuery Handle unreachableDriver "SELECT 1 as test" None
            (1000%Z, afterFailedConnect mysql))
     = Thrown (JsError "Not connected to database.").
Proof.
  destruct (@executeQuery_after_failed_connect Handle unreachableDriver
              (configFor "down.example") "connect ECONNREFUSED" 1000 "SELECT 1 as test" None
              eq_refl)
    as [(_ & Hoff & _ & r & Hr & _) Hsibling].
  split; [exact Hoff|]. split; [exists r; exact Hr|].
  apply (Hsibling mysql); [discriminate | reflexivity].
Defined.

(** What that adapter answers: the [MSSQLAdapter] returns the driver's
    rejection as a result, the two others throw. *)
Example failed_connect_by_class :
  fst (@executeQuery Handle unreachableDriver "SELECT 1 as test" None
         (1000%Z, afterFailedConnect mssql))
  = Returned (failedResult "Connection is closed." 0)
  /\ fst (@executeQuery Handle unreachableDriver "SELECT 1 as test" None
            (1000%Z, afterFailedConnect mysql))
     = Thrown (JsError "Not connected to database.")
  /\ fst (@executeQuery Handle unreachableDriver "SELECT 1 as test" None
            (1000%Z, afterFailedConnect postgresql))
     = Thrown (JsError "Not connected to database.")
  /\ map (fun ty => isConnected (afterFailedConnect ty)) [mssql; mysql; postgresql]
     = [false; false; false].
Proof. vm_compute. repeat split. Qed.

(** A query text of sixty characters of three bytes each is reported
    whole by the statistics. *)
Example abbreviate_counts_code_units :
  QueryService.abbreviate (JsString.repeated 60 JsString.cjk) = JsString.repeated 60 JsString.cjk
  /\ QueryService.abbreviate "SELECT 1" = "SELECT 1"%string.
Proof. vm_compute. repeat split. Qed.

(** With no connection left, the schema service still answers from an
    entry cached five minutes ago, and throws one millisecond later. *)
Example cached_table_without_connection :
  SchemaService.getTableInfo "users"
    (SchemaService.mkService (mkWorld (@newManager Handle) 300000)
       {[ "table_users"%string := usersEntry ]})
  = (Returned (basicTableInfo "users"),
     SchemaService.mkService (mkWorld (@newManager Handle) 300000)
       {[ "table_users"%string := usersEntry ]})
  /\ fst (SchemaService.getTableInfo "users"
            (SchemaService.mkService (mkWorld (@newManager Handle) 300001)
               {[ "table_users"%string := usersEntry ]}))
     = Thrown (JsError "No active database connection.").
Proof. split; vm_compute; reflexivity. Qed.

Lemma createConnection_registers_witness :
  isConnected localAdapter = true
  /\ getCurrentConnection sampleManager = (Returned localAdapter, sampleManager).
Proof.
  pose proof (ManagerOps.createConnection_registers "default" (configFor "localhost") "mssql"
                newManager sampleManager localAdapter eq_refl)
    as (_ & Hon & _ & _ & _ & _ & Hcur).
  split; [exact Hon|]. apply Hcur; [reflexivity | discriminate].
Defined.

Lemma removeConnection_returns_witness :
  getConnection "default" (@newManager Handle) =
  (Thrown (JsError "Connection not found: default"), newManager).
Proof.
  pose proof (ManagerOps.removeConnection_returns "default" sampleManager newManager eq_refl)
    as (Hgone & _).
  exact Hgone.
Defined.

Lemma disconnectAll_outcome_witness :
  mapKeys (connections (snd (disconnectAll twoManager))) = ["reports"%string]
  /\ currentConnection (snd (disconnectAll twoManager)) = None.
Proof.
  assert (Hnd : NoDup (mapKeys (connections twoManager))).
  { apply (bool_decide_unpack _). vm_compute. exact I. }
  pose proof (ManagerOps.disconnectAll_outcome twoManager Hnd) as [-> _].
  split; reflexivity.
Defined.

Lemma getQueryStats_extremes_witness :
  QueryService.sum_executionTime
    (QueryService.slowestQuery (QueryService.getQueryStats 5 twoQueries)) = 7%Z
  /\ (exists e, QueryOps.firstBest true (QueryService.queryHistory twoQueries) e).
Proof.
  assert (Hne : QueryService.queryHistory twoQueries <> []) by discriminate.
  pose proof (QueryOps.getQueryStats_extremes 5 twoQueries Hne)
    as (_ & _ & _ & _ & (e & Hfirst & _) & _).
  split; [reflexivity | exists e; exact Hfirst].
Defined.

Lemma getTableInfo_keeps_other_tables_witness :
  SchemaService.schemaCache (snd (SchemaService.getTableInfo "orders" (agedService 300001)))
    !! SchemaOps.tableKey "users" = Some usersEntry.
Proof.
  rewrite (SchemaOps.getTableInfo_keeps_other_tables "orders" "users" (agedService 300001))
    by discriminate.
  apply lookup_singleton_eq.
Defined.

Lemma services_without_connection_witness :
  fst (QueryService.executeQuery "SELECT 1" None (QueryService.newService emptyWorld)) =
  Thrown (JsError "No active database connection.")
  /\ fst (SchemaService.getTableInfo "users" (SchemaService.newService emptyWorld)) =
     Thrown (JsError "No active database connection.").
Proof.
  assert (Hn : GatewayOps.noCurrent emptyWorld) by reflexivity.
  pose proof (GatewayOps.services_without_connection "SELECT 1" None "users" emptyWorld
                [] [] ∅ Hn) as [(entry & Hrun & _) [_ Hschema]].
  split.
  - unfold QueryService.newService. rewrite Hrun. reflexivity.
  - destruct Hschema as [Hthrown _].
    + intros cached Hc. rewrite lookup_empty in Hc. discriminate.
    + unfold SchemaService.newService. rewrite Hthrown. reflexivity.
Defined.


(** *** Runs *)

(** The number of calls that the handle of the default connection has
    served. *)
Definition servedBy (w : World Handle) : option nat :=
  match mapGet "default" (connections (manager w)) with
  | Some adapter => served <$> pool adapter
  | None => None
  end.

(** A batch of the query service goes on after a query that the server
    rejects. *)
Example batch_goes_on_after_rejection :
  let run := QueryService.executeBatch ["SELECT * FROM missing"; "SELECT 1 as test"]%string
               (QueryService.newService sampleWorld) in
  (map success <$> match fst run with Returned rs => Some rs | Thrown _ => None end)
    = Some [false; true]
  /\ map QueryService.query (QueryService.queryHistory (snd run))
     = ["SELECT * FROM missing"; "SELECT 1 as test"]%string.
Proof. vm_compute. split; reflexivity. Qed.

(** The executor, for a statement that the server rejects, sends BEGIN,
    the statement and two ROLLBACKs, and throws the server's text. *)
Example executor_rolls_back_twice :
  let run := QueryExecutor.executeInTransaction "SELECT * FROM missing" []
               (QueryExecutor.mkExecutor sampleWorld [] []) in
  fst run = Thrown (JsError "Invalid object name 'missing'.")
  /\ servedBy (QueryExecutor.dbManager (snd run)) = Some 4%nat.
Proof. vm_compute. split; reflexivity. Qed.

(** The executor's batch gives the rejected query an empty result with
    the server's text, and goes on. *)
Example executor_batch_goes_on :
  let run := QueryExecutor.executeBatch ["SELECT * FROM missing"; "SELECT 1 as test"]%string
               None (QueryExecutor.mkExecutor sampleWorld [] []) in
  (map QueryExecutor.error <$> match fst run with Returned rs => Some rs | Thrown _ => None end)
    = Some [Some "Invalid object name 'missing'."%string; None]
  /\ servedBy (QueryExecutor.dbManager (snd run)) = Some 2%nat.
Proof. vm_compute. split; reflexivity. Qed.

(** Raising the level to "warn" is not announced in the history;
    lowering it to "debug" is. *)
Example level_change_announced_or_lost :
  Logging.logHistory (Logging.setLogLevel Logging.warn (Logging.newLogger Logging.info true))
    = []
  /\ Logging.logHistory (Logging.setLogLevel Logging.debug
                           (Logging.newLogger Logging.info true))
     = [Logging.mkEntry Logging.info "Log level changed to debug."].
Proof. split; reflexivity. Qed.

(** Of 1200 execution times recorded, the collector holds 1000. *)
Example collector_holds_a_thousand :
  length (Metrics.queryExecutionTimes
            (Metrics.recordAll (repeat 5%Z 1200) (Metrics.newCollector sampleManager)))
  = 1000%nat.
Proof. vm_compute. reflexivity. Qed.

(** After [disconnectAll] on the manager with the connection that cannot
    be closed, statistics and list still show it, as connected. *)
Example stuck_connection_stays_listed :
  ManagerOps.getConnectionList (snd (disconnectAll twoManager))
  = [ManagerOps.mkListing "reports" "mssql" "connected"].
Proof. vm_compute. reflexivity. Qed.

End SampleRuns.
